(** * AI-Powered Tuxemon: the dialogue-generation pipeline

    A shallow embedding of [backend/app/ai/ai_manager.py],
    [backend/app/ai/local_llm.py] and [backend/app/ai/validation.py], and
    of the two collaborators of the pipeline that keep state in memory or
    in the NPC table: [backend/app/game/gossip_propagation.py] (module
    [Gossip]) and [backend/app/game/emotion_system.py] (module [Emotion]);
    of the caller, [backend/app/api/routes/npcs.py], the relationship it
    stores after a dialogue.

    Conventions of the embedding.
    - Python [float] values are idealised as rationals ([Q]); a literal
      such as [0.7] denotes the rational 7/10, comparisons are the exact
      ones. Where the binary representation decides what the code does
      (the relationship level printed into the cache fingerprint, the
      budget figures compared with a threshold) the value is rounded to
      binary64 by [fl].
    - [async] functions are run to completion; a function with effects is a
      state-and-exception computation over [World] (the Redis store and a
      trace of the calls made to collaborators), a Python [try/except
      Exception] is [try_catch].
    - What the code obtains from outside (the clock, [random], the Redis
      client failing, HTTP answers of the local model, regular-expression
      matching) is read from an explicit environment [Env]. *)

From Stdlib Require Import QArith Qround Qabs Lqa ZArith String Ascii List Bool Lia.
From stdpp Require Import base gmap strings list pretty.

Local Open Scope Q_scope.

(** ** Exact comparisons on idealised floats *)

Definition Qltb (x y : Q) : bool := negb (Qle_bool y x).
Definition Qleb (x y : Q) : bool := Qle_bool x y.
Definition Qgtb (x y : Q) : bool := Qltb y x.
Definition Qgeb (x y : Q) : bool := Qleb y x.

(** ** Data model ([app/game/models.py]) *)

Record NPCInteractionContext := {
  player_id : string;
  npc_id : string;
  interaction_type : string;
  player_party_summary : string;
  recent_achievements : list string;
  relationship_level : Q;
  time_of_day : string
}.

Record DialogueResponse := {
  text : string;
  emotion : string;
  actions : list string;
  relationship_change : Q;
  triggers_battle : bool;
  shop_items : option (list string)
}.

(** [DialogueResponse(text=..., emotion=..., relationship_change=...)]:
    the remaining fields take the defaults of the pydantic model. *)
Definition mkResponse (t e : string) (rc : Q) : DialogueResponse :=
  {| text := t; emotion := e; actions := []; relationship_change := rc;
     triggers_battle := false; shop_items := None |}.

Record PersonalityTraits := {
  curiosity : Q;
  patience : Q;
  verbosity : Q;
  humor : Q;
  trust_threshold : Q;
  friendliness : Q;
  competitiveness : Q;
  knowledge_sharing : Q
}.

Record MemoryItem := {
  content : string;
  importance : Q;
  timestamp : Z;
  tags : list string;
  emotional_context : string
}.

(** The emotions the dialogue prompt allows
    ([_build_dialogue_prompt]: "neutral|happy|excited|sad|angry|confused|thoughtful"). *)
Definition allowed_emotions : list string :=
  ["neutral"; "happy"; "excited"; "sad"; "angry"; "confused"; "thoughtful"]%string.

Definition emotion_allowed (e : string) : bool :=
  existsb (String.eqb e) allowed_emotions.

Definition nonempty (s : string) : bool :=
  match s with EmptyString => false | _ => true end.

(** What a caller can rely on in a returned response. *)
Definition good_response (r : DialogueResponse) : Prop :=
  nonempty (text r) = true /\ emotion_allowed (emotion r) = true.

(** ** [random.choice]

    [random.choice(seq)] returns [seq[k]] for a [k] below [len(seq)]; the
    draw is the argument [k], reduced into range. *)
Definition choice (k : nat) (l : list string) : string :=
  nth (k mod length l) l EmptyString.

(** ** Fallback synthesizer: [AIManager._generate_fallback_dialogue] *)

Definition fallback_responses : list (string * list string) :=
  [ ("greeting", [ "Hello there! How are you doing?";
                   "Hey! Nice to see you!";
                   "Good to meet you, trainer!";
                   "Welcome! How can I help you?" ]);
    ("battle",   [ "Ready for a battle?";
                   "Let's see how strong your monsters are!";
                   "I've been training hard lately!";
                   "This should be fun!" ]);
    ("shop",     [ "Take a look at what I have for sale!";
                   "I've got some great items here!";
                   "Need any supplies?";
                   "Check out my wares!" ]) ]%string.

Fixpoint dict_get {V} (d : list (string * V)) (k : string) : option V :=
  match d with
  | [] => None
  | (k', v) :: d' => if String.eqb k k' then Some v else dict_get d' k
  end.

Definition dict_mem {V} (d : list (string * V)) (k : string) : bool :=
  match dict_get d k with Some _ => true | None => false end.

Definition _generate_fallback_dialogue
    (context : NPCInteractionContext) (personality : PersonalityTraits)
    (k : nat) : DialogueResponse :=
  let interaction_type :=
    if negb (dict_mem fallback_responses (interaction_type context))
    then "greeting"%string else interaction_type context in
  let responses := default [] (dict_get fallback_responses interaction_type) in
  let selected := choice k responses in
  let selected :=
    if Qgtb (verbosity personality) 0.7
    then (selected +:+ " How has your journey been going?")%string
    else selected in
  let emotion :=
    if Qgtb (friendliness personality) 0.5 then "happy"%string else "neutral"%string in
  mkResponse selected emotion 0.1.

(** ** Local adapter's internal fallback:
       [LocalLLMManager._create_fallback_response] *)

Definition _create_fallback_response
    (context : NPCInteractionContext) (personality : PersonalityTraits)
    (k : nat) : DialogueResponse :=
  let responses :=
    if Qgtb (relationship_level context) 0.5
    then [ "Good to see you again!"; "How have you been?"; "Nice to chat with you!" ]%string
    else [ "Hello there!"; "How can I help you?"; "Welcome to our town!" ]%string in
  let text := choice k responses in
  let text :=
    if Qgtb (verbosity personality) 0.7
    then (text +:+ " How's your adventure going?")%string
    else text in
  mkResponse text
    (if Qgtb (friendliness personality) 0.5 then "happy"%string else "neutral"%string)
    0.1.

(** ** [hashlib.md5(...).hexdigest()]

    RFC 1321 over the bytes of the string, on 32-bit words kept as [Z]
    with the wrap-around written out. *)
Module MD5.
Local Open Scope Z_scope.

Definition mask32 (x : Z) : Z := Z.land x 0xffffffff.
Definition add32 (a b : Z) : Z := mask32 (a + b).
Definition not32 (x : Z) : Z := Z.lxor x 0xffffffff.
Definition rotl32 (x c : Z) : Z :=
  mask32 (Z.lor (Z.shiftl x c) (Z.shiftr x (32 - c))).

Definition shifts : list Z :=
  [ 7; 12; 17; 22; 7; 12; 17; 22; 7; 12; 17; 22; 7; 12; 17; 22;
    5; 9; 14; 20; 5; 9; 14; 20; 5; 9; 14; 20; 5; 9; 14; 20;
    4; 11; 16; 23; 4; 11; 16; 23; 4; 11; 16; 23; 4; 11; 16; 23;
    6; 10; 15; 21; 6; 10; 15; 21; 6; 10; 15; 21; 6; 10; 15; 21 ].

Definition K : list Z :=
  [ 0xd76aa478; 0xe8c7b756; 0x242070db; 0xc1bdceee; 0xf57c0faf; 0x4787c62a; 0xa8304613; 0xfd469501;
    0x698098d8; 0x8b44f7af; 0xffff5bb1; 0x895cd7be; 0x6b901122; 0xfd987193; 0xa679438e; 0x49b40821;
    0xf61e2562; 0xc040b340; 0x265e5a51; 0xe9b6c7aa; 0xd62f105d; 0x02441453; 0xd8a1e681; 0xe7d3fbc8;
    0x21e1cde6; 0xc33707d6; 0xf4d50d87; 0x455a14ed; 0xa9e3e905; 0xfcefa3f8; 0x676f02d9; 0x8d2a4c8a;
    0xfffa3942; 0x8771f681; 0x6d9d6122; 0xfde5380c; 0xa4beea44; 0x4bdecfa9; 0xf6bb4b60; 0xbebfbc70;
    0x289b7ec6; 0xeaa127fa; 0xd4ef3085; 0x04881d05; 0xd9d4d039; 0xe6db99e5; 0x1fa27cf8; 0xc4ac5665;
    0xf4292244; 0x432aff97; 0xab9423a7; 0xfc93a039; 0x655b59c3; 0x8f0ccc92; 0xffeff47d; 0x85845dd1;
    0x6fa87e4f; 0xfe2ce6e0; 0xa3014314; 0x4e0811a1; 0xf7537e82; 0xbd3af235; 0x2ad7d2bb; 0xeb86d391 ].

Definition bytes_of_string (s : string) : list Z :=
  map (fun c => Z.of_N (N_of_ascii c)) (list_ascii_of_string s).

(** Little-endian bytes of [x], [n] of them. *)
Fixpoint le_bytes (n : nat) (x : Z) : list Z :=
  match n with
  | O => []
  | S n' => Z.land x 0xff :: le_bytes n' (Z.shiftr x 8)
  end.

Definition pad (msg : list Z) : list Z :=
  let len := Z.of_nat (length msg) in
  let zeros := Z.to_nat ((55 - len) mod 64) in
  msg ++ [0x80] ++ repeat 0 zeros ++ le_bytes 8 (8 * len).

Fixpoint words (fuel : nat) (bs : list Z) : list Z :=
  match fuel, bs with
  | S fuel', b0 :: b1 :: b2 :: b3 :: rest =>
      (b0 + Z.shiftl b1 8 + Z.shiftl b2 16 + Z.shiftl b3 24) :: words fuel' rest
  | _, _ => []
  end.

Fixpoint chunks (fuel : nat) (ws : list Z) : list (list Z) :=
  match fuel, ws with
  | S fuel', _ :: _ => firstn 16 ws :: chunks fuel' (skipn 16 ws)
  | _, _ => []
  end.

Definition step (M : list Z) (st : Z * Z * Z * Z) (i : Z) : Z * Z * Z * Z :=
  let '(A, B, C, D) := st in
  let '(F, g) :=
    if i <? 16 then (Z.lor (Z.land B C) (Z.land (not32 B) D), i)
    else if i <? 32 then (Z.lor (Z.land D B) (Z.land (not32 D) C), (5 * i + 1) mod 16)
    else if i <? 48 then (Z.lxor (Z.lxor B C) D, (3 * i + 5) mod 16)
    else (Z.lxor C (Z.lor B (not32 D)), (7 * i) mod 16) in
  let F := add32 (add32 (add32 F A) (nth (Z.to_nat i) K 0)) (nth (Z.to_nat g) M 0) in
  (D, add32 B (rotl32 F (nth (Z.to_nat i) shifts 0)), B, C).

Definition process (st : Z * Z * Z * Z) (M : list Z) : Z * Z * Z * Z :=
  let '(a0, b0, c0, d0) := st in
  let '(A, B, C, D) := fold_left (step M) (map Z.of_nat (seq 0 64)) st in
  (add32 a0 A, add32 b0 B, add32 c0 C, add32 d0 D).

Definition hex_digit (n : Z) : ascii :=
  nth (Z.to_nat n) (list_ascii_of_string "0123456789abcdef") "0"%char.

Definition hex_byte (b : Z) : list ascii :=
  [hex_digit (Z.shiftr b 4); hex_digit (Z.land b 0xf)].

Definition hexdigest (s : string) : string :=
  let bs := pad (bytes_of_string s) in
  let ws := words (length bs) bs in
  let '(a, b, c, d) :=
    fold_left process (chunks (length ws) ws)
      (0x67452301, 0xefcdab89, 0x98badcfe, 0x10325476) in
  string_of_list_ascii
    (concat (map hex_byte (le_bytes 4 a ++ le_bytes 4 b ++ le_bytes 4 c ++ le_bytes 4 d))).
End MD5.

(** ** Cache fingerprint: [AIManager._get_dialogue_cache_key] *)

(** Rounding to the nearest integer, ties to even, of a non-negative
    rational. *)
Definition round_half_even (x : Q) : Z :=
  let f := Qfloor x in
  let frac := x - inject_Z f in
  if Qltb frac 0.5 then f
  else if Qltb 0.5 frac then (f + 1)%Z
  else if Z.even f then f else (f + 1)%Z.

(** [2 ^ e] for an integer [e] of either sign. *)
Definition pow2 (e : Z) : Q :=
  match e with
  | Z0 => 1
  | Zpos p => inject_Z (2 ^ Zpos p)
  | Zneg p => 1 / inject_Z (2 ^ Zpos p)
  end.

(** The binade of a positive rational: the [e] with [2^e <= x < 2^(e+1)]. *)
Definition binade (x : Q) : Z :=
  let e := (Z.log2 (Qnum x) - Z.log2 (Zpos (Qden x)))%Z in
  if Qltb x (pow2 e) then (e - 1)%Z else e.

(** The binary64 number nearest to [x], ties to even: 53 significant bits,
    subnormals below [2^-1022]. This is what a Python [float] holds for a
    literal or for the exact result of one operation (magnitudes from
    [2^1024] on, which overflow, are outside the model). *)
Definition fl (x : Q) : Q :=
  if Qeq_bool x 0 then 0
  else
    let a := Qabs x in
    let q := Z.max (binade a - 52) (-1074) in
    let m := inject_Z (round_half_even (a / pow2 q)) * pow2 q in
    Qred (if Qltb x 0 then - m else m).

(** ["{:.1f}".format(x)]: the float, which is a binary fraction, is
    rounded correctly to one decimal, ties (which only a multiple of 1/20
    that is a binary64 number can produce) to even. *)
Definition format_1f (x : Q) : string :=
  let y := fl x in
  let n := round_half_even (Qabs y * 10) in
  ((if Qltb y 0 then "-" else "") +:+ pretty (n / 10)%Z +:+ "." +:+ pretty (n mod 10)%Z)%string.

Definition cache_key_content
    (npc : string) (context : NPCInteractionContext) (memories : list MemoryItem) : string :=
  (npc +:+ ":" +:+ interaction_type context +:+ ":" +:+
   format_1f (relationship_level context) +:+ ":" +:+ pretty (length memories))%string.

Definition _get_dialogue_cache_key
    (npc : string) (context : NPCInteractionContext) (memories : list MemoryItem) : string :=
  ("dialogue:" +:+ MD5.hexdigest (cache_key_content npc context memories))%string.

(** ** Effects: exceptions, the Redis store and the call trace *)

Inductive exn :=
| TypeError (msg : string)
| AttributeError (msg : string)
| ZeroDivisionError
| RecursionError
| StoreError
| BackendError (msg : string).

Inductive result (A : Type) :=
| Returned (a : A)
| Raised (e : exn).
Arguments Returned {A} a.
Arguments Raised {A} e.

Definition is_returned {A} (r : result A) : bool :=
  match r with Returned _ => true | Raised _ => false end.

(** Calls to collaborators, in the order they are made. *)
Inductive Event :=
| EvHealthCheck
| EvLocalGenerate
| EvClaudeMessagesCreate
| EvClaudeManagerGenerate (force_claude : bool)
| EvValidate (dialogue : DialogueResponse)
| EvRecordRequest (model_used : string) (estimated_cost : Q)
| EvEmotionLookup
| EvGossipLookup
| EvStoreMemory (response : DialogueResponse)
| EvCreateGossip (response : DialogueResponse)
| EvWarning (msg : string).

(** The keys of the Redis store the pipeline uses. Dates are day numbers
    ([date().isoformat()] is an injective rendering of them), hours are
    [0..23]. A cache entry carries the time at which [setex] lets it
    expire. *)
Record Redis := {
  cost_by_day : gmap Z Q;              (* hash "ai_cost_tracker", field = date *)
  daily_requests : gmap Z Z;           (* "ai_request_count:{date}" *)
  hourly_requests : gmap (Z * Z) Z;    (* "ai_request_count:{date}:{hour:02d}" *)
  usage_cost : gmap Z Q;               (* hash "ai_usage_stats:{date}", field "total_cost" *)
  usage_int : gmap (Z * string) Z;     (* hash "ai_usage_stats:{date}", integer fields *)
  dialogue_cache : gmap string (DialogueResponse * Z)
}.

Definition empty_redis : Redis :=
  {| cost_by_day := ∅; daily_requests := ∅; hourly_requests := ∅;
     usage_cost := ∅; usage_int := ∅; dialogue_cache := ∅ |}.

(** The budget ledger is the part of the store the cost tracker writes. *)
Definition ledger (r : Redis) :
    gmap Z Q * gmap Z Z * gmap (Z * Z) Z * gmap Z Q * gmap (Z * string) Z :=
  (cost_by_day r, daily_requests r, hourly_requests r, usage_cost r, usage_int r).

Record World := {
  redis : Redis;
  redis_ops : nat;          (* Redis commands issued so far *)
  trace : list Event
}.

Definition initial_world : World :=
  {| redis := empty_redis; redis_ops := 0; trace := [] |}.

Record Settings := {
  ai_enabled : bool;
  ai_cache_ttl : Z;
  max_cost_per_day_usd : Q
}.

(** [app/config.py]. *)
Definition default_settings : Settings :=
  {| ai_enabled := true; ai_cache_ttl := 3600; max_cost_per_day_usd := 50 |}.

(** The outcome of the HTTP exchange with the local model together with
    what [_parse_local_response] makes of the generated text: [None] when
    the text yields neither JSON nor usable plain text. *)
Inductive LocalHttp :=
| HttpRaises
| HttpStatus (code : Z) (parsed : option DialogueResponse).

(** The outcome of [claude_client.messages.create] and of decoding its
    text: the call raises; the text is JSON that fits the response model;
    it is JSON that does not fit it; or it is not JSON at all. *)
Inductive ClaudeApi :=
| ApiRaises
| ApiJson (response : DialogueResponse)
| ApiJsonInvalid
| ApiPlainText (response_text : string).

(** What one request obtains from outside the program. *)
Record Env := {
  now : Z;                              (* [datetime.utcnow()], in seconds *)
  redis_fails : nat -> bool;            (* does the n-th Redis command raise? *)
  elapsed_ms : Z;                       (* [int((end_time - start_time) * 1000)] *)
  fallback_pick : nat;                  (* [random.choice] in the fallback synthesizer *)
  local_pick : nat;                     (* [random.choice] in the local fallback *)
  random_draw : Q;                      (* [random.random()] *)
  local_health : nat -> bool;           (* n-th [_health_check()] *)
  local_http : LocalHttp;
  claude_api : ClaudeApi;
  has_db_session : bool;
  re_search : string -> string -> bool  (* [re.search(pattern, text)] is not [None] *)
}.

(** A nested request is made without [db_session]. *)
Definition without_db_session (env : Env) : Env :=
  {| now := now env; redis_fails := redis_fails env; elapsed_ms := elapsed_ms env;
     fallback_pick := fallback_pick env; local_pick := local_pick env;
     random_draw := random_draw env; local_health := local_health env;
     local_http := local_http env; claude_api := claude_api env;
     has_db_session := false; re_search := re_search env |}.

Definition today (env : Env) : Z := (now env / 86400)%Z.
Definition hour (env : Env) : Z := ((now env / 3600) mod 24)%Z.

(** State-and-exception computations. *)
Definition M (A : Type) : Type := World -> result A * World.

Definition ret {A} (a : A) : M A := fun w => (Returned a, w).
Definition raise {A} (e : exn) : M A := fun w => (Raised e, w).
Definition bind {A B} (m : M A) (f : A -> M B) : M B :=
  fun w => match m w with
           | (Returned a, w') => f a w'
           | (Raised e, w') => (Raised e, w')
           end.
(** [try: m  except Exception as e: h e]. *)
Definition try_catch {A} (m : M A) (h : exn -> M A) : M A :=
  fun w => match m w with
           | (Returned a, w') => (Returned a, w')
           | (Raised e, w') => h e w'
           end.

Notation "'let!' x ':=' m 'in' k" := (bind m (fun x => k))
  (at level 10, x name, m at level 100, k at level 200).
Notation "'do!' m 'in' k" := (bind m (fun _ => k))
  (at level 10, m at level 100, k at level 200).

Definition emit (ev : Event) : M unit :=
  fun w => (Returned tt,
            {| redis := redis w; redis_ops := redis_ops w; trace := trace w ++ [ev] |}).

Definition when (b : bool) (m : M unit) : M unit := if b then m else ret tt.

(** One Redis command: it raises when the environment says so, otherwise
    it reads and updates the store. *)
Definition redis_cmd {A} (env : Env) (f : Redis -> A * Redis) : M A :=
  fun w =>
    let n := redis_ops w in
    if redis_fails env n
    then (Raised StoreError,
          {| redis := redis w; redis_ops := S n; trace := trace w |})
    else let '(a, r) := f (redis w) in
         (Returned a, {| redis := r; redis_ops := S n; trace := trace w |}).

(** ** Budget ledger: [DailyCostTracker] *)

Definition hget_cost (env : Env) (date : Z) : M (option Q) :=
  redis_cmd env (fun r => (cost_by_day r !! date, r)).

Definition hincrbyfloat_cost (env : Env) (date : Z) (amount : Q) : M unit :=
  redis_cmd env (fun r =>
    (tt, {| cost_by_day := <[date := default 0 (cost_by_day r !! date) + amount]> (cost_by_day r);
            daily_requests := daily_requests r; hourly_requests := hourly_requests r;
            usage_cost := usage_cost r; usage_int := usage_int r;
            dialogue_cache := dialogue_cache r |})).

Definition get_daily_requests (env : Env) (date : Z) : M (option Z) :=
  redis_cmd env (fun r => (daily_requests r !! date, r)).

Definition incr_daily (env : Env) (date : Z) : M unit :=
  redis_cmd env (fun r =>
    (tt, {| cost_by_day := cost_by_day r;
            daily_requests := <[date := (default 0 (daily_requests r !! date) + 1)%Z]> (daily_requests r);
            hourly_requests := hourly_requests r;
            usage_cost := usage_cost r; usage_int := usage_int r;
            dialogue_cache := dialogue_cache r |})).

Definition incr_hourly (env : Env) (date h : Z) : M unit :=
  redis_cmd env (fun r =>
    (tt, {| cost_by_day := cost_by_day r; daily_requests := daily_requests r;
            hourly_requests :=
              <[(date, h) := (default 0 (hourly_requests r !! (date, h)) + 1)%Z]> (hourly_requests r);
            usage_cost := usage_cost r; usage_int := usage_int r;
            dialogue_cache := dialogue_cache r |})).

Definition hincrbyfloat_usage (env : Env) (date : Z) (amount : Q) : M unit :=
  redis_cmd env (fun r =>
    (tt, {| cost_by_day := cost_by_day r; daily_requests := daily_requests r;
            hourly_requests := hourly_requests r;
            usage_cost := <[date := default 0 (usage_cost r !! date) + amount]> (usage_cost r);
            usage_int := usage_int r;
            dialogue_cache := dialogue_cache r |})).

Definition hincrby_usage (env : Env) (date : Z) (field : string) (n : Z) : M unit :=
  redis_cmd env (fun r =>
    (tt, {| cost_by_day := cost_by_day r; daily_requests := daily_requests r;
            hourly_requests := hourly_requests r; usage_cost := usage_cost r;
            usage_int :=
              <[(date, field) := (default 0 (usage_int r !! (date, field)) + n)%Z]> (usage_int r);
            dialogue_cache := dialogue_cache r |})).

Definition hget_usage (env : Env) (date : Z) (field : string) : M (option Z) :=
  redis_cmd env (fun r => (usage_int r !! (date, field), r)).

(** [redis.expire(key, seconds)]: the retention of the counters (a week,
    two days for the hourly ones) lies outside what a request observes;
    the command can still raise. *)
Definition expire (env : Env) : M unit := redis_cmd env (fun r => (tt, r)).

(** [DailyCostTracker.can_make_request]. *)
Definition can_make_request (settings : Settings) (env : Env) : M bool :=
  try_catch
    (let! daily_cost := hget_cost env (today env) in
     match daily_cost with
     | None => ret true
     | Some current_cost =>
         let max_cost := max_cost_per_day_usd settings in
         do! (if Qgeb current_cost (max_cost * 0.9)
              then emit (EvWarning "Daily cost at 90% of limit")
              else if Qgeb current_cost (max_cost * 0.8)
              then emit (EvWarning "Daily cost at 80% of limit")
              else ret tt) in
         ret (Qltb current_cost max_cost)
     end)
    (fun _ => ret true).

(** [DailyCostTracker.record_request]. *)
Definition record_request (env : Env)
    (estimated_cost : Q) (model_used : string) (tokens_used response_time_ms : Z) : M unit :=
  try_catch
    (let today := today env in
     let hour := hour env in
     do! hincrbyfloat_cost env today estimated_cost in
     do! incr_daily env today in
     do! incr_hourly env today hour in
     do! hincrbyfloat_usage env today estimated_cost in
     do! hincrby_usage env today "total_requests" 1 in
     do! hincrby_usage env today ("requests_" +:+ model_used) 1 in
     do! when (0 <? tokens_used)%Z (hincrby_usage env today "total_tokens" tokens_used) in
     do! when (0 <? response_time_ms)%Z
           (hincrby_usage env today "total_response_time_ms" response_time_ms) in
     do! expire env in
     do! expire env in
     do! expire env in
     do! expire env in
     let! total_cost_today := hget_cost env today in
     let! total_requests_today := get_daily_requests env today in
     match total_cost_today with
     | None => raise (TypeError "float() argument must be a string or a number")
     | Some _ => ret tt
     end)
    (fun _ => ret tt).

Record DailyStats := {
  ds_total_cost : Q;
  ds_total_requests : Z;
  ds_avg_cost_per_request : Q;
  ds_avg_response_time_ms : Q;
  ds_budget_limit : Q;
  ds_budget_remaining : Q;
  ds_budget_utilization : Q;
  ds_requests_claude : Z;
  ds_requests_local : Z;
  ds_total_tokens : Z;
  ds_error : bool
}.

Definition Qmaxq (x y : Q) : Q := if Qleb x y then y else x.
Definition Qminq (x y : Q) : Q := if Qleb x y then x else y.

(** Python's [/] on floats raises on a zero divisor. *)
Definition py_div (x y : Q) : M Q :=
  if Qeq_bool y 0 then raise ZeroDivisionError else ret (x / y).

(** Float arithmetic with its rounding: the operands are the floats
    nearest to the given rationals, the result is the exact result
    rounded to binary64. *)
Definition fsub (x y : Q) : Q := fl (fl x - fl y).
Definition fmul (x y : Q) : Q := fl (fl x * fl y).
Definition fdiv (x y : Q) : Q := fl (fl x / fl y).

Definition py_fdiv (x y : Q) : M Q :=
  if Qeq_bool y 0 then raise ZeroDivisionError else ret (fdiv x y).

(** [DailyCostTracker.get_daily_stats]. The utilization is compared with
    the alert threshold, so the two roundings of
    [(total_cost / settings.max_cost_per_day_usd) * 100] are kept, and so
    is that of the subtraction beside it; the averages are reported only
    and stay exact. *)
Definition get_daily_stats (settings : Settings) (env : Env) (date : Z) : M DailyStats :=
  try_catch
    (let! daily_cost := hget_cost env date in
     let! daily_requests := get_daily_requests env date in
     (* [hgetall]: one command returning the whole hash *)
     let! detailed_stats :=
       redis_cmd env (fun r => (fun field => usage_int r !! (date, field), r)) in
     let total_cost := default 0 daily_cost in
     let total_requests := default 0%Z daily_requests in
     let! avg_cost_per_request :=
       (if (0 <? total_requests)%Z then py_div total_cost (inject_Z total_requests) else ret 0) in
     let total_response_time := default 0%Z (detailed_stats "total_response_time_ms"%string) in
     let! avg_response_time :=
       (if (0 <? total_requests)%Z
        then py_div (inject_Z total_response_time) (inject_Z total_requests) else ret 0) in
     let limit := max_cost_per_day_usd settings in
     let! ratio := py_fdiv total_cost limit in
     ret {| ds_total_cost := total_cost;
            ds_total_requests := total_requests;
            ds_avg_cost_per_request := avg_cost_per_request;
            ds_avg_response_time_ms := avg_response_time;
            ds_budget_limit := limit;
            ds_budget_remaining := Qmaxq 0 (fsub limit total_cost);
            ds_budget_utilization := Qminq 100 (fmul ratio 100);
            ds_requests_claude := default 0%Z (detailed_stats "requests_claude"%string);
            ds_requests_local := default 0%Z (detailed_stats "requests_local"%string);
            ds_total_tokens := default 0%Z (detailed_stats "total_tokens"%string);
            ds_error := false |})
    (fun _ =>
       ret {| ds_total_cost := 0; ds_total_requests := 0;
              ds_avg_cost_per_request := 0; ds_avg_response_time_ms := 0;
              ds_budget_limit := 0; ds_budget_remaining := 0; ds_budget_utilization := 0;
              ds_requests_claude := 0; ds_requests_local := 0; ds_total_tokens := 0;
              ds_error := true |}).

Record CostProjection := {
  daily_avg : Q;
  weekly_total : option Q;
  monthly_projection : Q;
  confidence : string;
  data_points : option nat
}.

Definition Qsum (l : list Q) : Q := fold_right Qplus 0 l.

(** [c > 0] for the elements of [costs]. *)
Definition positive_costs (costs : list Q) : list Q :=
  List.filter (fun c => Qgtb c 0) costs.

(** Python's [any(costs)]: some cost is not zero. *)
Definition any_nonzero (costs : list Q) : bool :=
  existsb (fun c => negb (Qeq_bool c 0)) costs.

(** The body of [get_cost_projection] once the seven daily totals are read. *)
Definition project (costs : list Q) : M CostProjection :=
  if negb (any_nonzero costs)
  then ret {| daily_avg := 0; weekly_total := None; monthly_projection := 0;
              confidence := "low"; data_points := None |}
  else
    let! daily_avg := py_div (Qsum costs) (inject_Z (Z.of_nat (length (positive_costs costs)))) in
    let monthly_projection := daily_avg * 30 in
    let active_days := length (positive_costs costs) in
    let confidence :=
      if (5 <=? active_days)%nat then "high"%string
      else if (3 <=? active_days)%nat then "medium"%string else "low"%string in
    ret {| daily_avg := daily_avg; weekly_total := Some (Qsum costs);
           monthly_projection := monthly_projection;
           confidence := confidence; data_points := Some active_days |}.

Fixpoint daily_costs (settings : Settings) (env : Env) (days : list Z) : M (list Q) :=
  match days with
  | [] => ret []
  | i :: rest =>
      let! stats := get_daily_stats settings env (today env - i) in
      let! costs := daily_costs settings env rest in
      ret (ds_total_cost stats :: costs)
  end.

(** [DailyCostTracker.get_cost_projection]. *)
Definition get_cost_projection (settings : Settings) (env : Env) : M CostProjection :=
  try_catch
    (let! costs := daily_costs settings env (map Z.of_nat (seq 0 7)) in
     project costs)
    (fun _ =>
       ret {| daily_avg := 0; weekly_total := None; monthly_projection := 0;
              confidence := "error"; data_points := None |}).

(** ** Text primitives of Python's [str], on UTF-8 bytes

    [lower] folds the ASCII letters only: it is [str.lower()] on text
    whose cased letters are ASCII, which the patterns, keywords and canned
    responses of the pipeline are. [split_ws] knows every white space of
    [str.split()]; [strip] removes the ASCII ones. *)

Definition is_space (c : ascii) : bool :=
  let n := nat_of_ascii c in
  ((9 <=? n) && (n <=? 13) || (28 <=? n) && (n <=? 32))%nat.

Definition lower_ascii (c : ascii) : ascii :=
  let n := nat_of_ascii c in
  if ((65 <=? n) && (n <=? 90))%nat then ascii_of_nat (n + 32) else c.

Fixpoint lower (s : string) : string :=
  match s with
  | EmptyString => EmptyString
  | String c s' => String (lower_ascii c) (lower s')
  end.

(** [needle in haystack]. *)
Fixpoint contains (haystack needle : string) : bool :=
  String.prefix needle haystack ||
  match haystack with
  | EmptyString => false
  | String _ h' => contains h' needle
  end.

(** The white space of [str.isspace()] beyond ASCII, in UTF-8: U+0085
    and U+00A0 take two bytes; U+1680, U+2000 to U+200A, U+2028, U+2029,
    U+202F, U+205F and U+3000 take three. *)
Definition is_space2 (a b : ascii) : bool :=
  let b := nat_of_ascii b in
  ((nat_of_ascii a =? 194) && ((b =? 133) || (b =? 160)))%nat.

Definition is_space3 (a b c : ascii) : bool :=
  let a := nat_of_ascii a in
  let b := nat_of_ascii b in
  let c := nat_of_ascii c in
  ((a =? 225) && (b =? 154) && (c =? 128) ||
   (a =? 226) && (b =? 128) &&
     ((128 <=? c) && (c <=? 138) || (c =? 168) || (c =? 169) || (c =? 175)) ||
   (a =? 226) && (b =? 129) && (c =? 159) ||
   (a =? 227) && (b =? 128) && (c =? 128))%nat.

(** [str.split()]: the maximal runs of non-blank characters. *)
Fixpoint split_ws_aux (s : string) (cur : string) : list string :=
  let flush := if nonempty cur then [cur] else [] in
  match s with
  | EmptyString => flush
  | String c s1 =>
      if is_space c then flush ++ split_ws_aux s1 EmptyString
      else
        match s1 with
        | String c2 s2 =>
            if is_space2 c c2 then flush ++ split_ws_aux s2 EmptyString
            else
              match s2 with
              | String c3 s3 =>
                  if is_space3 c c2 c3 then flush ++ split_ws_aux s3 EmptyString
                  else split_ws_aux s1 (cur +:+ String c EmptyString)
              | EmptyString => split_ws_aux s1 (cur +:+ String c EmptyString)
              end
        | EmptyString => split_ws_aux s1 (cur +:+ String c EmptyString)
        end
  end.
Definition split_ws (s : string) : list string := split_ws_aux s EmptyString.

Definition word_count (s : string) : nat := length (split_ws s).

(** [str.split(sep)] for a one-character separator. *)
Fixpoint split_on_aux (sep : ascii) (s : string) (cur : string) : list string :=
  match s with
  | EmptyString => [cur]
  | String c s' =>
      if Ascii.eqb c sep
      then cur :: split_on_aux sep s' EmptyString
      else split_on_aux sep s' (cur +:+ String c EmptyString)
  end.
Definition split_on (sep : ascii) (s : string) : list string := split_on_aux sep s EmptyString.

Fixpoint lstrip (s : string) : string :=
  match s with
  | String c s' => if is_space c then lstrip s' else s
  | EmptyString => EmptyString
  end.

Definition rev_string (s : string) : string :=
  string_of_list_ascii (rev (list_ascii_of_string s)).

Definition strip (s : string) : string :=
  rev_string (lstrip (rev_string (lstrip s))).

(** [len(s)] counts code points: the bytes that are not UTF-8
    continuation bytes. *)
Definition py_len (s : string) : nat :=
  length (List.filter (fun c => negb ((128 <=? nat_of_ascii c) && (nat_of_ascii c <? 192))%nat)
            (list_ascii_of_string s)).

(** ** Response validator: [DialogueValidator] *)

Inductive ValidationSeverity := INFO | WARNING | ERROR | CRITICAL.

Definition severity_eqb (a b : ValidationSeverity) : bool :=
  match a, b with
  | INFO, INFO | WARNING, WARNING | ERROR, ERROR | CRITICAL, CRITICAL => true
  | _, _ => false
  end.

Record ValidationResult := {
  is_valid : bool;
  severity : ValidationSeverity;
  issues : list string;
  score : Q;
  suggested_fixes : list string
}.

Record CanonFact := {
  fact_id : string;
  category : string;
  fact : string;
  keywords : list string;
  fact_importance : Q
}.

(** [initialize_canon_database]: [canon_data + ai_constraints]. *)
Definition canon_facts : list CanonFact :=
  [ {| fact_id := "world_setting"; category := "lore";
       fact := "Tuxemon takes place in a world where monsters can be tamed and trained by humans";
       keywords := ["world"; "setting"; "monsters"; "tamed"; "trained"; "humans"];
       fact_importance := 1.0 |};
    {| fact_id := "monster_mechanics"; category := "mechanics";
       fact := "Monsters have elements, stats, and can learn techniques in battle";
       keywords := ["monsters"; "elements"; "stats"; "techniques"; "battle"; "combat"];
       fact_importance := 0.9 |};
    {| fact_id := "capture_system"; category := "mechanics";
       fact := "Wild monsters can be captured using capture devices and items";
       keywords := ["capture"; "wild"; "monsters"; "devices"; "items"; "catch"];
       fact_importance := 0.8 |};
    {| fact_id := "trainer_culture"; category := "lore";
       fact := "People who train monsters are called trainers and often travel to improve their skills";
       keywords := ["trainers"; "travel"; "improve"; "skills"; "training"; "journey"];
       fact_importance := 0.7 |};
    {| fact_id := "no_violence_humans"; category := "constraints";
       fact := "Tuxemon is family-friendly: no violence between humans, no death, no inappropriate content";
       keywords := ["violence"; "death"; "inappropriate"; "family-friendly"; "safe"];
       fact_importance := 1.0 |};
    {| fact_id := "healing_centers"; category := "lore";
       fact := "Towns have healing centers where trainers can restore their monsters' health";
       keywords := ["healing"; "centers"; "towns"; "restore"; "health"; "monsters"];
       fact_importance := 0.6 |};
    {| fact_id := "starting_town"; category := "locations";
       fact := "Players begin their journey in a peaceful starting town with friendly NPCs";
       keywords := ["starting"; "town"; "peaceful"; "friendly"; "begin"; "journey"];
       fact_importance := 0.8 |};
    {| fact_id := "no_meta_references"; category := "constraints";
       fact := "NPCs should never reference being AI, being in a game, or break the fourth wall";
       keywords := ["AI"; "game"; "player"; "character"; "fourth wall"; "meta"];
       fact_importance := 1.0 |};
    {| fact_id := "consistent_personality"; category := "constraints";
       fact := "NPCs must maintain consistent personality traits and behavior patterns";
       keywords := ["personality"; "consistent"; "behavior"; "traits"; "character"];
       fact_importance := 0.9 |};
    {| fact_id := "appropriate_knowledge"; category := "constraints";
       fact := "NPCs should only know information their character would realistically know";
       keywords := ["knowledge"; "realistic"; "character"; "information"; "know"];
       fact_importance := 0.8 |} ]%string.

Definition contradiction_patterns : list string :=
  [ "monsters (can't|cannot|don't|do not) (be|get) (captured|caught|tamed)";
    "(no|there are no) (healing|health) (centers|stations)";
    "monsters (are not|aren't) real";
    "(trainers|people) (can't|cannot) (train|tame) monsters" ]%string.

(** A check yields its issues and its score factor. *)
Definition CheckResult : Type := list string * Q.

Section Validator.
Variable search : string -> string -> bool.

(** [for pattern in patterns: if re.search(pattern, text): ...; break]. *)
Definition any_match (patterns : list string) (text : string) : bool :=
  existsb (fun pattern => search pattern text) patterns.

Definition _check_canon_violations (text : string) : CheckResult :=
  let text_lower := lower text in
  fold_left
    (fun (acc : CheckResult) (f : CanonFact) =>
       if String.eqb (category f) "constraints" then acc
       else
         let relevant_keywords := List.filter (fun kw => contains text_lower kw) (keywords f) in
         match relevant_keywords with
         | [] => acc
         | _ :: _ =>
             if any_match contradiction_patterns text_lower
             then (fst acc ++ [("Potential canon contradiction: " +:+ fact f)%string],
                   snd acc * 0.7)
             else acc
         end)
    canon_facts ([], 1).

Definition forbidden_patterns : list (string * list string) :=
  [ ("violence",
       [ "\b(kill|murder|death|die|dead|blood)\b";
         "\b(hurt|harm|pain|suffer)\b.*\b(human|person|people)\b" ]);
    ("inappropriate",
       [ "\b(sex|sexual|adult|mature)\b";
         "\b(drug|alcohol|drunk|high)\b";
         "\b(hate|racism|discrimination)\b" ]);
    ("real_world",
       [ "\b(internet|wifi|smartphone|computer|laptop)\b";
         "\b(facebook|twitter|instagram|youtube)\b";
         "\b(covid|pandemic|politics|election)\b" ]);
    ("meta_gaming",
       [ "\b(NPC|player character|game|level|stats|HP|MP)\b";
         "\b(developer|programmer|code|bug|glitch)\b";
         "\b(save|load|reset|restart)\b" ]) ]%string.

Definition _check_forbidden_content (text : string) : CheckResult :=
  let text_lower := lower text in
  fold_left
    (fun (acc : CheckResult) (entry : string * list string) =>
       if any_match (snd entry) text_lower
       then (fst acc ++ [("Contains forbidden " +:+ fst entry +:+ " content")%string],
             snd acc * 0.5)
       else acc)
    forbidden_patterns ([], 1).

Definition _check_tone_consistency
    (dialogue : DialogueResponse) (context : NPCInteractionContext)
    (personality_traits : option PersonalityTraits) : CheckResult :=
  let text_lower := lower (text dialogue) in
  let relationship_level := relationship_level context in
  let acc : CheckResult :=
    if Qltb relationship_level 0.2 then
      if search "\b(buddy|friend|pal|dear|honey)\b" text_lower
      then (["Too familiar tone for low relationship level"%string], 1 * 0.9) else ([], 1)
    else if Qgtb relationship_level 0.8 then
      if search "\b(sir|madam|stranger|unknown)\b" text_lower
      then (["Too formal tone for high relationship level"%string], 1 * 0.9) else ([], 1)
    else ([], 1) in
  match personality_traits with
  | None => acc
  | Some traits =>
      let verbosity := verbosity traits in
      let friendliness := friendliness traits in
      let word_count := word_count (text dialogue) in
      let acc : CheckResult :=
        if Qltb verbosity 0.3 && (50 <? word_count)%nat
        then (fst acc ++ ["Too verbose for quiet personality"%string], snd acc * 0.9)
        else if Qgtb verbosity 0.7 && (word_count <? 10)%nat
        then (fst acc ++ ["Too brief for talkative personality"%string], snd acc * 0.9)
        else acc in
      if Qltb friendliness 0.3 &&
         existsb (String.eqb (emotion dialogue)) ["happy"; "excited"]%string
      then (fst acc ++ ["Too positive emotion for reserved personality"%string], snd acc * 0.9)
      else if Qgtb friendliness 0.7 &&
         existsb (String.eqb (emotion dialogue)) ["angry"; "sad"]%string
      then (fst acc ++ ["Negative emotion unusual for friendly personality"%string],
            snd acc * 0.95)
      else acc
  end.

Definition meta_patterns : list string :=
  [ "\b(I am an? (AI|bot|NPC|character))\b";
    "\b(this is a (game|simulation|program))\b";
    "\b(you are (a )?player)\b";
    "\b(press (a )?button|click|keyboard|mouse)\b";
    "\b(loading|saving|menu|interface)\b";
    "\b(developer|programmer|coder)\b";
    "\b(fourth wall|meta)\b" ]%string.

Definition _check_meta_references (text : string) : CheckResult :=
  if any_match meta_patterns (lower text)
  then (["Contains meta-gaming or fourth wall breaking references"%string], 1 * 0.3)
  else ([], 1).

Definition problematic_chars : list string :=
  [ "€"; "£"; "¥"; "©"; "®"; "™"; "§" ]%string.

Definition _check_mobile_constraints (text : string) : CheckResult :=
  let word_count := word_count text in
  let acc : CheckResult :=
    if (100 <? word_count)%nat
    then ([("Dialogue too long for mobile (" +:+ pretty word_count +:+ " words, max 100)")%string],
          1 * 0.8)
    else ([], 1) in
  let acc : CheckResult :=
    if existsb (fun sentence => (200 <? py_len (strip sentence))%nat) (split_on "." text)
    then (fst acc ++ ["Contains very long sentences that may be hard to read on mobile"%string],
          snd acc * 0.9)
    else acc in
  if existsb (fun char => contains text char) problematic_chars
  then (fst acc ++ ["Contains special characters that may not display properly"%string],
        snd acc * 0.95)
  else acc.

Definition suggestion_for (issue : string) : list string :=
  let l := lower issue in
  if contains l "too long" then ["Shorten the dialogue to under 100 words"%string]
  else if contains l "forbidden"
  then ["Remove inappropriate content and keep dialogue family-friendly"%string]
  else if contains l "meta" || contains l "fourth wall"
  then ["Stay in character and avoid breaking immersion"%string]
  else if contains l "tone"
  then ["Adjust tone to match NPC personality and relationship level"%string]
  else if contains l "canon"
  then ["Ensure dialogue aligns with established game lore and mechanics"%string]
  else [].

Definition _generate_suggestions (issues : list string) : list string :=
  match concat (map suggestion_for issues) with
  | [] => ["Minor improvements could enhance dialogue quality"%string]
  | suggestions => suggestions
  end.

(** [DialogueValidator.validate_dialogue]. *)
Definition validate_dialogue
    (dialogue : DialogueResponse) (context : NPCInteractionContext)
    (npc_personality_traits : option PersonalityTraits) : ValidationResult :=
  let issues : list string := [] in
  let score : Q := 1 in
  let '(canon_issues, canon_score) := _check_canon_violations (text dialogue) in
  let issues := issues ++ canon_issues in
  let score := score * canon_score in
  let '(content_issues, content_score) := _check_forbidden_content (text dialogue) in
  let issues := issues ++ content_issues in
  let score := score * content_score in
  let '(tone_issues, tone_score) :=
    _check_tone_consistency dialogue context npc_personality_traits in
  let issues := issues ++ tone_issues in
  let score := score * tone_score in
  let '(meta_issues, meta_score) := _check_meta_references (text dialogue) in
  let issues := issues ++ meta_issues in
  let score := score * meta_score in
  let '(length_issues, length_score) := _check_mobile_constraints (text dialogue) in
  let issues := issues ++ length_issues in
  let score := score * length_score in
  let severity :=
    if Qltb score 0.5 then CRITICAL
    else if Qltb score 0.7 then ERROR
    else if Qltb score 0.9 then WARNING
    else INFO in
  let is_valid := Qgeb score 0.7 && negb (severity_eqb severity CRITICAL) in
  {| is_valid := is_valid; severity := severity; issues := issues; score := score;
     suggested_fixes := _generate_suggestions issues |}.

End Validator.

(** ** Local adapter: [LocalLLMManager] *)

Definition count_health_checks (t : list Event) : nat :=
  length (List.filter (fun ev => match ev with EvHealthCheck => true | _ => false end) t).

(** [LocalLLMManager._health_check]: the probe is time-gated and catches
    its own errors; its answer comes from the environment. *)
Definition _health_check (env : Env) : M bool :=
  fun w =>
    let healthy := local_health env (count_health_checks (trace w)) in
    (Returned healthy,
     {| redis := redis w; redis_ops := redis_ops w; trace := trace w ++ [EvHealthCheck] |}).

(** [LocalLLMManager.generate_dialogue]. *)
Definition local_generate_dialogue (env : Env)
    (context : NPCInteractionContext) (personality : PersonalityTraits)
    (memories : list MemoryItem) : M DialogueResponse :=
  let! healthy := _health_check env in
  if negb healthy then raise (BackendError "Local LLM not available")
  else
    try_catch
      (do! emit EvLocalGenerate in
       match local_http env with
       | HttpRaises => raise (BackendError "request failed")
       | HttpStatus code parsed =>
           if negb (code =? 200)%Z then raise (BackendError "Ollama request failed")
           else match parsed with
                | Some dialogue_response => ret dialogue_response
                | None => ret (_create_fallback_response context personality (local_pick env))
                end
       end)
      (fun _ => ret (_create_fallback_response context personality (local_pick env))).

(** ** Backend router: [HybridLLMManager] *)

Record HybridLLMManager := {
  local_enabled : bool;      (* [local_manager.config.enabled] *)
  use_local_ratio : Q
}.

(** [HybridLLMManager.__init__]: local 80% of the time. *)
Definition default_hybrid (enabled : bool) : HybridLLMManager :=
  {| local_enabled := enabled; use_local_ratio := 0.8 |}.

(** [HybridLLMManager._should_use_local]; [r] is [random.random()]. *)
Definition _should_use_local (hm : HybridLLMManager)
    (context : NPCInteractionContext) (personality : PersonalityTraits)
    (memories : list MemoryItem) (r : Q) : bool :=
  if Qgtb (relationship_level context) 0.8 then false
  else if (3 <? length memories)%nat && existsb (fun m => Qgtb (importance m) 0.8) memories
  then false
  else if String.eqb (interaction_type context) "battle" then false
  else Qltb r (use_local_ratio hm).

Definition generic_phrases : list string :=
  [ "how can i help"; "hello there"; "how are you"; "nice to see you"; "welcome" ]%string.

Definition memory_keywords (memories : list MemoryItem) : list string :=
  concat (map (fun memory =>
                 List.filter (fun w => (4 <? py_len w)%nat) (split_ws (lower (content memory))))
              (firstn 2 memories)).

Definition is_nil {A} (l : list A) : bool :=
  match l with [] => true | _ => false end.

(** [HybridLLMManager._is_response_too_generic]. *)
Definition _is_response_too_generic
    (response : DialogueResponse) (memories : list MemoryItem)
    (context : NPCInteractionContext) : bool :=
  let by_memories :=
    if negb (is_nil memories) && Qgtb (relationship_level context) 0.3 then
      let memory_keywords := memory_keywords memories in
      let response_words := split_ws (lower (text response)) in
      let memory_overlap :=
        length (List.filter (fun w => existsb (String.eqb w) response_words)
                  (remove_dups memory_keywords)) in
      (memory_overlap =? 0)%nat && (0 <? length (remove_dups memory_keywords))%nat
    else false in
  if by_memories then true
  else
    let response_lower := lower (text response) in
    let generic_count :=
      length (List.filter (fun phrase => contains response_lower phrase) generic_phrases) in
    (2 <=? generic_count)%nat &&
    (negb (is_nil memories) || Qgtb (relationship_level context) 0.2).

(** The call [claude_manager.generate_dialogue(npc_id, context, personality, memories)]. *)
Definition ClaudeManager : Type :=
  string -> NPCInteractionContext -> PersonalityTraits -> list MemoryItem -> M DialogueResponse.

(** [HybridLLMManager.generate_dialogue]. The result of the [try] block is
    [Some] when it returned and [None] when its handler swallowed an
    exception, after which control reaches the final Claude call. *)
Definition hybrid_generate_dialogue (hm : HybridLLMManager) (claude_manager : ClaudeManager)
    (env : Env) (npc : string)
    (context : NPCInteractionContext) (personality : PersonalityTraits)
    (memories : list MemoryItem) (force_claude : bool) : M DialogueResponse :=
  let! use_local :=
    (if negb force_claude && local_enabled hm
     then let! healthy := _health_check env in
          ret (healthy && _should_use_local hm context personality memories (random_draw env))
     else ret false) in
  let! returned :=
    (if use_local then
       try_catch
         (let! response := local_generate_dialogue env context personality memories in
          if _is_response_too_generic response memories context
          then
            do! emit (EvClaudeManagerGenerate false) in
            let! r := claude_manager npc context personality memories in
            ret (Some r)
          else ret (Some response))
         (fun _ =>
            do! emit (EvWarning "Local LLM failed, falling back to Claude") in
            ret None)
     else ret None) in
  match returned with
  | Some r => ret r
  | None =>
      do! emit (EvClaudeManagerGenerate false) in
      claude_manager npc context personality memories
  end.

(** ** Cloud adapter: [AIManager._generate_claude_dialogue] *)

(** [s[:n]]: the first [n] code points. *)
Fixpoint py_prefix (n : nat) (s : string) : string :=
  match s with
  | EmptyString => EmptyString
  | String c s' =>
      if ((128 <=? nat_of_ascii c) && (nat_of_ascii c <? 192))%nat
      then String c (py_prefix n s')
      else match n with
           | O => EmptyString
           | S n' => String c (py_prefix n' s')
           end
  end.

(** The only caller of the Anthropic client. Its handler logs and
    re-raises. No function of the pipeline calls it. *)
Definition _generate_claude_dialogue (env : Env) (prompt : string) : M DialogueResponse :=
  try_catch
    (do! emit EvClaudeMessagesCreate in
     match claude_api env with
     | ApiRaises => raise (BackendError "Claude API error")
     | ApiJson response => ret response
     | ApiJsonInvalid => raise (TypeError "DialogueResponse")
     | ApiPlainText response_text =>
         ret {| text := py_prefix 200 response_text; emotion := "neutral"; actions := [];
                relationship_change := 0; triggers_battle := false; shop_items := None |}
     end)
    (fun e => raise e).

(** ** Orchestrator: [AIManager] *)

(** The state of the manager the pipeline reads. [__init__] sets both
    attributes to [None]; [initialize()] sets [self.redis] to the client
    [get_redis()] returns and then builds the hybrid manager. The cost
    tracker does not use [self.redis]: it calls [get_redis()] itself. *)
Record AIManager := {
  self_redis : bool;                         (* [self.redis] is not [None] *)
  hybrid_manager : option HybridLLMManager   (* [None] until [initialize()] *)
}.

(** [AIManager._get_cached_dialogue]. An entry is live until its expiry.
    While [self.redis] is [None] the attribute access [self.redis.get]
    raises, inside the [try]. *)
Definition _get_cached_dialogue (self : AIManager) (env : Env) (cache_key : string)
    : M (option DialogueResponse) :=
  try_catch
    (if negb (self_redis self)
     then raise (AttributeError "'NoneType' object has no attribute 'get'")
     else
       let! cached := redis_cmd env (fun r => (dialogue_cache r !! cache_key, r)) in
       match cached with
       | Some (response, expires) =>
           if (now env <? expires)%Z then ret (Some response) else ret None
       | None => ret None
       end)
    (fun _ => ret None).

(** [AIManager._cache_dialogue]: [setex] refuses a TTL that is not
    positive. While [self.redis] is [None] the attribute access
    [self.redis.setex] raises, inside the [try]. *)
Definition _cache_dialogue (self : AIManager) (settings : Settings) (env : Env)
    (cache_key : string) (response : DialogueResponse) : M unit :=
  try_catch
    (if negb (self_redis self)
     then raise (AttributeError "'NoneType' object has no attribute 'setex'")
     else if (ai_cache_ttl settings <=? 0)%Z then raise StoreError
     else redis_cmd env (fun r =>
       (tt, {| cost_by_day := cost_by_day r; daily_requests := daily_requests r;
               hourly_requests := hourly_requests r; usage_cost := usage_cost r;
               usage_int := usage_int r;
               dialogue_cache :=
                 <[cache_key := (response, (now env + ai_cache_ttl settings)%Z)]>
                   (dialogue_cache r) |})))
    (fun _ => ret tt).

(** Binding of keyword arguments at a call: a keyword that names no
    parameter of the callee raises [TypeError] before the body runs. *)
Definition call_keywords {A} (params supplied : list string) (callee : M A) : M A :=
  match List.find (fun k => negb (existsb (String.eqb k) params)) supplied with
  | Some k => raise (TypeError ("got an unexpected keyword argument '" +:+ k +:+ "'"))
  | None => callee
  end.

(** The parameters of [HybridLLMManager.generate_dialogue] ([local_llm.py])
    and the keywords [AIManager.generate_dialogue] passes to it. *)
Definition hybrid_generate_dialogue_params : list string :=
  [ "npc_id"; "context"; "personality"; "memories"; "force_claude";
    "emotional_influence" ]%string.

Definition hybrid_call_keywords : list string :=
  [ "npc_id"; "context"; "personality"; "memories"; "force_claude";
    "emotional_influence"; "gossip_context" ]%string.

(** [int(len(response.text.split()) * 1.3)]. *)
Definition estimated_tokens (response : DialogueResponse) : Z :=
  (Z.of_nat (word_count (text response)) * 13 / 10)%Z.

(** The block "Check cost limits for Claude API usage" of
    [AIManager.generate_dialogue]: the budget verdict and the force flag
    the rest of the request runs with. *)
Definition check_cost_limits (settings : Settings) (env : Env) (force_claude : bool)
    : M (bool * bool) :=
  let! can_use_claude := can_make_request settings env in
  if negb can_use_claude && force_claude
  then do! emit (EvWarning "Daily cost limit reached, cannot use Claude") in
       ret (can_use_claude, false)
  else ret (can_use_claude, force_claude).

(** [AIManager.generate_dialogue]. [claude_manager] of the hybrid manager
    is the [AIManager] itself ([HybridLLMManager(self, self.local_llm)]),
    so the two [generate_dialogue] call each other; [depth] bounds the
    nesting of these calls the way the interpreter's recursion limit does.
    The nested request ([force_claude] and [db_session] at their
    defaults) reads the same environment. *)
Fixpoint generate_dialogue (depth : nat) (am : AIManager) (settings : Settings) (env : Env)
    (npc : string) (context : NPCInteractionContext) (personality : PersonalityTraits)
    (memories : list MemoryItem) (force_claude : bool) : M DialogueResponse :=
  let cache_key := _get_dialogue_cache_key npc context memories in
  let! cached_response := _get_cached_dialogue am env cache_key in
  match cached_response with
  | Some cached => ret cached
  | None =>
      let! gate := check_cost_limits settings env force_claude in
      let can_use_claude := fst gate in
      let force_claude := snd gate in
      try_catch
        (do! when (has_db_session env) (emit EvEmotionLookup) in
         do! emit EvGossipLookup in
         let! response :=
           match hybrid_manager am with
           | Some hm =>
               if ai_enabled settings then
                 let! response :=
                   call_keywords hybrid_generate_dialogue_params hybrid_call_keywords
                     match depth with
                     | O => raise RecursionError
                     | S depth' =>
                         hybrid_generate_dialogue hm
                           (fun n c p m =>
                              generate_dialogue depth' am settings (without_db_session env)
                                n c p m false)
                           env npc context personality memories force_claude
                     end in
                 let validation_result :=
                   validate_dialogue (re_search env) response context (Some personality) in
                 do! emit (EvValidate response) in
                 let response :=
                   if negb (is_valid validation_result) &&
                      severity_eqb (severity validation_result) CRITICAL
                   then _generate_fallback_dialogue context personality (fallback_pick env)
                   else response in
                 do! (if can_use_claude &&
                         (force_claude || negb (String.eqb (text response) "fallback_marker"))
                      then
                        do! emit (EvRecordRequest "claude" 0.02) in
                        record_request env 0.02 "claude" (estimated_tokens response)
                          (elapsed_ms env)
                      else
                        do! emit (EvRecordRequest "local" 0.001) in
                        record_request env 0.001 "local"
                          (Z.of_nat (word_count (text response))) (elapsed_ms env)) in
                 ret response
               else ret (_generate_fallback_dialogue context personality (fallback_pick env))
           | None => ret (_generate_fallback_dialogue context personality (fallback_pick env))
           end in
         do! _cache_dialogue am settings env cache_key response in
         do! emit (EvStoreMemory response) in
         do! emit (EvCreateGossip response) in
         ret response)
        (fun _ => ret (_generate_fallback_dialogue context personality (fallback_pick env)))
  end.

(** ** Specification-side notions used by the properties *)

(** Every live or expired cache entry is a response a caller may receive. *)
Definition cache_good (r : Redis) : Prop :=
  forall k response expires,
    dialogue_cache r !! k = Some (response, expires) -> good_response response.

(** The seven daily totals the projection looks at, as stored. *)
Definition stored_costs (r : Redis) (day : Z) : list Q :=
  map (fun i => default 0 (cost_by_day r !! (day - i)%Z)) (map Z.of_nat (seq 0 7)).

(** The days with non-zero cost. *)
Definition nonzero_costs (costs : list Q) : list Q :=
  List.filter (fun c => negb (Qeq_bool c 0)) costs.

(** The average of a list of costs; of no costs at all it is [0], the
    figure the code reports when there is no active day. *)
Definition average (costs : list Q) : Q :=
  match costs with
  | [] => 0
  | _ :: _ => Qsum costs / inject_Z (Z.of_nat (length costs))
  end.

(** low for fewer than 3 active days, medium for 3 or 4, high from 5 on. *)
Definition confidence_label (active_days : nat) : string :=
  if (active_days <? 3)%nat then "low"%string
  else if (active_days <? 5)%nat then "medium"%string
  else "high"%string.

Definition count_claude_calls (t : list Event) : nat :=
  length (List.filter
            (fun ev => match ev with EvClaudeManagerGenerate _ => true | _ => false end) t).

Definition count_claude_api_calls (t : list Event) : nat :=
  length (List.filter
            (fun ev => match ev with EvClaudeMessagesCreate => true | _ => false end) t).

Definition count_record_requests (t : list Event) : nat :=
  length (List.filter
            (fun ev => match ev with EvRecordRequest _ _ => true | _ => false end) t).

(** The world after one Redis command that left the store as it was. *)
Definition after_cmd (w : World) : World :=
  {| redis := redis w; redis_ops := S (redis_ops w); trace := trace w |}.

Definition with_trace (w : World) (evs : list Event) : World :=
  {| redis := redis w; redis_ops := redis_ops w; trace := trace w ++ evs |}.

(** ** Sample inputs *)

Definition sample_context (kind : string) (level : Q) : NPCInteractionContext :=
  {| player_id := "7d444840-9dc0-11d1-b245-5ffdce74fad2";
     npc_id := "123e4567-e89b-12d3-a456-426614174000";
     interaction_type := kind; player_party_summary := "Bamboon (Level 5)";
     recent_achievements := []; relationship_level := level;
     time_of_day := "morning" |}.

Definition sample_npc : string := "123e4567-e89b-12d3-a456-426614174000".

(** [PersonalityTraits()]: the defaults of the model. *)
Definition sample_personality : PersonalityTraits :=
  {| curiosity := 0.5; patience := 0.5; verbosity := 0.5; humor := 0.5;
     trust_threshold := 0.3; friendliness := 0.5; competitiveness := 0.5;
     knowledge_sharing := 0.5 |}.

(** A request at time [t] with every collaborator up; [k] is the draw of
    [random.choice]. *)
Definition sample_env (t : Z) (k : nat) : Env :=
  {| now := t; redis_fails := fun _ => false; elapsed_ms := 120;
     fallback_pick := k; local_pick := 0; random_draw := 0.1;
     local_health := fun _ => true;
     local_http := HttpStatus 200 (Some (mkResponse "Hello there! Welcome!" "neutral" 0.05));
     claude_api := ApiJson (mkResponse "I remember you! How is Bamboon doing?" "happy" 0.1);
     has_db_session := false; re_search := fun _ _ => false |}.

(** The same with a Redis client whose every command raises. *)
Definition sample_env_store_down (t : Z) (k : nat) : Env :=
  {| now := t; redis_fails := fun _ => true; elapsed_ms := 120;
     fallback_pick := k; local_pick := 0; random_draw := 0.1;
     local_health := fun _ => true;
     local_http := HttpRaises;
     claude_api := ApiRaises;
     has_db_session := false; re_search := fun _ _ => false |}.

(** The manager as [initialize()] leaves it, and before [initialize()]. *)
Definition shipped_manager : AIManager :=
  {| self_redis := true; hybrid_manager := Some (default_hybrid true) |}.
Definition uninitialised_manager : AIManager :=
  {| self_redis := false; hybrid_manager := None |}.

(** The configuration with [ai_enabled] switched off. *)
Definition scripted_settings : Settings :=
  {| ai_enabled := false; ai_cache_ttl := 3600; max_cost_per_day_usd := 50 |}.

(** [interact_with_npc] ([app/api/routes/npcs.py]): the relationship the
    route stores for the NPC once the dialogue is generated,
    [min(1.0, relationship_level + dialogue_response.relationship_change)]. *)
Definition new_relationship (relationship_level : Q) (dialogue_response : DialogueResponse)
    : Q :=
  Qminq 1 (relationship_level + relationship_change dialogue_response).

(** A ledger holding the given daily costs. *)
Definition world_with_costs (costs : list (Z * Q)) : World :=
  {| redis := {| cost_by_day := list_to_map costs; daily_requests := ∅;
                 hourly_requests := ∅; usage_cost := ∅; usage_int := ∅;
                 dialogue_cache := ∅ |};
     redis_ops := 0; trace := [] |}.

(** The configuration with a daily cap of zero. *)
Definition zero_cap_settings : Settings :=
  {| ai_enabled := true; ai_cache_ttl := 3600; max_cost_per_day_usd := 0 |}.

(** A ledger whose cost for day [d] is [c]. *)
Definition world_with_cost (d : Z) (c : Q) : World :=
  {| redis := {| cost_by_day := {[ d := c ]}; daily_requests := ∅; hourly_requests := ∅;
                 usage_cost := ∅; usage_int := ∅; dialogue_cache := ∅ |};
     redis_ops := 0; trace := [] |}.

(** The entry a cache read at this moment yields: none when the manager
    has no client, when the command raises, when there is no entry, or
    when the entry has expired. *)
Definition live_entry (am : AIManager) (env : Env) (cache_key : string) (w : World)
    : option DialogueResponse :=
  if negb (self_redis am) then None
  else if redis_fails env (redis_ops w) then None
  else match dialogue_cache (redis w) !! cache_key with
       | Some (response, expires) => if (now env <? expires)%Z then Some response else None
       | None => None
       end.

(** The world after a command the manager issues through [self.redis]:
    without a client no command is issued. *)
Definition after_self_cmd (am : AIManager) (w : World) : World :=
  if self_redis am then after_cmd w else w.

(** The verdict of the budget check at this moment. *)
Definition budget_verdict (settings : Settings) (env : Env) (w : World) : bool :=
  if redis_fails env (redis_ops w) then true
  else match cost_by_day (redis w) !! today env with
       | None => true
       | Some current_cost => Qltb current_cost (max_cost_per_day_usd settings)
       end.

(** Events that stand for a backend, the validator or the ledger. *)
Definition is_pipeline_event (ev : Event) : bool :=
  match ev with
  | EvHealthCheck | EvLocalGenerate | EvClaudeMessagesCreate | EvClaudeManagerGenerate _
  | EvValidate _ | EvRecordRequest _ _ => true
  | _ => false
  end.

Definition quiet (evs : list Event) : Prop :=
  forallb (fun ev => negb (is_pipeline_event ev)) evs = true.

(** Does the request reach the call of the hybrid manager? *)
Definition ai_path (am : AIManager) (settings : Settings) : bool :=
  match hybrid_manager am with
  | Some _ => ai_enabled settings
  | None => false
  end.

(** A [claude_manager] that answers every call. *)
Definition answering_claude (response : DialogueResponse) : ClaudeManager :=
  fun _ _ _ _ => ret response.

Definition claude_reply : DialogueResponse :=
  mkResponse "I remember you! How is Bamboon doing?" "happy" 0.1.

(** A matcher that knows one pattern: the first violence pattern matches a
    text containing the word "kill". *)
Definition sample_search (pattern text : string) : bool :=
  String.eqb pattern "\b(kill|murder|death|die|dead|blood)\b" && contains text "kill".

Definition sample_memory (what : string) (weight : Q) : MemoryItem :=
  {| content := what; importance := weight; timestamp := 0; tags := [];
     emotional_context := "neutral" |}.

(** [HybridLLMManager(self, self.local_llm)]: the [claude_manager] of the
    hybrid manager an [AIManager] builds in [initialize()] is that
    [AIManager]. *)
Definition wired_claude_manager (depth : nat) (am : AIManager) (settings : Settings)
    (env : Env) : ClaudeManager :=
  fun n c p m => generate_dialogue depth am settings (without_db_session env) n c p m false.

(** A request at time [t] with the store up and both backends down: the
    health probe fails, the HTTP exchange and the Claude API raise. *)
Definition sample_env_backends_down (t : Z) (k : nat) : Env :=
  {| now := t; redis_fails := fun _ => false; elapsed_ms := 120;
     fallback_pick := k; local_pick := 0; random_draw := 0.1;
     local_health := fun _ => false;
     local_http := HttpRaises;
     claude_api := ApiRaises;
     has_db_session := false; re_search := fun _ _ => false |}.

(** ** Budget ledger: the remaining operations of [DailyCostTracker] *)

(** The loop of [get_hourly_breakdown]: the counts read so far survive an
    exception, which ends the loop. *)
Fixpoint hourly_loop (env : Env) (date : Z) (hours : list Z) (w : World)
    : list (Z * Z) * World :=
  match hours with
  | [] => ([], w)
  | h :: rest =>
      match redis_cmd env (fun r => (hourly_requests r !! (date, h), r)) w with
      | (Returned count, w') =>
          let '(later, w'') := hourly_loop env date rest w' in
          ((h, default 0%Z count) :: later, w'')
      | (Raised _, w') => ([], w')
      end
  end.

(** [DailyCostTracker.get_hourly_breakdown]; [date = None] means today. *)
Definition get_hourly_breakdown (env : Env) (date : option Z) : M (list (Z * Z)) :=
  fun w =>
    let '(hourly_data, w') :=
      hourly_loop env (default (today env) date) (map Z.of_nat (seq 0 24)) w in
    (Returned hourly_data, w').

(** The store with the key ["budget_alert_threshold"] beside the rest. *)
Record AlertWorld := {
  aw_world : World;
  budget_alert_threshold : option Q
}.

(** [DailyCostTracker.set_budget_alert]. *)
Definition set_budget_alert (env : Env) (threshold_percent : Q) (aw : AlertWorld)
    : result unit * AlertWorld :=
  if redis_fails env (redis_ops (aw_world aw))
  then (Returned tt,
        {| aw_world := after_cmd (aw_world aw);
           budget_alert_threshold := budget_alert_threshold aw |})
  else (Returned tt,
        {| aw_world := after_cmd (aw_world aw);
           budget_alert_threshold := Some threshold_percent |}).

Record BudgetAlert := {
  alert_current_cost : Q;
  alert_budget_limit : Q;
  alert_utilization_percent : Q;
  alert_threshold_percent : Q
}.

(** [DailyCostTracker.check_budget_alerts]. The stored threshold is read
    back with [float(threshold)]. The statistics of a failed read carry no
    ["budget_utilization"]: the lookup raises, the handler logs, and the
    answer is [None]. *)
Definition check_budget_alerts (settings : Settings) (env : Env) (aw : AlertWorld)
    : result (option BudgetAlert) * AlertWorld :=
  let w := aw_world aw in
  if redis_fails env (redis_ops w)
  then (Returned None,
        {| aw_world := after_cmd w; budget_alert_threshold := budget_alert_threshold aw |})
  else
    match budget_alert_threshold aw with
    | None =>
        (Returned None,
         {| aw_world := after_cmd w; budget_alert_threshold := budget_alert_threshold aw |})
    | Some threshold =>
        let threshold_percent := fl threshold in
        match get_daily_stats settings env (today env) (after_cmd w) with
        | (Returned today_stats, w') =>
            (Returned
               (if ds_error today_stats then None
                else if Qgeb (ds_budget_utilization today_stats) threshold_percent
                then Some {| alert_current_cost := ds_total_cost today_stats;
                             alert_budget_limit := ds_budget_limit today_stats;
                             alert_utilization_percent := ds_budget_utilization today_stats;
                             alert_threshold_percent := threshold_percent |}
                else None),
             {| aw_world := w'; budget_alert_threshold := budget_alert_threshold aw |})
        | (Raised _, w') =>
            (Returned None,
             {| aw_world := w'; budget_alert_threshold := budget_alert_threshold aw |})
        end
    end.

(** The integer fields of the usage hash after one recorded request. *)
Definition usage_recorded (u : gmap (Z * string) Z) (d : Z) (model_used : string)
    (tokens_used response_time_ms : Z) : gmap (Z * string) Z :=
  let bump (field : string) (n : Z) (m : gmap (Z * string) Z) :=
    <[(d, field) := (default 0 (m !! (d, field)) + n)%Z]> m in
  let u1 := bump "total_requests"%string 1%Z u in
  let u2 := bump ("requests_" +:+ model_used)%string 1%Z u1 in
  let u3 := if (0 <? tokens_used)%Z then bump "total_tokens"%string tokens_used u2 else u2 in
  if (0 <? response_time_ms)%Z
  then bump "total_response_time_ms"%string response_time_ms u3 else u3.

(** The store after one recorded request on day [d], hour [h]. *)
Definition recorded (r : Redis) (d h : Z) (estimated_cost : Q) (model_used : string)
    (tokens_used response_time_ms : Z) : Redis :=
  {| cost_by_day := <[d := default 0 (cost_by_day r !! d) + estimated_cost]> (cost_by_day r);
     daily_requests := <[d := (default 0 (daily_requests r !! d) + 1)%Z]> (daily_requests r);
     hourly_requests :=
       <[(d, h) := (default 0 (hourly_requests r !! (d, h)) + 1)%Z]> (hourly_requests r);
     usage_cost := <[d := default 0 (usage_cost r !! d) + estimated_cost]> (usage_cost r);
     usage_int := usage_recorded (usage_int r) d model_used tokens_used response_time_ms;
     dialogue_cache := dialogue_cache r |}.

(** A recording request: the environment of the call and its arguments. *)
Record RecordCall := {
  rc_env : Env;
  rc_cost : Q;
  rc_model : string;
  rc_tokens : Z;
  rc_ms : Z
}.

(** [record_request] called for each element in turn. *)
Fixpoint record_all (calls : list RecordCall) : M unit :=
  match calls with
  | [] => ret tt
  | c :: rest =>
      do! record_request (rc_env c) (rc_cost c) (rc_model c) (rc_tokens c) (rc_ms c) in
      record_all rest
  end.

(** The requests counted for day [d] over its 24 hourly counters. *)
Definition hourly_total (r : Redis) (d : Z) : Z :=
  fold_right Z.add 0%Z
    (map (fun h => default 0%Z (hourly_requests r !! (d, h))) (map Z.of_nat (seq 0 24))).

(** The daily counter of every day is the sum of its hourly counters. *)
Definition counts_consistent (r : Redis) : Prop :=
  forall d, default 0%Z (daily_requests r !! d) = hourly_total r d.

(** Every call of the list is made with the store up on day [d]. *)
Definition recorded_on (d : Z) (calls : list RecordCall) : Prop :=
  List.Forall (fun c => (forall n, redis_fails (rc_env c) n = false) /\ today (rc_env c) = d)
    calls.

(** The statistics [get_daily_stats] returns from its handler. *)
Definition error_stats : DailyStats :=
  {| ds_total_cost := 0; ds_total_requests := 0;
     ds_avg_cost_per_request := 0; ds_avg_response_time_ms := 0;
     ds_budget_limit := 0; ds_budget_remaining := 0; ds_budget_utilization := 0;
     ds_requests_claude := 0; ds_requests_local := 0; ds_total_tokens := 0;
     ds_error := true |}.

(** The projection of a week without any cost. *)
Definition empty_projection : CostProjection :=
  {| daily_avg := 0; weekly_total := None; monthly_projection := 0;
     confidence := "low"; data_points := None |}.

(** ** Notions for the validator's properties *)

(** The forbidden-content families one of whose patterns matches. *)
Definition matching_families (search : string -> string -> bool) (text : string)
    : list (string * list string) :=
  List.filter (fun entry => any_match search (snd entry) (lower text)) forbidden_patterns.

Fixpoint Qpow (f : Q) (k : nat) : Q :=
  match k with
  | O => 1
  | S k' => Qpow f k' * f
  end.

(** A check result is sound when its factor is positive and is 1 exactly
    when it raises no issue, and below 1 otherwise. *)
Definition sound_check (c : CheckResult) : Prop :=
  0 < snd c /\ ((fst c = [] /\ snd c == 1) \/ (fst c <> [] /\ snd c < 1)).

(** A matcher given by a table: a pattern matches a text that contains
    one of the words listed for it. *)
Definition keyword_search (table : list (string * string)) (pattern text : string) : bool :=
  existsb (fun entry => String.eqb (fst entry) pattern && contains text (snd entry)) table.

(** The word "developer" is matched by a pattern of the meta-gaming family
    and by a pattern of the fourth-wall check. *)
Definition developer_search : string -> string -> bool :=
  keyword_search
    [ ("\b(developer|programmer|code|bug|glitch)\b", "developer");
      ("\b(developer|programmer|coder)\b", "developer") ]%string.

(** The condition under which [AIManager.generate_dialogue] replaces a
    generated response by the scripted one. *)
Definition replaced_by_fallback (v : ValidationResult) : bool :=
  negb (is_valid v) && severity_eqb (severity v) CRITICAL.

Definition forbidden_issue (entry : string * list string) : string :=
  ("Contains forbidden " +:+ fst entry +:+ " content")%string.

(** ** Notions for the backends' properties *)

(** Did the exchange with the local model yield a parsed response? *)
Definition local_answer (env : Env) : option DialogueResponse :=
  match local_http env with
  | HttpStatus code (Some response) => if (code =? 200)%Z then Some response else None
  | _ => None
  end.

Definition count_local_generates (t : list Event) : nat :=
  length (List.filter (fun ev => match ev with EvLocalGenerate => true | _ => false end) t).

(** A [claude_manager] that records nothing and always raises. *)
Definition failing_claude : ClaudeManager :=
  fun _ _ _ _ => raise (BackendError "overloaded").

(** ** Prompt helpers and the interaction memory of [AIManager] *)

(** A [datetime.timedelta] as Python keeps it: normalised, with
    [0 <= seconds < 86400] and [0 <= microseconds < 10^6]; a negative
    duration has negative [days]. *)
Record timedelta := {
  days : Z;
  seconds : Z;
  microseconds : Z
}.

(** The difference of two clock readings that are [us] microseconds apart. *)
Definition timedelta_of_microseconds (us : Z) : timedelta :=
  {| days := (us / 86400000000)%Z;
     seconds := (us mod 86400000000 / 1000000)%Z;
     microseconds := (us mod 1000000)%Z |}.

(** [AIManager._format_time_ago]. *)
Definition _format_time_ago (delta : timedelta) : string :=
  if (0 <? days delta)%Z then (pretty (days delta) +:+ " day(s) ago")%string
  else if (3600 <? seconds delta)%Z
  then (pretty (seconds delta / 3600)%Z +:+ " hour(s) ago")%string
  else "Recently"%string.

(** [sep.join(l)]. *)
Fixpoint join (sep : string) (l : list string) : string :=
  match l with
  | [] => EmptyString
  | [x] => x
  | x :: rest => (x +:+ sep +:+ join sep rest)%string
  end.

(** The list [traits] that [_format_personality] collects. *)
Definition personality_phrases (personality : PersonalityTraits) : list string :=
  (if Qgtb (curiosity personality) 0.7 then ["very curious and asks many questions"]
   else if Qltb (curiosity personality) 0.3 then ["not very inquisitive"] else []) ++
  (if Qgtb (verbosity personality) 0.7 then ["talkative and gives detailed responses"]
   else if Qltb (verbosity personality) 0.3 then ["concise and brief in speech"] else []) ++
  (if Qgtb (friendliness personality) 0.7 then ["warm and welcoming"]
   else if Qltb (friendliness personality) 0.3 then ["somewhat distant or reserved"] else []) ++
  (if Qgtb (humor personality) 0.7 then ["enjoys jokes and lighthearted conversation"] else []) ++
  (if Qgtb (competitiveness personality) 0.7
   then ["competitive and interested in battles"] else [])%string.

(** [AIManager._format_personality]. *)
Definition _format_personality (personality : PersonalityTraits) : string :=
  ("This character is " +:+ join ", " (personality_phrases personality) +:+ ".")%string.

(** The payload of the point [_store_interaction_memory] upserts. *)
Record MemoryPayload := {
  payload_npc_id : string;
  payload_player_id : string;
  payload_content : string;
  payload_importance : Q;
  payload_interaction_type : string;
  payload_emotional_context : string;
  payload_relationship_level_at_time : Q;
  payload_time_of_day : string;
  payload_response_emotion : string;
  payload_relationship_change : Q
}.

(** [AIManager._store_interaction_memory], up to the call of the
    embedding model and of the vector store: the payload it builds. An
    exception of either collaborator is logged and swallowed. *)
Definition _store_interaction_memory (npc : string)
    (context : NPCInteractionContext) (response : DialogueResponse) : MemoryPayload :=
  let memory_content := ("Talked with player about " +:+ interaction_type context)%string in
  let memory_content :=
    if negb (is_nil (recent_achievements context))
    then (memory_content +:+ ". Player mentioned achievements: " +:+
          join ", " (recent_achievements context))%string
    else memory_content in
  let memory_content :=
    if nonempty (player_party_summary context)
    then (memory_content +:+ ". Player has: " +:+ player_party_summary context)%string
    else memory_content in
  let memory_content :=
    if nonempty (text response)
    then
      let response_summary :=
        if (80 <? py_len (text response))%nat
        then (py_prefix 80 (text response) +:+ "...")%string else text response in
      (memory_content +:+ ". I said: '" +:+ response_summary +:+ "'")%string
    else memory_content in
  let emotional_context :=
    if negb (String.eqb (emotion response) "neutral") then emotion response
    else "neutral"%string in
  let base_importance := Qminq 1 (relationship_level context + 0.1) in
  let base_importance :=
    if negb (is_nil (recent_achievements context)) then base_importance + 0.2
    else base_importance in
  let base_importance :=
    if Qgtb (relationship_change response) 0.1 then base_importance + 0.1
    else base_importance in
  let base_importance :=
    if triggers_battle response then base_importance + 0.3 else base_importance in
  let importance := Qminq 1 base_importance in
  {| payload_npc_id := npc;
     payload_player_id := player_id context;
     payload_content := memory_content;
     payload_importance := importance;
     payload_interaction_type := interaction_type context;
     payload_emotional_context := emotional_context;
     payload_relationship_level_at_time := relationship_level context;
     payload_time_of_day := time_of_day context;
     payload_response_emotion := emotion response;
     payload_relationship_change := relationship_change response |}.

(** The bounds [MemoryItem] puts on [importance]; a payload outside them
    makes [get_npc_memories] fail on conversion. *)
Definition valid_importance (x : Q) : Prop := 0 <= x /\ x <= 1.

(** ** Gossip propagation ([app/game/gossip_propagation.py])

    Times are in seconds, as [now] is. The functions modelled here never
    mutate a [GossipItem], so an item shared between [active_gossip] and a
    list of known gossip is kept as a value in both places.
    [gossip_networks], which only [propagate_gossip] and the statistics
    read, is left out. *)

Module Gossip.

Inductive GossipType :=
| PLAYER_ACHIEVEMENT
| PLAYER_BEHAVIOR
| BATTLE_RESULT
| RELATIONSHIP_CHANGE
| STORY_PROGRESS
| PLAYER_REPUTATION
| NPC_INTERACTION.

Definition GossipType_eqb (a b : GossipType) : bool :=
  match a, b with
  | PLAYER_ACHIEVEMENT, PLAYER_ACHIEVEMENT | PLAYER_BEHAVIOR, PLAYER_BEHAVIOR
  | BATTLE_RESULT, BATTLE_RESULT | RELATIONSHIP_CHANGE, RELATIONSHIP_CHANGE
  | STORY_PROGRESS, STORY_PROGRESS | PLAYER_REPUTATION, PLAYER_REPUTATION
  | NPC_INTERACTION, NPC_INTERACTION => true
  | _, _ => false
  end.

Record GossipItem := {
  id : string;
  gossip_type : GossipType;
  content : string;
  player_id : string;
  source_npc_id : string;
  importance : Q;
  timestamp : Z;
  reliability : Q;
  spread_count : Z;
  max_spread : Z;
  tags : list string
}.

Record NPCGossipKnowledge := {
  npc_id : string;
  known_gossip : list GossipItem;
  last_updated : Z;
  gossip_receptiveness : Q;
  gossip_spreading : Q
}.

Record GossipPropagationManager := {
  active_gossip : gmap string GossipItem;
  npc_knowledge : gmap string NPCGossipKnowledge
}.

(** The settings of [GossipPropagationManager.__init__]. *)
Definition base_spread_probability : Q := 0.3.
Definition time_decay_hours : Z := 24.
Definition max_gossip_per_npc : nat := 20.

(** [(a.importance, a.timestamp) < (b.importance, b.timestamp)]. *)
Definition key_lt (a b : GossipItem) : bool :=
  Qltb (importance a) (importance b) ||
  (Qeq_bool (importance a) (importance b) && (timestamp a <? timestamp b)%Z).

(** [sort(key=lambda g: (g.importance, g.timestamp), reverse=True)]: a
    stable sort, items with equal keys keep their order. *)
Fixpoint insert_desc (x : GossipItem) (l : list GossipItem) : list GossipItem :=
  match l with
  | [] => [x]
  | y :: l' => if key_lt x y then y :: insert_desc x l' else x :: l
  end.

Fixpoint sort_desc (l : list GossipItem) : list GossipItem :=
  match l with
  | [] => []
  | x :: rest => insert_desc x (sort_desc rest)
  end.

Definition with_known (knowledge : NPCGossipKnowledge) (l : list GossipItem)
    : NPCGossipKnowledge :=
  {| npc_id := npc_id knowledge; known_gossip := l; last_updated := last_updated knowledge;
     gossip_receptiveness := gossip_receptiveness knowledge;
     gossip_spreading := gossip_spreading knowledge |}.

Definition with_knowledge (gm : GossipPropagationManager) (npc : string)
    (knowledge : NPCGossipKnowledge) : GossipPropagationManager :=
  {| active_gossip := active_gossip gm;
     npc_knowledge := <[npc := knowledge]> (npc_knowledge gm) |}.

(** [_cleanup_npc_gossip]: sort, keep the first 20, then drop the expired. *)
Definition _cleanup_npc_gossip (now : Z) (npc : string) (gm : GossipPropagationManager)
    : GossipPropagationManager :=
  match npc_knowledge gm !! npc with
  | None => gm
  | Some knowledge =>
      let sorted := sort_desc (known_gossip knowledge) in
      let kept :=
        if (max_gossip_per_npc <? length sorted)%nat
        then firstn max_gossip_per_npc sorted else sorted in
      let cutoff_time := (now - time_decay_hours * 3600)%Z in
      with_knowledge gm npc
        (with_known knowledge (List.filter (fun g => (cutoff_time <? timestamp g)%Z) kept))
  end.

(** [create_gossip], without the background task it schedules;
    [gossip_id] is the identifier it builds from the clock and a random
    number. *)
Definition create_gossip (now : Z) (gossip_id : string)
    (gossip_type : GossipType) (content : string) (player source_npc : string)
    (importance : Q) (tags : list string) (gm : GossipPropagationManager)
    : string * GossipPropagationManager :=
  let gossip_item :=
    {| id := gossip_id; gossip_type := gossip_type; content := content;
       player_id := player; source_npc_id := source_npc; importance := importance;
       timestamp := now; reliability := 1; spread_count := 0; max_spread := 5;
       tags := tags |} in
  let gm :=
    {| active_gossip := <[gossip_id := gossip_item]> (active_gossip gm);
       npc_knowledge := npc_knowledge gm |} in
  match npc_knowledge gm !! source_npc with
  | Some knowledge =>
      (gossip_id,
       _cleanup_npc_gossip now source_npc
         (with_knowledge gm source_npc
            (with_known knowledge (known_gossip knowledge ++ [gossip_item]))))
  | None => (gossip_id, gm)
  end.

(** [_calculate_spread_probability]. *)
Definition _calculate_spread_probability (now : Z) (gossip : GossipItem)
    (source_npc target_npc : string) (gm : GossipPropagationManager) : Q :=
  let base_prob := base_spread_probability in
  let importance_factor := importance gossip in
  let reliability_factor := reliability gossip in
  let receptiveness :=
    match npc_knowledge gm !! target_npc with
    | Some target_knowledge => gossip_receptiveness target_knowledge
    | None => 0.5
    end in
  let spreading_tendency :=
    match npc_knowledge gm !! source_npc with
    | Some source_knowledge => gossip_spreading source_knowledge
    | None => 0.5
    end in
  let hours_old := inject_Z (now - timestamp gossip) / 3600 in
  let time_decay := Qmaxq 0 (1 - hours_old / inject_Z time_decay_hours) in
  let final_prob :=
    base_prob * importance_factor * reliability_factor * receptiveness *
    spreading_tendency * time_decay in
  Qminq 1 final_prob.

(** [_spread_to_npc]. *)
Definition _spread_to_npc (now : Z) (gossip : GossipItem) (target_npc : string)
    (gm : GossipPropagationManager) : GossipPropagationManager :=
  let gossip_copy :=
    {| id := id gossip; gossip_type := gossip_type gossip; content := content gossip;
       player_id := player_id gossip; source_npc_id := target_npc;
       importance := importance gossip * 0.9; timestamp := timestamp gossip;
       reliability := reliability gossip * 0.85; spread_count := spread_count gossip;
       max_spread := max_spread gossip; tags := tags gossip |} in
  let knowledge :=
    match npc_knowledge gm !! target_npc with
    | Some knowledge => knowledge
    | None =>
        {| npc_id := target_npc; known_gossip := []; last_updated := now;
           gossip_receptiveness := 0.5; gossip_spreading := 0.5 |}
    end in
  let knowledge :=
    {| npc_id := npc_id knowledge; known_gossip := known_gossip knowledge ++ [gossip_copy];
       last_updated := now; gossip_receptiveness := gossip_receptiveness knowledge;
       gossip_spreading := gossip_spreading knowledge |} in
  _cleanup_npc_gossip now target_npc (with_knowledge gm target_npc knowledge).

(** [_npc_knows_gossip]. *)
Definition _npc_knows_gossip (npc gossip_id : string) (gm : GossipPropagationManager) : bool :=
  match npc_knowledge gm !! npc with
  | None => false
  | Some knowledge => existsb (fun g => String.eqb (id g) gossip_id) (known_gossip knowledge)
  end.

(** [get_npc_gossip_about_player]; an empty [gossip_types] stands for the
    default [None] and, like it, does not filter. *)
Definition get_npc_gossip_about_player (npc player : string)
    (gossip_types : list GossipType) (gm : GossipPropagationManager) : list GossipItem :=
  match npc_knowledge gm !! npc with
  | None => []
  | Some knowledge =>
      let relevant_gossip :=
        List.filter (fun gossip => String.eqb (player_id gossip) player)
          (known_gossip knowledge) in
      let relevant_gossip :=
        if negb (is_nil gossip_types)
        then List.filter
               (fun gossip => existsb (GossipType_eqb (gossip_type gossip)) gossip_types)
               relevant_gossip
        else relevant_gossip in
      sort_desc relevant_gossip
  end.

Record Reputation := {
  trainer_skill : Q;
  helpfulness : Q;
  trustworthiness : Q;
  popularity : Q
}.

Definition no_reputation : Reputation :=
  {| trainer_skill := 0; helpfulness := 0; trustworthiness := 0; popularity := 0 |}.

(** [any(word in text for word in words)]. *)
Definition any_word_in (words : list string) (text : string) : bool :=
  existsb (fun word => contains text word) words.

(** One round of the loop of [generate_player_reputation_summary]. *)
Definition reputation_step (acc : Reputation * Q) (gossip : GossipItem) : Reputation * Q :=
  let scores := fst acc in
  let weight := importance gossip * reliability gossip in
  let total_weight := snd acc + weight in
  let content_lower := lower (content gossip) in
  let scores :=
    match gossip_type gossip with
    | BATTLE_RESULT =>
        if contains content_lower "won"
        then {| trainer_skill := trainer_skill scores + weight * 0.8;
                helpfulness := helpfulness scores;
                trustworthiness := trustworthiness scores;
                popularity := popularity scores |}
        else {| trainer_skill := trainer_skill scores - weight * 0.3;
                helpfulness := helpfulness scores;
                trustworthiness := trustworthiness scores;
                popularity := popularity scores |}
    | PLAYER_BEHAVIOR =>
        if any_word_in ["helped"; "kind"; "generous"]%string content_lower
        then {| trainer_skill := trainer_skill scores;
                helpfulness := helpfulness scores + weight * 0.9;
                trustworthiness := trustworthiness scores + weight * 0.5;
                popularity := popularity scores |}
        else if any_word_in ["rude"; "mean"; "ignored"]%string content_lower
        then {| trainer_skill := trainer_skill scores;
                helpfulness := helpfulness scores - weight * 0.7;
                trustworthiness := trustworthiness scores - weight * 0.4;
                popularity := popularity scores |}
        else scores
    | RELATIONSHIP_CHANGE =>
        if contains content_lower "improved"
        then {| trainer_skill := trainer_skill scores;
                helpfulness := helpfulness scores;
                trustworthiness := trustworthiness scores;
                popularity := popularity scores + weight * 0.6 |}
        else if contains content_lower "worsened"
        then {| trainer_skill := trainer_skill scores;
                helpfulness := helpfulness scores;
                trustworthiness := trustworthiness scores;
                popularity := popularity scores - weight * 0.6 |}
        else scores
    | _ => scores
    end in
  (scores, total_weight).

(** [max(-1.0, min(1.0, score / total_weight))]. *)
Definition normalized (score total_weight : Q) : Q :=
  Qmaxq (-1) (Qminq 1 (score / total_weight)).

(** [generate_player_reputation_summary]. *)
Definition generate_player_reputation_summary (player npc : string)
    (gm : GossipPropagationManager) : Reputation :=
  let gossip_items := get_npc_gossip_about_player npc player [] gm in
  if is_nil gossip_items then no_reputation
  else
    let '(scores, total_weight) := fold_left reputation_step gossip_items (no_reputation, 0) in
    if Qgtb total_weight 0
    then {| trainer_skill := normalized (trainer_skill scores) total_weight;
            helpfulness := normalized (helpfulness scores) total_weight;
            trustworthiness := normalized (trustworthiness scores) total_weight;
            popularity := normalized (popularity scores) total_weight |}
    else scores.

(** The knowledge an NPC has once [initialize_npc_networks] has seen it,
    with the default traits. *)
Definition new_knowledge (npc : string) (now : Z) : NPCGossipKnowledge :=
  {| npc_id := npc; known_gossip := []; last_updated := now;
     gossip_receptiveness := 0.5; gossip_spreading := 0.5 |}.

(** The gossip an NPC knows; none for an NPC the manager has not seen. *)
Definition known (npc : string) (gm : GossipPropagationManager) : list GossipItem :=
  match npc_knowledge gm !! npc with
  | Some knowledge => known_gossip knowledge
  | None => []
  end.

Definition fresh (now : Z) (g : GossipItem) : bool :=
  (now - time_decay_hours * 3600 <? timestamp g)%Z.

End Gossip.

(** ** Gossip from interactions ([AIManager]) *)

(** [AIManager._calculate_gossip_importance]. *)
Definition _calculate_gossip_importance
    (context : NPCInteractionContext) (response : DialogueResponse) : Q :=
  let importance := 0.3 in
  let importance :=
    if String.eqb (interaction_type context) "battle" then importance + 0.4
    else if String.eqb (interaction_type context) "quest" then importance + 0.3
    else if String.eqb (interaction_type context) "shop" then importance + 0.2
    else importance in
  let importance :=
    if Qgtb (Qabs (relationship_change response)) 0.2 then importance + 0.3 else importance in
  let importance :=
    if Qgtb (relationship_level context) 0.8 then importance + 0.2
    else if Qltb (relationship_level context) 0.2 then importance + 0.2
    else importance in
  let importance :=
    if negb (is_nil (recent_achievements context)) then importance + 0.3 else importance in
  Qminq 1 importance.

(** [AIManager._generate_gossip_content]. A greeting that yields no
    sentence of its own skips the achievements and falls through to the
    relationship change. *)
Definition _generate_gossip_content
    (context : NPCInteractionContext) (response : DialogueResponse) : option string :=
  let by_relationship_change :=
    if Qgtb (relationship_change response) 0.3
    then Some "The trainer was quite helpful and friendly"%string
    else if Qltb (relationship_change response) (-0.3)
    then Some "The trainer was rude or unhelpful"%string
    else None in
  if String.eqb (interaction_type context) "battle"
  then Some "The trainer was seen in a monster battle"%string
  else if String.eqb (interaction_type context) "greeting"
  then
    if Qgtb (relationship_level context) 0.8
    then Some "The trainer seems to be well-liked around here"%string
    else if Qltb (relationship_level context) 0.3
    then Some "Some people seem to have issues with that trainer"%string
    else by_relationship_change
  else
    match recent_achievements context with
    | achievement :: _ => Some ("The trainer recently " +:+ achievement)%string
    | [] => by_relationship_change
    end.

(** [AIManager._determine_gossip_type]. *)
Definition _determine_gossip_type
    (context : NPCInteractionContext) (response : DialogueResponse) : Gossip.GossipType :=
  if String.eqb (interaction_type context) "battle" then Gossip.BATTLE_RESULT
  else if negb (is_nil (recent_achievements context)) then Gossip.PLAYER_ACHIEVEMENT
  else if Qgtb (Qabs (relationship_change response)) 0.2 then Gossip.RELATIONSHIP_CHANGE
  else Gossip.PLAYER_BEHAVIOR.

(** [AIManager._generate_gossip_tags]. *)
Definition _generate_gossip_tags
    (context : NPCInteractionContext) (response : DialogueResponse) : list string :=
  [interaction_type context] ++
  (if Qgtb (relationship_change response) 0.2 then ["positive"]
   else if Qltb (relationship_change response) (-0.2) then ["negative"] else []) ++
  (if negb (is_nil (recent_achievements context)) then ["achievement"] else []) ++
  (if Qgtb (relationship_level context) 0.8 then ["friend"]
   else if Qltb (relationship_level context) 0.2 then ["unfriendly"] else [])%string.

(** [AIManager._create_gossip_from_interaction]. [context.player_id] is a
    UUID, which is never falsy, so the first early return is not taken. *)
Definition _create_gossip_from_interaction (now : Z) (gossip_id : string) (npc : string)
    (context : NPCInteractionContext) (response : DialogueResponse)
    (gm : Gossip.GossipPropagationManager) : Gossip.GossipPropagationManager :=
  let importance := _calculate_gossip_importance context response in
  if Qltb importance 0.3 then gm
  else
    match _generate_gossip_content context response with
    | Some gossip_content =>
        let gossip_type := _determine_gossip_type context response in
        let tags := _generate_gossip_tags context response in
        snd (Gossip.create_gossip now gossip_id gossip_type gossip_content
               (player_id context) npc importance tags gm)
    | None => gm
    end.

(** ** Sample gossip *)

Definition sample_gossip (gossip_id : string) (kind : Gossip.GossipType) (what : string)
    (weight : Q) (stamp : Z) : Gossip.GossipItem :=
  {| Gossip.id := gossip_id; Gossip.gossip_type := kind; Gossip.content := what;
     Gossip.player_id := "7d444840-9dc0-11d1-b245-5ffdce74fad2";
     Gossip.source_npc_id := sample_npc; Gossip.importance := weight;
     Gossip.timestamp := stamp; Gossip.reliability := 1; Gossip.spread_count := 0;
     Gossip.max_spread := 5; Gossip.tags := [] |}.

(** A manager in which [sample_npc] knows the listed items. *)
Definition manager_knowing (items : list Gossip.GossipItem) : Gossip.GossipPropagationManager :=
  {| Gossip.active_gossip := ∅;
     Gossip.npc_knowledge :=
       {[ sample_npc :=
            {| Gossip.npc_id := sample_npc; Gossip.known_gossip := items;
               Gossip.last_updated := 0; Gossip.gossip_receptiveness := 0.5;
               Gossip.gossip_spreading := 0.5 |} ]} |}.

(** ** Emotional state of NPCs ([app/game/emotion_system.py])

    Times are in seconds. The [context] dictionary of a stimulus, which no
    function reads, is left out. *)

Module Emotion.

Inductive EmotionalState :=
| NEUTRAL | HAPPY | EXCITED | CONTENT | SAD | ANGRY | FRUSTRATED | CONFUSED | WORRIED
| GRATEFUL | PROUD.

Definition EmotionalState_eqb (a b : EmotionalState) : bool :=
  match a, b with
  | NEUTRAL, NEUTRAL | HAPPY, HAPPY | EXCITED, EXCITED | CONTENT, CONTENT | SAD, SAD
  | ANGRY, ANGRY | FRUSTRATED, FRUSTRATED | CONFUSED, CONFUSED | WORRIED, WORRIED
  | GRATEFUL, GRATEFUL | PROUD, PROUD => true
  | _, _ => false
  end.

Inductive StimulusType :=
| BATTLE_WON | BATTLE_LOST | GIFT_RECEIVED | COMPLIMENT_RECEIVED | INSULT_RECEIVED
| ACHIEVEMENT_WITNESSED | FRIENDSHIP_INCREASED | FRIENDSHIP_DECREASED | SURPRISE_ENCOUNTER
| QUEST_COMPLETED | QUEST_FAILED | MONSTER_EVOLVED | RARE_ITEM_FOUND | WEATHER_CHANGED
| TIME_PASSED.

Record EmotionalStimulus := {
  stimulus_type : StimulusType;
  intensity : Q;
  source_player_id : option string;
  source_description : string;
  timestamp : Z
}.

Record EmotionalEffect := {
  target_emotion : EmotionalState;
  magnitude : Q;
  duration_hours : Q
}.

Record NPCEmotionalState := {
  npc_id : string;
  primary_emotion : EmotionalState;
  emotion_intensity : Q;
  secondary_emotion : option EmotionalState;
  secondary_intensity : Q;
  recent_stimuli : list EmotionalStimulus;
  last_update : Z;
  emotional_volatility : Q;
  emotional_recovery : Q;
  baseline_mood : EmotionalState
}.

(** [NPCEmotionalState(npc_id=npc_id)], built at time [now]. *)
Definition default_state (npc : string) (now : Z) : NPCEmotionalState :=
  {| npc_id := npc; primary_emotion := NEUTRAL; emotion_intensity := 0.5;
     secondary_emotion := None; secondary_intensity := 0; recent_stimuli := [];
     last_update := now; emotional_volatility := 0.5; emotional_recovery := 0.3;
     baseline_mood := NEUTRAL |}.

Definition emotion_decay_rate : Q := 0.1.

Definition effect (e : EmotionalState) (m d : Q) : EmotionalEffect :=
  {| target_emotion := e; magnitude := m; duration_hours := d |}.

(** [_initialize_stimulus_rules], with [self.stimulus_rules.get(t, [])]. *)
Definition stimulus_rules (t : StimulusType) : list EmotionalEffect :=
  match t with
  | BATTLE_WON => [effect HAPPY 0.6 3; effect PROUD 0.4 2]
  | BATTLE_LOST => [effect SAD 0.5 2; effect FRUSTRATED 0.3 1]
  | GIFT_RECEIVED => [effect GRATEFUL 0.7 4; effect HAPPY 0.5 2]
  | COMPLIMENT_RECEIVED => [effect HAPPY 0.4 1.5; effect PROUD 0.3 1]
  | INSULT_RECEIVED => [effect ANGRY 0.6 2; effect SAD 0.3 1]
  | ACHIEVEMENT_WITNESSED => [effect EXCITED 0.4 1; effect PROUD 0.2 0.5]
  | FRIENDSHIP_INCREASED => [effect HAPPY 0.5 3; effect CONTENT 0.3 2]
  | FRIENDSHIP_DECREASED => [effect SAD 0.4 2; effect WORRIED 0.3 1.5]
  | SURPRISE_ENCOUNTER => [effect EXCITED 0.6 1; effect CONFUSED 0.2 0.5]
  | QUEST_COMPLETED => [effect PROUD 0.8 4; effect CONTENT 0.5 2]
  | QUEST_FAILED => [effect FRUSTRATED 0.7 3; effect SAD 0.4 2]
  | MONSTER_EVOLVED => [effect EXCITED 0.9 5; effect PROUD 0.6 3]
  | RARE_ITEM_FOUND => [effect EXCITED 0.7 2; effect HAPPY 0.5 1]
  | WEATHER_CHANGED | TIME_PASSED => []
  end.

(** [_apply_emotional_decay], the clock reading [now]. *)
Definition _apply_emotional_decay (now : Z) (emotional_state : NPCEmotionalState)
    : NPCEmotionalState :=
  let hours_passed := inject_Z (now - last_update emotional_state) / 3600 in
  if Qgtb hours_passed 0 then
    let decay_rate := emotion_decay_rate * (1 + emotional_recovery emotional_state) in
    let decay_factor := Qmaxq 0 (1 - decay_rate * hours_passed) in
    let emotion_intensity := emotion_intensity emotional_state * decay_factor in
    let secondary :=
      match secondary_emotion emotional_state with
      | Some e =>
          let secondary_intensity := secondary_intensity emotional_state * decay_factor in
          if Qltb secondary_intensity 0.1 then (None, 0) else (Some e, secondary_intensity)
      | None => (None, secondary_intensity emotional_state)
      end in
    let primary :=
      if Qltb emotion_intensity 0.2 then (baseline_mood emotional_state, 0.3)
      else (primary_emotion emotional_state, emotion_intensity) in
    {| npc_id := npc_id emotional_state;
       primary_emotion := fst primary; emotion_intensity := snd primary;
       secondary_emotion := fst secondary; secondary_intensity := snd secondary;
       recent_stimuli := recent_stimuli emotional_state;
       last_update := last_update emotional_state;
       emotional_volatility := emotional_volatility emotional_state;
       emotional_recovery := emotional_recovery emotional_state;
       baseline_mood := baseline_mood emotional_state |}
  else emotional_state.

(** A row of the NPC table, as far as this module reads and writes it:
    the numeric entries of the JSON in [personality_traits] and the entry
    ["_emotional_state"] that [_save_emotional_state] adds to it. The
    table has no column [emotional_state_json]. *)
Record NPC := {
  personality_traits : list (string * Q);
  _emotional_state : option NPCEmotionalState
}.

Definition Database : Type := gmap string NPC.

(** The bounds of [Field(ge=0.0, le=1.0)]. *)
Definition in_unit_interval (x : Q) : bool := Qleb 0 x && Qleb x 1.

(** [get_npc_emotional_state]. [created] and [read] are the clock
    readings at which the state is built and at which the decay is
    applied. As [hasattr(npc, 'emotional_state_json')] is false, the state
    is built from the defaults and the two personality entries; a missing
    row and a trait the model rejects end in the handler. *)
Definition get_npc_emotional_state (created read : Z) (db : Database) (npc : string)
    : NPCEmotionalState :=
  match db !! npc with
  | None => default_state npc read
  | Some row =>
      let emotional_volatility := default 0.5 (dict_get (personality_traits row) "curiosity") in
      let emotional_recovery := default 0.3 (dict_get (personality_traits row) "patience") in
      if in_unit_interval emotional_volatility && in_unit_interval emotional_recovery
      then
        _apply_emotional_decay read
          {| npc_id := npc; primary_emotion := NEUTRAL; emotion_intensity := 0.5;
             secondary_emotion := None; secondary_intensity := 0; recent_stimuli := [];
             last_update := created; emotional_volatility := emotional_volatility;
             emotional_recovery := emotional_recovery; baseline_mood := NEUTRAL |}
      else default_state npc read
  end.

(** One round of the loop of [apply_stimulus]. *)
Definition apply_effect (stimulus : EmotionalStimulus)
    (emotional_state : NPCEmotionalState) (effect : EmotionalEffect) : NPCEmotionalState :=
  let adjusted_magnitude := magnitude effect * intensity stimulus in
  let adjusted_magnitude :=
    if Qgtb (emotional_volatility emotional_state) 0.7 then adjusted_magnitude * 1.3
    else if Qltb (emotional_volatility emotional_state) 0.3 then adjusted_magnitude * 0.7
    else adjusted_magnitude in
  let update (primary : EmotionalState) (primary_intensity : Q)
             (secondary : option EmotionalState) (secondary_intensity : Q) :=
    {| npc_id := npc_id emotional_state;
       primary_emotion := primary; emotion_intensity := primary_intensity;
       secondary_emotion := secondary; secondary_intensity := secondary_intensity;
       recent_stimuli := recent_stimuli emotional_state;
       last_update := last_update emotional_state;
       emotional_volatility := emotional_volatility emotional_state;
       emotional_recovery := emotional_recovery emotional_state;
       baseline_mood := baseline_mood emotional_state |} in
  if EmotionalState_eqb (target_emotion effect) (primary_emotion emotional_state)
  then update (primary_emotion emotional_state)
         (Qminq 1 (emotion_intensity emotional_state + adjusted_magnitude))
         (secondary_emotion emotional_state) (secondary_intensity emotional_state)
  else if Qltb (emotion_intensity emotional_state) 0.3 || Qgtb adjusted_magnitude 0.5
  then update (target_emotion effect) (Qminq 1 (adjusted_magnitude + 0.2))
         (Some (primary_emotion emotional_state)) (emotion_intensity emotional_state * 0.5)
  else update (primary_emotion emotional_state) (emotion_intensity emotional_state)
         (Some (target_emotion effect)) (Qminq 1 adjusted_magnitude).

(** [l[-n:]] for [n > 0]. *)
Definition lastn {A} (n : nat) (l : list A) : list A := skipn (length l - n) l.

(** [_save_emotional_state]. The serialised state holds the last five
    stimuli as [model_dump()] gives them, with their [datetime] timestamps;
    [json.dumps] raises [TypeError] on those, the handler logs it and the
    row stays as it was. *)
Definition _save_emotional_state (db : Database) (emotional_state : NPCEmotionalState)
    : Database :=
  match db !! npc_id emotional_state with
  | None => db
  | Some row =>
      match lastn 5 (recent_stimuli emotional_state) with
      | _ :: _ => db
      | [] =>
          <[npc_id emotional_state :=
              {| personality_traits := personality_traits row;
                 _emotional_state := Some emotional_state |}]> db
      end
  end.

(** [apply_stimulus]. [created] and [read] are the clock readings of
    [get_npc_emotional_state], [now] the one stored in [last_update].
    Nothing in the [try] block raises here. *)
Definition apply_stimulus (created read now : Z) (db : Database) (npc : string)
    (stimulus : EmotionalStimulus) : NPCEmotionalState * Database :=
  let emotional_state := get_npc_emotional_state created read db npc in
  let effects := stimulus_rules (stimulus_type stimulus) in
  let emotional_state := fold_left (apply_effect stimulus) effects emotional_state in
  let recent_stimuli := recent_stimuli emotional_state ++ [stimulus] in
  let recent_stimuli :=
    if (10 <? length recent_stimuli)%nat then tl recent_stimuli else recent_stimuli in
  let emotional_state :=
    {| npc_id := npc_id emotional_state;
       primary_emotion := primary_emotion emotional_state;
       emotion_intensity := emotion_intensity emotional_state;
       secondary_emotion := secondary_emotion emotional_state;
       secondary_intensity := secondary_intensity emotional_state;
       recent_stimuli := recent_stimuli;
       last_update := now;
       emotional_volatility := emotional_volatility emotional_state;
       emotional_recovery := emotional_recovery emotional_state;
       baseline_mood := baseline_mood emotional_state |} in
  (emotional_state, _save_emotional_state db emotional_state).

Record DialogueModifiers := {
  tone : string;
  verbosity_modifier : Q;
  relationship_bonus : Q
}.

(** The table [emotion_modifiers]; six emotions have an entry. *)
Definition emotion_modifiers (e : EmotionalState) : option DialogueModifiers :=
  match e with
  | HAPPY => Some {| tone := "cheerful and upbeat"; verbosity_modifier := 1.2;
                     relationship_bonus := 0.1 |}
  | EXCITED => Some {| tone := "enthusiastic and energetic"; verbosity_modifier := 1.4;
                       relationship_bonus := 0.05 |}
  | SAD => Some {| tone := "melancholy and subdued"; verbosity_modifier := 0.7;
                   relationship_bonus := -0.05 |}
  | ANGRY => Some {| tone := "irritated and short"; verbosity_modifier := 0.8;
                     relationship_bonus := -0.1 |}
  | GRATEFUL => Some {| tone := "thankful and warm"; verbosity_modifier := 1.1;
                        relationship_bonus := 0.15 |}
  | PROUD => Some {| tone := "confident and accomplished"; verbosity_modifier := 1.3;
                     relationship_bonus := 0.05 |}
  | CONFUSED => Some {| tone := "uncertain and questioning"; verbosity_modifier := 0.9;
                        relationship_bonus := 0 |}
  | WORRIED => Some {| tone := "anxious and concerned"; verbosity_modifier := 1.1;
                       relationship_bonus := 0 |}
  | NEUTRAL | CONTENT | FRUSTRATED => None
  end.

Record EmotionInfluence := {
  influence_primary_emotion : EmotionalState;
  influence_emotion_intensity : Q;
  dialogue_modifiers : option DialogueModifiers;   (* [None]: the empty dictionary *)
  suggested_emotion_tag : EmotionalState
}.

(** [get_emotion_influence_on_dialogue]. *)
Definition get_emotion_influence_on_dialogue (emotional_state : NPCEmotionalState)
    : EmotionInfluence :=
  let intensity_factor := 0.5 + emotion_intensity emotional_state * 0.5 in
  {| influence_primary_emotion := primary_emotion emotional_state;
     influence_emotion_intensity := emotion_intensity emotional_state;
     dialogue_modifiers :=
       match emotion_modifiers (primary_emotion emotional_state) with
       | Some base_modifiers =>
           Some {| tone := tone base_modifiers;
                   verbosity_modifier := verbosity_modifier base_modifiers * intensity_factor;
                   relationship_bonus := relationship_bonus base_modifiers * intensity_factor |}
       | None => None
       end;
     suggested_emotion_tag := primary_emotion emotional_state |}.

End Emotion.

(** A database with one NPC of the given curiosity and patience. *)
Definition sample_database (curiosity patience : Q) : Emotion.Database :=
  {[ sample_npc :=
       {| Emotion.personality_traits := [("curiosity", curiosity); ("patience", patience)]%string;
          Emotion._emotional_state := None |} ]}.

Definition sample_stimulus (kind : Emotion.StimulusType) (strength : Q) (stamp : Z)
    : Emotion.EmotionalStimulus :=
  {| Emotion.stimulus_type := kind; Emotion.intensity := strength;
     Emotion.source_player_id := Some "7d444840-9dc0-11d1-b245-5ffdce74fad2"%string;
     Emotion.source_description := "Battle with player won";
     Emotion.timestamp := stamp |}.

(** The scores stay within these multiples of the accumulated weight. *)
Definition reputation_within (acc : Gossip.Reputation * Q) : Prop :=
  let scores := fst acc in
  let total := snd acc in
  0 <= total /\
  -0.3 * total <= Gossip.trainer_skill scores /\ Gossip.trainer_skill scores <= 0.8 * total /\
  -0.7 * total <= Gossip.helpfulness scores /\ Gossip.helpfulness scores <= 0.9 * total /\
  -0.4 * total <= Gossip.trustworthiness scores /\
  Gossip.trustworthiness scores <= 0.5 * total /\
  -0.6 * total <= Gossip.popularity scores /\ Gossip.popularity scores <= 0.6 * total.

(** ** The health probe of the local adapter

    [LocalLLMManager._health_check] with its state. [_health_check env]
    above stands for the answers of this probe, one per call. Times are in
    seconds. *)

Module LocalLLM.

Record LocalLLMManager := {
  has_client : bool;           (* [self.client] is set *)
  model_name : string;         (* [self.config.model_name] *)
  model_loaded : bool;
  last_health_check : Z
}.

(** [datetime.min], in seconds before the epoch. *)
Definition datetime_min : Z := -62135596800.

(** [LocalLLMManager.__init__] followed by the creation of the client. *)
Definition new_manager (name : string) : LocalLLMManager :=
  {| has_client := true; model_name := name; model_loaded := false;
     last_health_check := datetime_min |}.

Definition health_check_interval : Z := 300.

(** The answer of [GET /api/tags]: the request or the decoding of its
    body raises, or it yields a status and the names of the models. *)
Inductive TagsResponse :=
| TagsRaises
| TagsStatus (status_code : Z) (model_names : list string).

Record Probe := {
  answer : bool;
  manager : LocalLLMManager;
  requested : bool             (* was the HTTP request made? *)
}.

(** [LocalLLMManager._health_check] at time [now]; [response] is what the
    server would answer. *)
Definition _health_check (now : Z) (response : TagsResponse) (self : LocalLLMManager) : Probe :=
  if negb (has_client self)
  then {| answer := false; manager := self; requested := false |}
  else if (now - last_health_check self <? health_check_interval)%Z
  then {| answer := model_loaded self; manager := self; requested := false |}
  else
    match response with
    | TagsStatus status_code model_names =>
        if (status_code =? 200)%Z then
          let loaded :=
            existsb (fun listed => contains listed (model_name self)) model_names in
          {| answer := loaded;
             manager := {| has_client := has_client self; model_name := model_name self;
                           model_loaded := loaded; last_health_check := now |};
             requested := true |}
        else {| answer := false; manager := self; requested := true |}
    | TagsRaises =>
        {| answer := false;
           manager := {| has_client := has_client self; model_name := model_name self;
                         model_loaded := false;
                         last_health_check := last_health_check self |};
           requested := true |}
    end.

(** Did the server answer with status 200? *)
Definition answered_ok (response : TagsResponse) : bool :=
  match response with
  | TagsStatus status_code _ => (status_code =? 200)%Z
  | TagsRaises => false
  end.

End LocalLLM.

(** Descending order of the sort key: no item is below a later one. *)
Fixpoint descending (l : list Gossip.GossipItem) : Prop :=
  match l with
  | [] => True
  | x :: rest => List.Forall (fun y => Gossip.key_lt x y = false) rest /\ descending rest
  end.

(** * Properties *)

(** ** Comparisons *)

Lemma Qltb_lt x y : Qltb x y = true <-> x < y.
Proof.
  unfold Qltb. rewrite negb_true_iff.
  destruct (Qle_bool y x) eqn:E.
  - apply Qle_bool_iff in E. split; [discriminate | intros H; lra].
  - split; [intros _ | reflexivity].
    destruct (Qlt_le_dec x y) as [H|H]; [exact H |].
    apply Qle_bool_iff in H. congruence.
Qed.

Lemma Qleb_le x y : Qleb x y = true <-> x <= y.
Proof. unfold Qleb. apply Qle_bool_iff. Qed.

Lemma Qltb_ge x y : Qltb x y = false <-> y <= x.
Proof.
  unfold Qltb. rewrite negb_false_iff. apply Qle_bool_iff.
Qed.

Lemma Qleb_gt x y : Qleb x y = false <-> y < x.
Proof.
  rewrite <- (Qltb_lt y x). unfold Qltb, Qleb.
  destruct (Qle_bool x y); simpl; split; congruence.
Qed.

Lemma Qgtb_gt x y : Qgtb x y = true <-> y < x.
Proof. apply Qltb_lt. Qed.

Lemma Qgeb_ge x y : Qgeb x y = true <-> y <= x.
Proof. apply Qleb_le. Qed.

(** ** Fallback responses *)

Lemma choice_in (k : nat) (l : list string) : l <> [] -> In (choice k l) l.
Proof.
  intros H. unfold choice. apply nth_In.
  apply Nat.mod_upper_bound. destruct l; [congruence | simpl; lia].
Qed.

Lemma nonempty_append (a b : string) : nonempty a = true -> nonempty (a +:+ b) = true.
Proof. destruct a; [discriminate | reflexivity]. Qed.

Lemma fallback_bucket (kind : string) :
  exists l,
    dict_get fallback_responses
      (if negb (dict_mem fallback_responses kind) then "greeting"%string else kind) = Some l /\
    l <> [] /\ Forall (fun s => nonempty s = true) l.
Proof.
  unfold dict_mem. simpl.
  destruct (String.eqb kind "greeting") eqn:E1; simpl.
  { rewrite E1. eexists; split; [reflexivity | split; [discriminate | repeat constructor]]. }
  destruct (String.eqb kind "battle") eqn:E2; simpl.
  { rewrite E1, E2. eexists; split; [reflexivity | split; [discriminate | repeat constructor]]. }
  destruct (String.eqb kind "shop") eqn:E3; simpl.
  { rewrite E1, E2, E3. eexists; split; [reflexivity | split; [discriminate | repeat constructor]]. }
  eexists; split; [reflexivity | split; [discriminate | repeat constructor]].
Qed.

Lemma fallback_dialogue_good context personality k :
  good_response (_generate_fallback_dialogue context personality k).
Proof.
  unfold good_response, _generate_fallback_dialogue.
  destruct (fallback_bucket (interaction_type context)) as (l & Hl & Hne & Hall).
  rewrite Hl. simpl. split.
  - assert (Hc : nonempty (choice k l) = true).
    { rewrite List.Forall_forall in Hall. apply Hall. apply choice_in. exact Hne. }
    destruct (Qgtb (verbosity personality) 0.7); [apply nonempty_append |]; exact Hc.
  - destruct (Qgtb (friendliness personality) 0.5); reflexivity.
Qed.

Lemma local_fallback_good context personality k :
  good_response (_create_fallback_response context personality k).
Proof.
  unfold good_response, _create_fallback_response. simpl. split.
  - assert (Hc : forall l, l <> [] -> Forall (fun s => nonempty s = true) l ->
                           nonempty (choice k l) = true).
    { intros l Hne Hall. rewrite List.Forall_forall in Hall. apply Hall, choice_in, Hne. }
    destruct (Qgtb (relationship_level context) 0.5);
      destruct (Qgtb (verbosity personality) 0.7);
      try apply nonempty_append; apply Hc; try discriminate; repeat constructor.
  - destruct (Qgtb (friendliness personality) 0.5); reflexivity.
Qed.

(** C10, as stated, fails. A request at relationship level 1.0 degrades
    to canned dialogue (the call into the hybrid manager raises, see
    [hybrid_call_raises]); the response carries [relationship_change =
    0.1], and the route stores [min(1.0, 1.0 + 0.1) = 1.0]: the stored
    relationship does not increase. *)
Lemma fallback_at_the_cap_adds_nothing :
  let context := sample_context "greeting" 1 in
  let run :=
    generate_dialogue 1 shipped_manager default_settings (sample_env 1000 0) sample_npc
      context sample_personality [] false initial_world in
  fst run = Returned (_generate_fallback_dialogue context sample_personality 0) /\
  relationship_change (_generate_fallback_dialogue context sample_personality 0) = 0.1 /\
  new_relationship (relationship_level context)
    (_generate_fallback_dialogue context sample_personality 0) == relationship_level context /\
  ~ relationship_level context <
      new_relationship (relationship_level context)
        (_generate_fallback_dialogue context sample_personality 0).
Proof.
  vm_compute. split; [reflexivity |]. split; [reflexivity |].
  split; [reflexivity |]. intros H. discriminate H.
Qed.

(** C10, amended. Every response a fallback path produces (the
    orchestrator's fallback synthesizer and the local adapter's internal
    fallback alike) carries [relationship_change = 0.1], a fixed positive
    amount, for every context, personality and random draw. The route
    stores [min(1.0, level + 0.1)]: the stored relationship never exceeds
    1, it increases while the level is below 1, and from level 0.9 on it
    is the cap 1 itself, so that at level 1 nothing is added. *)
Theorem fallback_relationship_change
    (context : NPCInteractionContext) (personality : PersonalityTraits) (k : nat)
    (level : Q) (r : DialogueResponse) :
  r = _generate_fallback_dialogue context personality k \/
  r = _create_fallback_response context personality k ->
  relationship_change r = 0.1 /\
  0 < relationship_change r /\
  new_relationship level r <= 1 /\
  (level < 1 -> level < new_relationship level r) /\
  (0.9 <= level -> new_relationship level r == 1).
Proof.
  intros Hr.
  assert (Hc : relationship_change r = 0.1) by (destruct Hr as [-> | ->]; reflexivity).
  unfold new_relationship. rewrite Hc. clear Hr Hc.
  split; [reflexivity |]. split; [reflexivity |].
  unfold Qminq. destruct (Qleb 1 (level + 0.1)) eqn:E.
  - apply Qleb_le in E. split; [lra |]. split; [intros H; exact H | intros _; reflexivity].
  - apply Qleb_gt in E. split; [lra |]. split; [intros _; lra | intros H; lra].
Qed.

Lemma fallback_relationship_change_witness :
  let r := _generate_fallback_dialogue (sample_context "shop" 0.95) sample_personality 1 in
  relationship_change r = 0.1 /\
  new_relationship 0.95 r <= 1 /\
  (0.95 < 1 -> 0.95 < new_relationship 0.95 r) /\
  (0.9 <= 0.95 -> new_relationship 0.95 r == 1).
Proof.
  destruct (fallback_relationship_change (sample_context "shop" 0.95) sample_personality 1 0.95
              (_generate_fallback_dialogue (sample_context "shop" 0.95) sample_personality 1)
              (or_introl eq_refl)) as (H1 & _ & H2 & H3 & H4).
  cbv zeta. split; [exact H1 |]. split; [exact H2 |]. split; [exact H3 | exact H4].
Defined.

(** ** Backend router *)

Lemma should_use_local_high_relationship hm context personality memories r :
  0.8 < relationship_level context ->
  _should_use_local hm context personality memories r = false.
Proof.
  intros H. unfold _should_use_local.
  apply Qgtb_gt in H. rewrite H. reflexivity.
Qed.

(** When the routing test says "not local", the hybrid manager goes
    straight to [claude_manager.generate_dialogue], after at most the
    health probe. *)
Lemma hybrid_not_local hm claude_manager env npc context personality memories force_claude w :
  _should_use_local hm context personality memories (random_draw env) = false ->
  exists w0,
    (w0 = w \/ w0 = with_trace w [EvHealthCheck]) /\
    hybrid_generate_dialogue hm claude_manager env npc context personality memories
      force_claude w =
    (do! emit (EvClaudeManagerGenerate false) in
     claude_manager npc context personality memories) w0.
Proof.
  intros Hs. unfold hybrid_generate_dialogue.
  destruct (negb force_claude && local_enabled hm) eqn:E.
  - exists (with_trace w [EvHealthCheck]). split; [right; reflexivity |].
    unfold bind at 1. unfold bind at 1. unfold _health_check at 1.
    rewrite Hs, andb_false_r. reflexivity.
  - exists w. split; [left; reflexivity | reflexivity].
Qed.

(** C7. For every routing decision with [relationship_level > 0.8] the
    router selects Claude: [_should_use_local] is false for every
    local-affinity ratio (a field of [hm]) and every random draw [r], and
    the hybrid manager then calls [claude_manager.generate_dialogue]
    without trying the local model. *)
Theorem high_relationship_routes_to_claude
    (hm : HybridLLMManager) (claude_manager : ClaudeManager) (env : Env) (npc : string)
    (context : NPCInteractionContext) (personality : PersonalityTraits)
    (memories : list MemoryItem) (force_claude : bool) (w : World) :
  0.8 < relationship_level context ->
  (forall r, _should_use_local hm context personality memories r = false) /\
  exists w0,
    (w0 = w \/ w0 = with_trace w [EvHealthCheck]) /\
    hybrid_generate_dialogue hm claude_manager env npc context personality memories
      force_claude w =
    (do! emit (EvClaudeManagerGenerate false) in
     claude_manager npc context personality memories) w0.
Proof.
  intros H. split.
  - intros r. apply should_use_local_high_relationship, H.
  - apply hybrid_not_local. apply should_use_local_high_relationship, H.
Qed.

Lemma high_relationship_routes_to_claude_witness :
  0.8 < relationship_level (sample_context "greeting" 0.9) /\
  forall r, _should_use_local (default_hybrid true) (sample_context "greeting" 0.9)
              sample_personality [] r = false.
Proof.
  split; [reflexivity |].
  apply (high_relationship_routes_to_claude (default_hybrid true)
           (fun _ _ _ _ => ret (mkResponse "Good to see you, old friend!" "happy" 0.1))
           (sample_env 0 0) sample_npc (sample_context "greeting" 0.9)
           sample_personality [] false initial_world).
  reflexivity.
Defined.

(** ** Response validator *)

(** C5. For every validated dialogue the final score is the product of
    the five check factors; the severity is critical below 0.5, error from
    0.5 to below 0.7, warning from 0.7 to below 0.9 and info otherwise; and
    [is_valid] holds exactly when the score is at least 0.7 and the
    severity is not critical. *)
Theorem validate_dialogue_verdict
    (search : string -> string -> bool)
    (dialogue : DialogueResponse) (context : NPCInteractionContext)
    (traits : option PersonalityTraits) :
  let v := validate_dialogue search dialogue context traits in
  score v ==
    snd (_check_canon_violations search (text dialogue)) *
    snd (_check_forbidden_content search (text dialogue)) *
    snd (_check_tone_consistency search dialogue context traits) *
    snd (_check_meta_references search (text dialogue)) *
    snd (_check_mobile_constraints (text dialogue)) /\
  ((score v < 0.5 /\ severity v = CRITICAL) \/
   (0.5 <= score v /\ score v < 0.7 /\ severity v = ERROR) \/
   (0.7 <= score v /\ score v < 0.9 /\ severity v = WARNING) \/
   (0.9 <= score v /\ severity v = INFO)) /\
  (is_valid v = true <-> 0.7 <= score v /\ severity v <> CRITICAL).
Proof.
  unfold validate_dialogue.
  destruct (_check_canon_violations search (text dialogue)) as [i1 s1].
  destruct (_check_forbidden_content search (text dialogue)) as [i2 s2].
  destruct (_check_tone_consistency search dialogue context traits) as [i3 s3].
  destruct (_check_meta_references search (text dialogue)) as [i4 s4].
  destruct (_check_mobile_constraints (text dialogue)) as [i5 s5].
  cbn [score severity is_valid snd].
  set (sc := 1 * s1 * s2 * s3 * s4 * s5).
  split; [unfold sc; ring |].
  destruct (Qltb sc 0.5) eqn:E1.
  { apply Qltb_lt in E1. split; [left; split; [exact E1 | reflexivity] |].
    split.
    - intros Hv. apply andb_true_iff in Hv. destruct Hv as [_ Hv]. discriminate.
    - intros [_ Hne]. congruence. }
  apply Qltb_ge in E1.
  destruct (Qltb sc 0.7) eqn:E2.
  { apply Qltb_lt in E2. split; [right; left; repeat split; assumption |].
    split.
    - intros Hv. apply andb_true_iff in Hv. destruct Hv as [Hv _].
      apply Qgeb_ge in Hv. lra.
    - intros [Hge _]. lra. }
  apply Qltb_ge in E2.
  assert (Hgeb : Qgeb sc 0.7 = true) by (apply Qgeb_ge; exact E2).
  destruct (Qltb sc 0.9) eqn:E3.
  { apply Qltb_lt in E3. split; [right; right; left; repeat split; assumption |].
    rewrite Hgeb. split; [intros _; split; [exact E2 | discriminate] | reflexivity]. }
  apply Qltb_ge in E3.
  split; [right; right; right; split; [exact E3 | reflexivity] |].
  rewrite Hgeb. split; [intros _; split; [exact E2 | discriminate] | reflexivity].
Qed.

(** ** Budget ledger: projection *)

Lemma Qeq_bool_inject_pos (n : Z) : (0 < n)%Z -> Qeq_bool (inject_Z n) 0 = false.
Proof.
  intros H. destruct (Qeq_bool (inject_Z n) 0) eqn:E; [| reflexivity].
  apply Qeq_bool_iff in E. unfold Qeq, inject_Z in E. simpl in E. lia.
Qed.

Lemma Qeq_bool_false (x : Q) : ~ x == 0 -> Qeq_bool x 0 = false.
Proof.
  intros H. destruct (Qeq_bool x 0) eqn:E; [| reflexivity].
  apply Qeq_bool_iff in E. contradiction.
Qed.

Lemma redis_cmd_ok {A} env (f : Redis -> A * Redis) w :
  redis_fails env (redis_ops w) = false ->
  redis_cmd env f w =
    (Returned (fst (f (redis w))),
     {| redis := snd (f (redis w)); redis_ops := S (redis_ops w); trace := trace w |}).
Proof.
  intros H. unfold redis_cmd. rewrite H. destruct (f (redis w)). reflexivity.
Qed.

Lemma redis_cmd_fails {A} env (f : Redis -> A * Redis) w :
  redis_fails env (redis_ops w) = true ->
  redis_cmd env f w = (Raised StoreError, after_cmd w).
Proof. intros H. unfold redis_cmd. rewrite H. reflexivity. Qed.

Lemma get_daily_stats_ok settings env date w :
  (forall n, redis_fails env n = false) ->
  ~ max_cost_per_day_usd settings == 0 ->
  exists st,
    get_daily_stats settings env date w =
      (Returned st,
       {| redis := redis w; redis_ops := S (S (S (redis_ops w))); trace := trace w |}) /\
    ds_total_cost st = default 0 (cost_by_day (redis w) !! date).
Proof.
  intros Hup Hmax.
  unfold get_daily_stats, try_catch, hget_cost, get_daily_requests.
  unfold bind at 1. rewrite (redis_cmd_ok _ _ _ (Hup _)). cbn [fst snd].
  unfold bind at 1. rewrite (redis_cmd_ok _ _ _ (Hup _)). cbn [fst snd redis redis_ops trace].
  unfold bind at 1. rewrite (redis_cmd_ok _ _ _ (Hup _)). cbn [fst snd redis redis_ops trace].
  unfold py_div, py_fdiv. rewrite (Qeq_bool_false _ Hmax).
  destruct (0 <? default 0%Z (daily_requests (redis w) !! date))%Z eqn:E.
  - apply Z.ltb_lt in E. rewrite (Qeq_bool_inject_pos _ E).
    unfold bind, ret. eexists. split; reflexivity.
  - unfold bind, ret. eexists. split; reflexivity.
Qed.

Lemma daily_costs_ok settings env :
  (forall n, redis_fails env n = false) ->
  ~ max_cost_per_day_usd settings == 0 ->
  forall days w,
  exists w',
    daily_costs settings env days w =
      (Returned (map (fun i => default 0 (cost_by_day (redis w) !! (today env - i)%Z)) days), w') /\
    redis w' = redis w /\ trace w' = trace w.
Proof.
  intros Hup Hmax days. induction days as [| i rest IH]; intros w.
  - exists w. repeat split.
  - destruct (get_daily_stats_ok settings env (today env - i)%Z w Hup Hmax) as (st & Hst & Hc).
    cbn [daily_costs]. unfold bind at 1. rewrite Hst.
    destruct (IH {| redis := redis w; redis_ops := S (S (S (redis_ops w))); trace := trace w |})
      as (w' & Hrest & Hr & Ht).
    unfold bind at 1. rewrite Hrest. cbn [redis] in *.
    exists w'. rewrite Hc. repeat split; assumption.
Qed.

Lemma positive_is_nonzero (c : Q) : 0 <= c -> Qgtb c 0 = negb (Qeq_bool c 0).
Proof.
  intros H. unfold Qgtb, Qltb. f_equal.
  destruct (Qeq_bool c 0) eqn:E.
  - apply Qeq_bool_iff in E. apply Qle_bool_iff. lra.
  - destruct (Qle_bool c 0) eqn:E'; [| reflexivity].
    apply Qle_bool_iff in E'. assert (Hz : c == 0) by lra.
    apply Qeq_bool_iff in Hz. congruence.
Qed.

Lemma positive_costs_nonzero (costs : list Q) :
  List.Forall (fun c => 0 <= c) costs -> positive_costs costs = nonzero_costs costs.
Proof.
  intros H. unfold positive_costs, nonzero_costs.
  apply List.filter_ext_in. intros c Hin.
  rewrite List.Forall_forall in H. apply positive_is_nonzero, H, Hin.
Qed.

Lemma Qsum_cons (c : Q) (l : list Q) : Qsum (c :: l) = c + Qsum l.
Proof. reflexivity. Qed.

Lemma nonzero_costs_cons (c : Q) (l : list Q) :
  nonzero_costs (c :: l) = if Qeq_bool c 0 then nonzero_costs l else c :: nonzero_costs l.
Proof. unfold nonzero_costs. cbn [List.filter]. destruct (Qeq_bool c 0); reflexivity. Qed.

Lemma Qsum_nonzero (costs : list Q) : Qsum costs == Qsum (nonzero_costs costs).
Proof.
  induction costs as [| c rest IH]; [reflexivity |].
  rewrite nonzero_costs_cons, Qsum_cons.
  destruct (Qeq_bool c 0) eqn:E.
  - apply Qeq_bool_iff in E. rewrite IH, E. ring.
  - rewrite Qsum_cons, IH. reflexivity.
Qed.

Lemma any_nonzero_filter (costs : list Q) :
  any_nonzero costs = negb (is_nil (nonzero_costs costs)).
Proof.
  induction costs as [| c rest IH]; [reflexivity |].
  rewrite nonzero_costs_cons. unfold any_nonzero in *. cbn [existsb].
  destruct (Qeq_bool c 0); cbn [negb orb]; [exact IH | reflexivity].
Qed.

Lemma confidence_label_code (n : nat) :
  (if (5 <=? n)%nat then "high"%string
   else if (3 <=? n)%nat then "medium"%string else "low"%string) = confidence_label n.
Proof.
  unfold confidence_label.
  do 5 (destruct n as [| n]; [reflexivity |]). reflexivity.
Qed.

Lemma project_nonnegative (costs : list Q) (w : World) :
  List.Forall (fun c => 0 <= c) costs ->
  exists p,
    project costs w = (Returned p, w) /\
    daily_avg p == average (nonzero_costs costs) /\
    monthly_projection p == average (nonzero_costs costs) * 30 /\
    confidence p = confidence_label (length (nonzero_costs costs)).
Proof.
  intros Hnn. unfold project.
  rewrite (positive_costs_nonzero costs Hnn), any_nonzero_filter, negb_involutive.
  destruct (nonzero_costs costs) as [| c rest] eqn:E.
  - cbn [is_nil]. eexists. split; [reflexivity |]. cbn. repeat split; reflexivity.
  - cbn [is_nil]. unfold py_div.
    rewrite Qeq_bool_inject_pos by (cbn [length]; lia).
    unfold bind, ret. eexists. split; [reflexivity |].
    cbn [daily_avg monthly_projection confidence].
    assert (Hs : Qsum costs == Qsum (c :: rest)) by (rewrite <- E; apply Qsum_nonzero).
    unfold average. rewrite Hs. repeat split; try reflexivity.
    apply confidence_label_code.
Qed.

Lemma stored_costs_nonnegative (r : Redis) (day : Z) :
  (forall d c, cost_by_day r !! d = Some c -> 0 <= c) ->
  List.Forall (fun c => 0 <= c) (stored_costs r day).
Proof.
  intros H. unfold stored_costs. apply List.Forall_forall. intros c Hin.
  apply List.in_map_iff in Hin. destruct Hin as (i & <- & _).
  destruct (cost_by_day r !! (day - i)%Z) as [c |] eqn:E; cbn [default].
  - exact (H _ _ E).
  - lra.
Qed.

(** C9, as stated, fails. Three of the last seven days have a cost: the
    average over them is 2.5, the monthly figure 75 and the label medium.
    With a store whose commands raise, and likewise with a cap of zero,
    every daily reading comes from the handler of [get_daily_stats] with a
    total cost of 0, and the projection reports 0, 0 and low. With a
    negative cost in the ledger the divisor counts the positive days
    only: for costs 3 and -1 the daily figure is 2, not the average 1. *)
Lemma projection_differs_from_stored_average :
  let w := world_with_costs [(10%Z, 1.5); (9%Z, 2); (7%Z, 4)] in
  let active := nonzero_costs (stored_costs (redis w) 10) in
  let signed := world_with_costs [(10%Z, 3); (9%Z, -1)] in
  today (sample_env 864000 0) = 10%Z /\
  average active == 2.5 /\ confidence_label (length active) = "medium"%string /\
  fst (get_cost_projection default_settings (sample_env_store_down 864000 0) w) =
    Returned {| daily_avg := 0; weekly_total := None; monthly_projection := 0;
                confidence := "low"; data_points := None |} /\
  fst (get_cost_projection zero_cap_settings (sample_env 864000 0) w) =
    Returned {| daily_avg := 0; weekly_total := None; monthly_projection := 0;
                confidence := "low"; data_points := None |} /\
  average (nonzero_costs (stored_costs (redis signed) 10)) == 1 /\
  match fst (get_cost_projection default_settings (sample_env 864000 0) signed) with
  | Returned p => daily_avg p == 2 /\ monthly_projection p == 60
  | Raised _ => False
  end.
Proof.
  vm_compute. split; [reflexivity |]. split; [reflexivity |]. split; [reflexivity |].
  split; [reflexivity |]. split; [reflexivity |]. split; [reflexivity |].
  split; reflexivity.
Qed.

(** C9, amended. When every ledger read succeeds, the cap is not zero
    (the daily statistics divide by it) and no stored cost is negative,
    the projection's daily figure is the average cost over those of the
    last 7 calendar days whose cost is non-zero, the monthly figure is 30
    times that, and the confidence label is low for fewer than 3 such
    days, medium for 3 or 4 and high for 5 or more. *)
Theorem cost_projection_average (settings : Settings) (env : Env) (w : World) :
  (forall n, redis_fails env n = false) ->
  ~ max_cost_per_day_usd settings == 0 ->
  (forall d c, cost_by_day (redis w) !! d = Some c -> 0 <= c) ->
  exists p w',
    get_cost_projection settings env w = (Returned p, w') /\
    daily_avg p == average (nonzero_costs (stored_costs (redis w) (today env))) /\
    monthly_projection p ==
      average (nonzero_costs (stored_costs (redis w) (today env))) * 30 /\
    confidence p = confidence_label (length (nonzero_costs (stored_costs (redis w) (today env)))).
Proof.
  intros Hup Hmax Hnn.
  destruct (daily_costs_ok settings env Hup Hmax (map Z.of_nat (seq 0 7)) w)
    as (w' & Hcosts & _ & _).
  fold (stored_costs (redis w) (today env)) in Hcosts.
  destruct (project_nonnegative (stored_costs (redis w) (today env)) w'
              (stored_costs_nonnegative _ _ Hnn)) as (p & Hp & Havg & Hmon & Hconf).
  exists p, w'. split; [| repeat split; assumption].
  unfold get_cost_projection, try_catch, bind. rewrite Hcosts, Hp. reflexivity.
Qed.

(** ** Orchestrator: how a request runs *)

Lemma quiet_app (a b : list Event) : quiet a -> quiet b -> quiet (a ++ b).
Proof.
  unfold quiet. intros Ha Hb. rewrite forallb_app, Ha, Hb. reflexivity.
Qed.

Lemma with_trace_nil (w : World) : with_trace w [] = w.
Proof. destruct w. unfold with_trace. cbn. rewrite app_nil_r. reflexivity. Qed.

Lemma with_trace_app (w : World) (a b : list Event) :
  with_trace (with_trace w a) b = with_trace w (a ++ b).
Proof. unfold with_trace. cbn. rewrite app_assoc. reflexivity. Qed.

Lemma get_cached_run am env cache_key w :
  _get_cached_dialogue am env cache_key w =
    (Returned (live_entry am env cache_key w), after_self_cmd am w).
Proof.
  unfold _get_cached_dialogue, live_entry, after_self_cmd, try_catch, bind, redis_cmd, after_cmd.
  destruct (self_redis am); cbn [negb]; [| reflexivity].
  destruct (redis_fails env (redis_ops w)); [reflexivity |].
  destruct (dialogue_cache (redis w) !! cache_key) as [[response expires] |]; [| reflexivity].
  destruct (now env <? expires)%Z; reflexivity.
Qed.

Lemma can_make_request_run settings env w :
  exists evs,
    can_make_request settings env w =
      (Returned (budget_verdict settings env w), with_trace (after_cmd w) evs) /\
    quiet evs.
Proof.
  unfold can_make_request, budget_verdict, try_catch, bind, hget_cost, redis_cmd.
  destruct (redis_fails env (redis_ops w)).
  { exists []. rewrite with_trace_nil. split; reflexivity. }
  destruct (cost_by_day (redis w) !! today env) as [c |].
  2:{ exists []. rewrite with_trace_nil. split; reflexivity. }
  destruct (Qgeb c (max_cost_per_day_usd settings * 0.9)).
  { eexists [_]. split; reflexivity. }
  destruct (Qgeb c (max_cost_per_day_usd settings * 0.8)).
  { eexists [_]. split; reflexivity. }
  exists []. rewrite with_trace_nil. split; reflexivity.
Qed.

Lemma check_cost_limits_run settings env force_claude w :
  exists evs,
    check_cost_limits settings env force_claude w =
      (Returned (budget_verdict settings env w, budget_verdict settings env w && force_claude),
       with_trace (after_cmd w) evs) /\
    quiet evs.
Proof.
  destruct (can_make_request_run settings env w) as (evs & Hrun & Hq).
  unfold check_cost_limits, bind. rewrite Hrun.
  destruct (budget_verdict settings env w); cbn [negb andb].
  - exists evs. split; [reflexivity | exact Hq].
  - destruct force_claude.
    + exists (evs ++ [EvWarning "Daily cost limit reached, cannot use Claude"]).
      split; [| apply quiet_app; [exact Hq | reflexivity]].
      unfold emit, ret. cbn. rewrite <- app_assoc. reflexivity.
    + exists evs. split; [reflexivity | exact Hq].
Qed.

Lemma cache_dialogue_run am settings env cache_key response w :
  exists w',
    _cache_dialogue am settings env cache_key response w = (Returned tt, w') /\
    trace w' = trace w /\
    ledger (redis w') = ledger (redis w) /\
    (dialogue_cache (redis w') = dialogue_cache (redis w) \/
     dialogue_cache (redis w') =
       <[cache_key := (response, (now env + ai_cache_ttl settings)%Z)]>
         (dialogue_cache (redis w))) /\
    (self_redis am = true ->
     redis_fails env (redis_ops w) = false -> (0 < ai_cache_ttl settings)%Z ->
     dialogue_cache (redis w') =
       <[cache_key := (response, (now env + ai_cache_ttl settings)%Z)]>
         (dialogue_cache (redis w))) /\
    (self_redis am = false -> redis w' = redis w).
Proof.
  unfold _cache_dialogue, try_catch, redis_cmd.
  destruct (self_redis am); cbn [negb].
  2:{ exists w. repeat split; first [reflexivity | discriminate | left; reflexivity]. }
  destruct (ai_cache_ttl settings <=? 0)%Z eqn:Ettl.
  { apply Z.leb_le in Ettl. exists w.
    repeat split; first [reflexivity | discriminate | left; reflexivity | intros _ _ H; lia]. }
  destruct (redis_fails env (redis_ops w)).
  { eexists. split; [reflexivity |]. cbn.
    repeat split; first [reflexivity | discriminate | left; reflexivity
                        | intros _ H; discriminate H]. }
  eexists. split; [reflexivity |]. cbn.
  repeat split; first [reflexivity | discriminate | right; reflexivity].
Qed.

(** The keyword [gossip_context] names no parameter of
    [HybridLLMManager.generate_dialogue]: the call raises before the
    hybrid manager runs. *)
Lemma hybrid_call_raises {A} (callee : M A) :
  call_keywords hybrid_generate_dialogue_params hybrid_call_keywords callee =
  raise (TypeError "got an unexpected keyword argument 'gossip_context'").
Proof. reflexivity. Qed.

(** A request either is served from the cache, or ends with the fallback
    synthesizer's response: on the AI path from the exception handler, with
    nothing cached; on the scripted path after the cache write. Neither
    touches the ledger nor reaches a backend or the validator. *)
Lemma generate_dialogue_run depth am settings env npc context personality memories force_claude w :
  let cache_key := _get_dialogue_cache_key npc context memories in
  let fallback := _generate_fallback_dialogue context personality (fallback_pick env) in
  match live_entry am env cache_key w with
  | Some cached =>
      generate_dialogue depth am settings env npc context personality memories force_claude w =
        (Returned cached, after_cmd w)
  | None =>
      exists w' evs,
        generate_dialogue depth am settings env npc context personality memories force_claude w =
          (Returned fallback, w') /\
        trace w' = trace w ++ evs /\ quiet evs /\
        ledger (redis w') = ledger (redis w) /\
        (if ai_path am settings
         then dialogue_cache (redis w') = dialogue_cache (redis w)
         else (dialogue_cache (redis w') = dialogue_cache (redis w) \/
               dialogue_cache (redis w') =
                 <[cache_key := (fallback, (now env + ai_cache_ttl settings)%Z)]>
                   (dialogue_cache (redis w))) /\
              (self_redis am = true ->
               redis_fails env (S (S (redis_ops w))) = false ->
               (0 < ai_cache_ttl settings)%Z ->
               dialogue_cache (redis w') =
                 <[cache_key := (fallback, (now env + ai_cache_ttl settings)%Z)]>
                   (dialogue_cache (redis w)))) /\
        (self_redis am = false -> dialogue_cache (redis w') = dialogue_cache (redis w))
  end.
Proof.
  intros cache_key fallback.
  assert (Hunfold :
    generate_dialogue depth am settings env npc context personality memories force_claude w =
    generate_dialogue 0 am settings env npc context personality memories force_claude w).
  { destruct depth; reflexivity. }
  rewrite Hunfold. clear Hunfold.
  destruct (live_entry am env cache_key w) as [cached |] eqn:Hlive.
  { cbn [generate_dialogue]. unfold bind at 1. rewrite get_cached_run.
    fold cache_key. rewrite Hlive.
    unfold live_entry, after_self_cmd in *.
    destruct (self_redis am); [reflexivity | discriminate Hlive]. }
  destruct (check_cost_limits_run settings env force_claude (after_self_cmd am w))
    as (evs & Hgate & Hq).
  cbn [generate_dialogue]. unfold bind at 1. rewrite get_cached_run.
  fold cache_key. rewrite Hlive.
  unfold bind at 1. rewrite Hgate. cbn [fst snd].
  set (w1 := with_trace (after_cmd (after_self_cmd am w)) evs).
  assert (Hw1 : trace w1 = trace w ++ evs)
    by (unfold w1, after_self_cmd; destruct (self_redis am); reflexivity).
  assert (Hl1 : ledger (redis w1) = ledger (redis w))
    by (unfold w1, after_self_cmd; destruct (self_redis am); reflexivity).
  assert (Hc1 : dialogue_cache (redis w1) = dialogue_cache (redis w))
    by (unfold w1, after_self_cmd; destruct (self_redis am); reflexivity).
  assert (Ho1 : self_redis am = true -> redis_ops w1 = S (S (redis_ops w)))
    by (intros E; unfold w1, after_self_cmd; rewrite E; reflexivity).
  clearbody w1. clear Hgate.
  set (pre := if has_db_session env then [EvEmotionLookup; EvGossipLookup] else [EvGossipLookup]).
  assert (Hpre : quiet pre) by (unfold pre; destruct (has_db_session env); reflexivity).
  assert (Hstart : forall (A : Type) (k : M A),
            (do! when (has_db_session env) (emit EvEmotionLookup) in
             do! emit EvGossipLookup in k) w1 = k (with_trace w1 pre)).
  { intros A k. unfold pre, with_trace, bind, when, emit, ret.
    destruct (has_db_session env); cbn; rewrite <- ?app_assoc; reflexivity. }
  unfold try_catch. rewrite Hstart.
  assert (Hscripted :
    exists w' evs0,
      (let (r, w'0) :=
         (let! response := ret fallback in
          do! _cache_dialogue am settings env cache_key response in
          do! emit (EvStoreMemory response) in
          do! emit (EvCreateGossip response) in ret response) (with_trace w1 pre) in
       match r with
       | Returned a => (Returned a, w'0)
       | Raised _ => ret fallback w'0
       end) = (Returned fallback, w') /\
      trace w' = trace w ++ evs0 /\ quiet evs0 /\
      ledger (redis w') = ledger (redis w) /\
      ((dialogue_cache (redis w') = dialogue_cache (redis w) \/
        dialogue_cache (redis w') =
          <[cache_key := (fallback, (now env + ai_cache_ttl settings)%Z)]>
            (dialogue_cache (redis w))) /\
       (self_redis am = true ->
        redis_fails env (S (S (redis_ops w))) = false ->
        (0 < ai_cache_ttl settings)%Z ->
        dialogue_cache (redis w') =
          <[cache_key := (fallback, (now env + ai_cache_ttl settings)%Z)]>
            (dialogue_cache (redis w)))) /\
      (self_redis am = false -> dialogue_cache (redis w') = dialogue_cache (redis w))).
  { destruct (cache_dialogue_run am settings env cache_key fallback (with_trace w1 pre))
      as (w2 & Hrun & Ht2 & Hl2 & Hc2 & Hc2' & Hc2'').
    unfold bind at 1. unfold ret at 1. unfold bind at 1. rewrite Hrun.
    exists (with_trace w2 [EvStoreMemory fallback; EvCreateGossip fallback]),
           (evs ++ pre ++ [EvStoreMemory fallback; EvCreateGossip fallback]).
    split.
    { unfold bind, emit, ret, with_trace. cbn. rewrite <- app_assoc. reflexivity. }
    cbn [with_trace trace redis redis_ops] in Ht2, Hl2, Hc2, Hc2', Hc2'' |- *.
    rewrite Hc1 in Hc2, Hc2'.
    rewrite Ht2, Hw1, Hl2, Hl1, <- !app_assoc.
    split; [reflexivity |].
    split; [apply quiet_app; [exact Hq | apply quiet_app; [exact Hpre | reflexivity]] |].
    split; [reflexivity |].
    split; [split; [exact Hc2 |] |].
    - intros E Hup Httl. apply Hc2'; [exact E | rewrite (Ho1 E); exact Hup | exact Httl].
    - intros E. rewrite (Hc2'' E). exact Hc1. }
  unfold ai_path. destruct (hybrid_manager am) as [hm |]; [destruct (ai_enabled settings) |].
  - rewrite hybrid_call_raises.
    exists (with_trace w1 pre), (evs ++ pre). split; [reflexivity |].
    cbn [with_trace trace redis]. rewrite Hw1, <- app_assoc.
    repeat split; [apply quiet_app; assumption | exact Hl1 | exact Hc1 | intros _; exact Hc1].
  - apply Hscripted.
  - apply Hscripted.
Qed.

Lemma live_entry_stored am env cache_key w cached :
  live_entry am env cache_key w = Some cached ->
  exists expires,
    dialogue_cache (redis w) !! cache_key = Some (cached, expires) /\
    (now env < expires)%Z /\ redis_fails env (redis_ops w) = false.
Proof.
  unfold live_entry. destruct (self_redis am); cbn [negb]; [| discriminate].
  destruct (redis_fails env (redis_ops w)); [discriminate |].
  destruct (dialogue_cache (redis w) !! cache_key) as [[response expires] |]; [| discriminate].
  destruct (now env <? expires)%Z eqn:E; [| discriminate].
  intros [= <-]. exists expires. apply Z.ltb_lt in E. repeat split; assumption.
Qed.

Lemma live_entry_fresh am env cache_key w response expires :
  self_redis am = true ->
  redis_fails env (redis_ops w) = false ->
  dialogue_cache (redis w) !! cache_key = Some (response, expires) ->
  (now env < expires)%Z ->
  live_entry am env cache_key w = Some response.
Proof.
  intros Hcl Hup Hl Hlt. unfold live_entry. rewrite Hcl, Hup, Hl. cbn [negb].
  apply Z.ltb_lt in Hlt. rewrite Hlt. reflexivity.
Qed.

Lemma cache_good_insert (r r' : Redis) cache_key response expires :
  cache_good r -> good_response response ->
  dialogue_cache r' = dialogue_cache r \/
  dialogue_cache r' = <[cache_key := (response, expires)]> (dialogue_cache r) ->
  cache_good r'.
Proof.
  intros Hg Hr [Heq | Heq] k resp e Hk; rewrite Heq in Hk.
  - exact (Hg _ _ _ Hk).
  - destruct (decide (cache_key = k)) as [-> | Hne].
    + rewrite lookup_insert_eq in Hk. injection Hk as <- _. exact Hr.
    + rewrite lookup_insert_ne in Hk by exact Hne. exact (Hg _ _ _ Hk).
Qed.

(** C1. For every input (npc id, context, personality, memories, force
    flag), every manager configuration, every failure pattern of the
    Redis store and every answer of the collaborators, [generate_dialogue]
    returns (it does not raise) a response with non-empty text and an
    allowed emotion. The cache is assumed to hold only such responses,
    which the request in turn preserves. *)
Theorem generate_dialogue_always_answers
    (depth : nat) (am : AIManager) (settings : Settings) (env : Env) (npc : string)
    (context : NPCInteractionContext) (personality : PersonalityTraits)
    (memories : list MemoryItem) (force_claude : bool) (w : World) :
  cache_good (redis w) ->
  exists r w',
    generate_dialogue depth am settings env npc context personality memories force_claude w =
      (Returned r, w') /\
    good_response r /\
    cache_good (redis w').
Proof.
  intros Hgood.
  pose proof (generate_dialogue_run depth am settings env npc context personality memories
                force_claude w) as Hrun.
  cbv zeta in Hrun.
  destruct (live_entry am env (_get_dialogue_cache_key npc context memories) w)
    as [cached |] eqn:Hl.
  - destruct (live_entry_stored _ _ _ _ _ Hl) as (expires & Hstored & _ & _).
    exists cached, (after_cmd w). split; [exact Hrun |]. split; [| exact Hgood].
    exact (Hgood _ _ _ Hstored).
  - destruct Hrun as (w' & evs & Hrun & _ & _ & _ & Hcache & _).
    eexists _, w'. split; [exact Hrun |].
    split; [apply fallback_dialogue_good |].
    eapply cache_good_insert; [exact Hgood | apply fallback_dialogue_good |].
    destruct (ai_path am settings); [left; exact Hcache | exact (proj1 Hcache)].
Qed.

Lemma generate_dialogue_always_answers_witness :
  cache_good (redis initial_world) /\
  exists r w',
    generate_dialogue 1 shipped_manager default_settings (sample_env_store_down 1000 2)
      sample_npc (sample_context "battle" 0.9) sample_personality [] true initial_world =
      (Returned r, w') /\
    good_response r /\ cache_good (redis w').
Proof.
  assert (H : cache_good (redis initial_world)).
  { intros k response expires Hk. cbn in Hk. rewrite lookup_empty in Hk. discriminate. }
  split; [exact H |].
  exact (generate_dialogue_always_answers 1 shipped_manager default_settings
           (sample_env_store_down 1000 2) sample_npc (sample_context "battle" 0.9)
           sample_personality [] true initial_world H).
Defined.

(** Every request returns. *)
Lemma generate_dialogue_returns
    (depth : nat) (am : AIManager) (settings : Settings) (env : Env) (npc : string)
    (context : NPCInteractionContext) (personality : PersonalityTraits)
    (memories : list MemoryItem) (force_claude : bool) (w : World) :
  exists r w',
    generate_dialogue depth am settings env npc context personality memories force_claude w =
      (Returned r, w').
Proof.
  pose proof (generate_dialogue_run depth am settings env npc context personality memories
                force_claude w) as Hrun.
  cbv zeta in Hrun.
  destruct (live_entry am env (_get_dialogue_cache_key npc context memories) w) as [cached |].
  - eexists _, _. exact Hrun.
  - destruct Hrun as (w' & evs & Hrun & _). eexists _, _. exact Hrun.
Qed.

(** C3. No request creates a ledger record without a backend adapter call
    that succeeded. In this code that is every request: a cache hit
    returns at once, the scripted fallback never records, and on the AI
    path the call into the hybrid manager raises (see
    [hybrid_call_raises]) so that the handler answers with the fallback
    synthesizer. The trace of the request holds no backend, validator or
    [record_request] event, and the ledger (daily cost, request counts,
    token and latency totals) is left as it was. *)
Theorem no_ledger_record_without_backend
    (depth : nat) (am : AIManager) (settings : Settings) (env : Env) (npc : string)
    (context : NPCInteractionContext) (personality : PersonalityTraits)
    (memories : list MemoryItem) (force_claude : bool) (w : World) :
  exists r w' evs,
    generate_dialogue depth am settings env npc context personality memories force_claude w =
      (Returned r, w') /\
    trace w' = trace w ++ evs /\
    quiet evs /\
    count_record_requests (trace w') = count_record_requests (trace w) /\
    ledger (redis w') = ledger (redis w).
Proof.
  pose proof (generate_dialogue_run depth am settings env npc context personality memories
                force_claude w) as Hrun.
  cbv zeta in Hrun.
  assert (Hcount : forall evs, quiet evs ->
            count_record_requests (trace w ++ evs) = count_record_requests (trace w)).
  { intros evs Hq. unfold count_record_requests. rewrite List.filter_app, length_app.
    assert (Hnil : List.filter
                     (fun ev => match ev with EvRecordRequest _ _ => true | _ => false end)
                     evs = []).
    { induction evs as [| ev evs IH]; [reflexivity |].
      unfold quiet in Hq. cbn [forallb] in Hq. apply andb_true_iff in Hq as [Hev Hq].
      cbn [List.filter]. destruct ev; try discriminate; apply IH, Hq. }
    rewrite Hnil. cbn. lia. }
  destruct (live_entry am env (_get_dialogue_cache_key npc context memories) w) as [cached |].
  - exists cached, (after_cmd w), []. split; [exact Hrun |].
    cbn [after_cmd trace redis]. rewrite app_nil_r. repeat split.
  - destruct Hrun as (w' & evs & Hrun & Ht & Hq & Hl & _).
    eexists _, w', evs. split; [exact Hrun |].
    rewrite Ht. repeat split; [exact Hq | apply Hcount, Hq | exact Hl].
Qed.

(** ** Budget ledger: admission and failure semantics *)

Lemma try_catch_ret_total {A} (m : M A) (a : A) (w : World) :
  exists x w', try_catch m (fun _ => ret a) w = (Returned x, w').
Proof.
  unfold try_catch. destruct (m w) as [[x | e] w']; eexists _, _; reflexivity.
Qed.

Lemma record_request_returns env estimated_cost model_used tokens_used response_time_ms w :
  exists w',
    record_request env estimated_cost model_used tokens_used response_time_ms w =
      (Returned tt, w').
Proof.
  unfold record_request.
  match goal with
  | |- context [try_catch ?m _ w] => destruct (try_catch_ret_total m tt w) as ([] & w' & H)
  end.
  exists w'. exact H.
Qed.

Lemma can_make_request_store_down settings env w :
  redis_fails env (redis_ops w) = true ->
  can_make_request settings env w = (Returned true, after_cmd w).
Proof.
  intros H. unfold can_make_request, try_catch, bind, hget_cost.
  rewrite (redis_cmd_fails _ _ _ H). reflexivity.
Qed.

Lemma record_request_store_down env estimated_cost model_used tokens_used response_time_ms w :
  redis_fails env (redis_ops w) = true ->
  record_request env estimated_cost model_used tokens_used response_time_ms w =
    (Returned tt, after_cmd w).
Proof.
  intros H. unfold record_request, try_catch, hincrbyfloat_cost.
  unfold bind at 1. rewrite (redis_cmd_fails _ _ _ H). reflexivity.
Qed.

(** C8. The ledger fails open. When the store read raises,
    [can_make_request] returns true; when the store raises during
    [record_request] the error is swallowed: the call returns for every
    failure pattern (and leaves the store untouched when the first command
    already fails); and whatever the store does, [generate_dialogue] still
    returns a response. *)
Theorem ledger_fails_open (settings : Settings) (env : Env) (w : World) :
  redis_fails env (redis_ops w) = true ->
  can_make_request settings env w = (Returned true, after_cmd w) /\
  (forall estimated_cost model_used tokens_used response_time_ms,
     record_request env estimated_cost model_used tokens_used response_time_ms w =
       (Returned tt, after_cmd w)) /\
  (forall env' w' estimated_cost model_used tokens_used response_time_ms,
     exists w'',
       record_request env' estimated_cost model_used tokens_used response_time_ms w' =
         (Returned tt, w'')) /\
  (forall depth am npc context personality memories force_claude,
     is_returned
       (fst (generate_dialogue depth am settings env npc context personality memories
               force_claude w)) = true).
Proof.
  intros H. split; [apply can_make_request_store_down, H |].
  split; [intros; apply record_request_store_down, H |].
  split; [intros; apply record_request_returns |].
  intros depth am npc context personality memories force_claude.
  destruct (generate_dialogue_returns depth am settings env npc context personality
              memories force_claude w) as (r & w' & Hrun).
  rewrite Hrun. reflexivity.
Qed.

Lemma ledger_fails_open_witness :
  redis_fails (sample_env_store_down 1000 0) (redis_ops initial_world) = true /\
  can_make_request default_settings (sample_env_store_down 1000 0) initial_world =
    (Returned true, after_cmd initial_world).
Proof.
  split; [reflexivity |].
  apply (ledger_fails_open default_settings (sample_env_store_down 1000 0) initial_world).
  reflexivity.
Defined.

Lemma cost_projection_average_witness :
  let w := world_with_costs [(10%Z, 1.5); (9%Z, 2); (7%Z, 4)] in
  (forall n, redis_fails (sample_env 864000 0) n = false) /\
  ~ max_cost_per_day_usd default_settings == 0 /\
  (forall d c, cost_by_day (redis w) !! d = Some c -> 0 <= c) /\
  length (nonzero_costs (stored_costs (redis w) (today (sample_env 864000 0)))) = 3%nat /\
  exists p w',
    get_cost_projection default_settings (sample_env 864000 0) w = (Returned p, w') /\
    daily_avg p ==
      average (nonzero_costs (stored_costs (redis w) (today (sample_env 864000 0)))) /\
    monthly_projection p ==
      average (nonzero_costs (stored_costs (redis w) (today (sample_env 864000 0)))) * 30 /\
    confidence p =
      confidence_label
        (length (nonzero_costs (stored_costs (redis w) (today (sample_env 864000 0))))).
Proof.
  intros w.
  assert (H1 : forall n, redis_fails (sample_env 864000 0) n = false) by reflexivity.
  assert (H2 : ~ max_cost_per_day_usd default_settings == 0) by (cbn; discriminate).
  assert (H3 : forall d c, cost_by_day (redis w) !! d = Some c -> 0 <= c).
  { intros d c Hd. apply elem_of_list_to_map_2 in Hd.
    repeat (apply elem_of_cons in Hd as [[= -> ->] | Hd]; [discriminate |]).
    apply elem_of_nil in Hd. destruct Hd. }
  split; [exact H1 |]. split; [exact H2 |]. split; [exact H3 |].
  split; [reflexivity |].
  exact (cost_projection_average default_settings (sample_env 864000 0) w H1 H2 H3).
Defined.

Lemma can_make_request_exhausted settings env w current_cost :
  redis_fails env (redis_ops w) = false ->
  cost_by_day (redis w) !! today env = Some current_cost ->
  max_cost_per_day_usd settings <= current_cost ->
  budget_verdict settings env w = false.
Proof.
  intros Hup Hc Hle. unfold budget_verdict. rewrite Hup, Hc.
  apply Qltb_ge. exact Hle.
Qed.

(** C2, as stated, fails: with today's cost at the cap the budget check
    answers false and the force flag is cleared, yet for a context with
    [relationship_level = 0.9] the router, called with the cleared flag,
    goes to Claude without trying the local model. *)
Lemma budget_exhausted_still_routes_to_claude :
  max_cost_per_day_usd default_settings <= 50 /\
  fst (can_make_request default_settings (sample_env 1000 0) (world_with_cost 0 50)) =
    Returned false /\
  fst (check_cost_limits default_settings (sample_env 1000 0) true (world_with_cost 0 50)) =
    Returned (false, false) /\
  _should_use_local (default_hybrid true) (sample_context "greeting" 0.9)
    sample_personality [] (random_draw (sample_env 1000 0)) = false /\
  trace (snd (hybrid_generate_dialogue (default_hybrid true) (answering_claude claude_reply)
                (sample_env 1000 0) sample_npc (sample_context "greeting" 0.9)
                sample_personality [] false (world_with_cost 0 50))) =
    [EvHealthCheck; EvClaudeManagerGenerate false].
Proof. repeat split; vm_compute; congruence. Qed.

(** C2, amended. When today's accumulated cost is at or above the cap and
    the ledger can be read, [can_make_request] returns false and the
    orchestrator clears the force flag: the request goes on as a
    non-forced one. The router itself never consults the budget. *)
Theorem budget_exhausted_clears_force
    (settings : Settings) (env : Env) (w : World) (current_cost : Q) (force_claude : bool) :
  redis_fails env (redis_ops w) = false ->
  cost_by_day (redis w) !! today env = Some current_cost ->
  max_cost_per_day_usd settings <= current_cost ->
  fst (can_make_request settings env w) = Returned false /\
  fst (check_cost_limits settings env force_claude w) = Returned (false, false).
Proof.
  intros Hup Hc Hle.
  pose proof (can_make_request_exhausted settings env w current_cost Hup Hc Hle) as Hv.
  destruct (can_make_request_run settings env w) as (evs & Hrun & _).
  destruct (check_cost_limits_run settings env force_claude w) as (evs' & Hrun' & _).
  rewrite Hrun, Hrun', Hv. split; reflexivity.
Qed.

Lemma budget_exhausted_clears_force_witness :
  redis_fails (sample_env 1000 0) (redis_ops (world_with_cost 0 50)) = false /\
  cost_by_day (redis (world_with_cost 0 50)) !! today (sample_env 1000 0) = Some 50 /\
  max_cost_per_day_usd default_settings <= 50 /\
  fst (check_cost_limits default_settings (sample_env 1000 0) true (world_with_cost 0 50)) =
    Returned (false, false).
Proof.
  assert (H2 : cost_by_day (redis (world_with_cost 0 50)) !! today (sample_env 1000 0) = Some 50)
    by reflexivity.
  assert (H3 : max_cost_per_day_usd default_settings <= 50) by (cbn; discriminate).
  split; [reflexivity |]. split; [exact H2 |]. split; [exact H3 |].
  apply (budget_exhausted_clears_force default_settings (sample_env 1000 0)
           (world_with_cost 0 50) 50 true eq_refl H2 H3).
Defined.

(** ** Local-response quality gate *)

Lemma count_claude_calls_app (a b : list Event) :
  count_claude_calls (a ++ b) = (count_claude_calls a + count_claude_calls b)%nat.
Proof. unfold count_claude_calls. rewrite List.filter_app, length_app. reflexivity. Qed.

(** The local adapter neither touches the store nor calls Claude. *)
Lemma local_generate_frame env context personality memories w0 res w1 :
  local_generate_dialogue env context personality memories w0 = (res, w1) ->
  redis w1 = redis w0 /\ redis_ops w1 = redis_ops w0 /\
  count_claude_calls (trace w1) = count_claude_calls (trace w0).
Proof.
  assert (Hcount : forall evs,
            forallb (fun ev => match ev with
                               | EvClaudeManagerGenerate _ => false | _ => true end) evs = true ->
            count_claude_calls (trace w0 ++ evs) = count_claude_calls (trace w0)).
  { intros evs H. rewrite count_claude_calls_app.
    assert (Hz : count_claude_calls evs = 0%nat).
    { induction evs as [| ev evs IH]; [reflexivity |].
      cbn [forallb] in H. apply andb_true_iff in H as [Hev H].
      unfold count_claude_calls in *. cbn [List.filter].
      destruct ev; try discriminate; apply IH, H. }
    lia. }
  unfold local_generate_dialogue, bind, _health_check, try_catch, emit, raise, ret.
  destruct (local_health env (count_health_checks (trace w0))); cbn [negb].
  - destruct (local_http env) as [| code parsed].
    + intros [= <- <-]. cbn [redis redis_ops trace]. rewrite <- app_assoc.
      repeat split. apply Hcount. reflexivity.
    + destruct (code =? 200)%Z; cbn [negb]; [destruct parsed |];
        intros [= <- <-]; cbn [redis redis_ops trace]; rewrite <- app_assoc;
        repeat split; apply Hcount; reflexivity.
  - intros [= <- <-]. cbn [redis redis_ops trace]. repeat split. apply Hcount. reflexivity.
Qed.

(** C6. The code departs from the claim at this input: the hybrid
    manager as [initialize()] wires it, a healthy local model, a greeting
    at relationship level 0.5 without memories. The local answer "Hello
    there! Welcome!" is rejected as too generic and the request is
    re-issued once, to [claude_manager.generate_dialogue], which is
    [AIManager.generate_dialogue]; that nested request reads the cache and
    the budget (two Redis commands), and its own call into the hybrid
    manager raises (see [hybrid_call_raises]), so it answers with the
    fallback synthesizer. The Cloud adapter is not called. *)
Theorem generic_rejection_never_reaches_the_cloud_adapter :
  let env := sample_env 1000 0 in
  let context := sample_context "greeting" 0.5 in
  let run :=
    hybrid_generate_dialogue (default_hybrid true)
      (wired_claude_manager 1 shipped_manager default_settings env)
      env sample_npc context sample_personality [] false initial_world in
  local_http env = HttpStatus 200 (Some (mkResponse "Hello there! Welcome!" "neutral" 0.05)) /\
  _is_response_too_generic (mkResponse "Hello there! Welcome!" "neutral" 0.05) [] context =
    true /\
  fst run = Returned (_generate_fallback_dialogue context sample_personality 0) /\
  text (_generate_fallback_dialogue context sample_personality 0) =
    "Hello there! How are you doing?"%string /\
  trace (snd run) =
    [ EvHealthCheck; EvHealthCheck; EvLocalGenerate; EvClaudeManagerGenerate false;
      EvGossipLookup ] /\
  count_claude_calls (trace (snd run)) = 1%nat /\
  count_claude_api_calls (trace (snd run)) = 0%nat /\
  redis_ops (snd run) = 2%nat.
Proof. vm_compute. repeat split. Qed.

(** When the local response is judged too generic by
    [_is_response_too_generic], the hybrid manager calls
    [claude_manager.generate_dialogue] (with the force flag unset) and,
    when that call returns, returns its response at once: one call, no
    further retry. The hybrid manager itself issues no Redis command
    before the call; a budget check is the business of the callee. *)
Lemma generic_local_response_delegates
    (hm : HybridLLMManager) (claude_manager : ClaudeManager) (env : Env) (npc : string)
    (context : NPCInteractionContext) (personality : PersonalityTraits)
    (memories : list MemoryItem) (w w1 w2 : World) (response r : DialogueResponse) :
  local_enabled hm = true ->
  local_health env (count_health_checks (trace w)) = true ->
  _should_use_local hm context personality memories (random_draw env) = true ->
  local_generate_dialogue env context personality memories (with_trace w [EvHealthCheck]) =
    (Returned response, w1) ->
  _is_response_too_generic response memories context = true ->
  claude_manager npc context personality memories
    (with_trace w1 [EvClaudeManagerGenerate false]) = (Returned r, w2) ->
  hybrid_generate_dialogue hm claude_manager env npc context personality memories false w =
    (Returned r, w2) /\
  count_claude_calls (trace (with_trace w1 [EvClaudeManagerGenerate false])) =
    S (count_claude_calls (trace w)) /\
  redis w1 = redis w /\ redis_ops w1 = redis_ops w.
Proof.
  intros Hen Hh Hs Hlocal Hgen Hclaude.
  destruct (local_generate_frame _ _ _ _ _ _ _ Hlocal) as (Hr & Ho & Hc).
  split.
  - unfold hybrid_generate_dialogue. rewrite Hen. cbn [negb andb].
    unfold bind at 1. unfold bind at 1. unfold _health_check at 1.
    rewrite Hh, Hs. cbn [andb]. unfold ret at 1.
    fold (with_trace w [EvHealthCheck]).
    unfold bind at 1. unfold try_catch. unfold bind at 1. rewrite Hlocal, Hgen.
    unfold bind at 1. unfold emit at 1. fold (with_trace w1 [EvClaudeManagerGenerate false]).
    unfold bind at 1. rewrite Hclaude. reflexivity.
  - cbn [with_trace trace redis redis_ops] in *.
    rewrite count_claude_calls_app, Hc, count_claude_calls_app. cbn.
    repeat split; [lia | exact Hr | exact Ho].
Qed.

Lemma generic_local_response_delegates_witness :
  hybrid_generate_dialogue (default_hybrid true) (answering_claude claude_reply)
    (sample_env 1000 0) sample_npc (sample_context "greeting" 0.5) sample_personality []
    false initial_world =
  (Returned claude_reply,
   with_trace initial_world
     [EvHealthCheck; EvHealthCheck; EvLocalGenerate; EvClaudeManagerGenerate false]).
Proof.
  apply (generic_local_response_delegates (default_hybrid true) (answering_claude claude_reply)
           (sample_env 1000 0) sample_npc (sample_context "greeting" 0.5) sample_personality []
           initial_world
           (with_trace initial_world [EvHealthCheck; EvHealthCheck; EvLocalGenerate])
           (with_trace initial_world
              [EvHealthCheck; EvHealthCheck; EvLocalGenerate; EvClaudeManagerGenerate false])
           (mkResponse "Hello there! Welcome!" "neutral" 0.05) claude_reply);
    reflexivity.
Defined.

(** ** Response cache *)

(** The fingerprint depends on the request only through the npc id, the
    interaction type, the relationship level formatted to one decimal and
    the number of memories. *)
Lemma cache_key_depends_on_four npc context1 context2 memories1 memories2 :
  interaction_type context1 = interaction_type context2 ->
  format_1f (relationship_level context1) = format_1f (relationship_level context2) ->
  length memories1 = length memories2 ->
  _get_dialogue_cache_key npc context1 memories1 = _get_dialogue_cache_key npc context2 memories2.
Proof.
  intros H1 H2 H3. unfold _get_dialogue_cache_key, cache_key_content.
  rewrite H1, H2, H3. reflexivity.
Qed.

(** A request that finds a live entry returns it and does nothing else. *)
Lemma generate_dialogue_hit depth am settings env npc context personality memories
    force_claude w cached :
  live_entry am env (_get_dialogue_cache_key npc context memories) w = Some cached ->
  generate_dialogue depth am settings env npc context personality memories force_claude w =
    (Returned cached, after_cmd w).
Proof.
  intros Hl.
  pose proof (generate_dialogue_run depth am settings env npc context personality memories
                force_claude w) as Hrun.
  cbv zeta in Hrun. rewrite Hl in Hrun. exact Hrun.
Qed.

(** C4, as stated, fails. On the initialised manager, with the store up
    and both backends down, two calls with the same npc id, interaction
    type, relationship level and memory count, ten seconds apart with a
    one-hour TTL, return different texts: the first answer came from the
    exception handler and was never cached. (The backends do not matter:
    see [generate_dialogue_run].) *)
Lemma same_fingerprint_different_text :
  let first :=
    generate_dialogue 1 shipped_manager default_settings (sample_env_backends_down 1000 0)
      sample_npc (sample_context "greeting" 0.5) sample_personality [] false initial_world in
  let second :=
    generate_dialogue 1 shipped_manager default_settings (sample_env_backends_down 1010 1)
      sample_npc (sample_context "greeting" 0.5) sample_personality [] false (snd first) in
  (1000 <= 1010 < 1000 + ai_cache_ttl default_settings)%Z /\
  fst first = Returned (mkResponse "Hello there! How are you doing?" "neutral" 0.1) /\
  fst second = Returned (mkResponse "Hey! Nice to see you!" "neutral" 0.1) /\
  dialogue_cache (redis (snd first)) = ∅.
Proof. vm_compute. repeat split; congruence. Qed.

(** C4, amended. The fingerprint is a function of exactly (npc id,
    interaction type, relationship level to one decimal, memory count).
    When the manager holds a Redis client, a call misses the cache and
    completes on the scripted path (AI disabled, or no hybrid manager) and
    the store accepts the write, a second call agreeing on those four
    values and made within the TTL returns the identical response; it
    makes one Redis read and nothing else: no backend, no validator, no
    ledger record. *)
Theorem cached_dialogue_reused
    (depth1 depth2 : nat) (am : AIManager) (settings : Settings) (env1 env2 : Env)
    (npc : string) (context1 context2 : NPCInteractionContext)
    (personality1 personality2 : PersonalityTraits)
    (memories1 memories2 : list MemoryItem) (force1 force2 : bool) (w : World) :
  interaction_type context1 = interaction_type context2 ->
  format_1f (relationship_level context1) = format_1f (relationship_level context2) ->
  length memories1 = length memories2 ->
  self_redis am = true ->
  ai_path am settings = false ->
  (forall n, redis_fails env1 n = false) ->
  (forall n, redis_fails env2 n = false) ->
  (now env1 <= now env2 < now env1 + ai_cache_ttl settings)%Z ->
  live_entry am env1 (_get_dialogue_cache_key npc context1 memories1) w = None ->
  _get_dialogue_cache_key npc context1 memories1 = _get_dialogue_cache_key npc context2 memories2 /\
  exists r w1,
    generate_dialogue depth1 am settings env1 npc context1 personality1 memories1 force1 w =
      (Returned r, w1) /\
    generate_dialogue depth2 am settings env2 npc context2 personality2 memories2 force2 w1 =
      (Returned r, after_cmd w1).
Proof.
  intros H1 H2 H3 Hcl Hpath Hup1 Hup2 Hnow Hmiss.
  pose proof (cache_key_depends_on_four npc context1 context2 memories1 memories2 H1 H2 H3)
    as Hkey.
  split; [exact Hkey |].
  pose proof (generate_dialogue_run depth1 am settings env1 npc context1 personality1 memories1
                force1 w) as Hrun.
  cbv zeta in Hrun. rewrite Hmiss, Hpath in Hrun.
  destruct Hrun as (w1 & evs & Hrun & _ & _ & _ & (_ & Hstored) & _).
  specialize (Hstored Hcl (Hup1 _) ltac:(lia)).
  eexists _, w1. split; [exact Hrun |].
  apply generate_dialogue_hit.
  eapply live_entry_fresh; [exact Hcl | apply Hup2 | | ].
  - rewrite Hstored, <- Hkey. apply lookup_insert_eq.
  - lia.
Qed.

Lemma cached_dialogue_reused_witness :
  format_1f 0.5 = format_1f 0.52 /\
  self_redis shipped_manager = true /\
  ai_path shipped_manager scripted_settings = false /\
  exists r w1,
    generate_dialogue 1 shipped_manager scripted_settings (sample_env 1000 1) sample_npc
      (sample_context "greeting" 0.5) sample_personality [] false initial_world =
      (Returned r, w1) /\
    generate_dialogue 1 shipped_manager scripted_settings (sample_env 1010 2) sample_npc
      (sample_context "greeting" 0.52) sample_personality [] true w1 =
      (Returned r, after_cmd w1).
Proof.
  split; [vm_compute; reflexivity |]. split; [reflexivity |]. split; [reflexivity |].
  apply (cached_dialogue_reused 1 1 shipped_manager scripted_settings
           (sample_env 1000 1) (sample_env 1010 2) sample_npc
           (sample_context "greeting" 0.5) (sample_context "greeting" 0.52)
           sample_personality sample_personality [] [] false true initial_world);
    try reflexivity; try (vm_compute; reflexivity).
  cbn. lia.
Defined.

(** Before [initialize()] the manager has no client: nothing is read from
    the store and nothing is written to it, whatever it holds, and two
    requests with one fingerprint are answered by two draws of the
    fallback synthesizer. *)
Lemma uninitialised_manager_never_caches
    (depth : nat) (settings : Settings) (env : Env) (npc : string)
    (context : NPCInteractionContext) (personality : PersonalityTraits)
    (memories : list MemoryItem) (force_claude : bool) (w : World) :
  exists w',
    generate_dialogue depth uninitialised_manager settings env npc context personality memories
      force_claude w =
      (Returned (_generate_fallback_dialogue context personality (fallback_pick env)), w') /\
    dialogue_cache (redis w') = dialogue_cache (redis w).
Proof.
  pose proof (generate_dialogue_run depth uninitialised_manager settings env npc context
                personality memories force_claude w) as Hrun.
  cbv zeta in Hrun. unfold live_entry in Hrun. cbn [uninitialised_manager self_redis negb] in Hrun.
  destruct Hrun as (w' & evs & Hrun & _ & _ & _ & _ & Hsame).
  exists w'. split; [exact Hrun | apply Hsame; reflexivity].
Qed.

(** ** Worked examples *)

Example md5_abc : MD5.hexdigest "abc" = "900150983cd24fb0d6963f7d28e17f72"%string.
Proof. vm_compute. reflexivity. Qed.

Example md5_empty : MD5.hexdigest "" = "d41d8cd98f00b204e9800998ecf8427e"%string.
Proof. vm_compute. reflexivity. Qed.

(** [0.25] and [0.75] are binary64 numbers and ties, which go to the
    even digit; [0.35] and [0.45] are not: the floats nearest to them lie
    below 0.35 and above 0.45. *)
Example format_1f_rounds :
  map format_1f [0.25; 0.35; 0.44; 0.45; 0.75; 0.96; 1; 0] =
  ["0.2"; "0.3"; "0.4"; "0.5"; "0.8"; "1.0"; "1.0"; "0.0"]%string.
Proof. vm_compute. reflexivity. Qed.

Example fl_one_tenth : fl 0.1 == 3602879701896397 # 36028797018963968.
Proof. vm_compute. reflexivity. Qed.

(** Relationship levels 0.35 and 0.4 print differently: two keys. *)
Example cache_key_differs_across_035_040 :
  _get_dialogue_cache_key sample_npc (sample_context "greeting" 0.35) [] <>
  _get_dialogue_cache_key sample_npc (sample_context "greeting" 0.4) [].
Proof. vm_compute. discriminate. Qed.

Example cache_key_sample :
  _get_dialogue_cache_key sample_npc (sample_context "greeting" 0.5) [] =
  "dialogue:8853a1d668a6e55558915993d1e877be"%string.
Proof. vm_compute. reflexivity. Qed.

(** A no-break space (U+00A0) and an ideographic space (U+3000) separate
    words as a blank does. *)
Example split_ws_unicode_spaces :
  split_ws "good day to　you" = ["good"; "day"; "to"; "you"]%string.
Proof. vm_compute. reflexivity. Qed.

Example fallback_unknown_type_is_greeting :
  text (_generate_fallback_dialogue (sample_context "quest" 0.5) sample_personality 3) =
  "Welcome! How can I help you?"%string.
Proof. vm_compute. reflexivity. Qed.

Example router_battle_goes_to_claude :
  _should_use_local (default_hybrid true) (sample_context "battle" 0.5) sample_personality []
    0 = false.
Proof. vm_compute. reflexivity. Qed.

Example router_ratio_zero_goes_to_claude :
  _should_use_local {| local_enabled := true; use_local_ratio := 0 |}
    (sample_context "greeting" 0.5) sample_personality [] 0 = false.
Proof. vm_compute. reflexivity. Qed.

Example router_simple_request_goes_local :
  _should_use_local (default_hybrid true) (sample_context "greeting" 0.5) sample_personality []
    0.79 = true.
Proof. vm_compute. reflexivity. Qed.

Example router_memory_rich_goes_to_claude :
  _should_use_local (default_hybrid true) (sample_context "greeting" 0.5) sample_personality
    [ sample_memory "a" 0.9; sample_memory "b" 0.1; sample_memory "c" 0.1;
      sample_memory "d" 0.1 ] 0 = false.
Proof. vm_compute. reflexivity. Qed.

(** Two generic phrases, but no memories and a stranger: accepted. *)
Example generic_phrases_from_stranger_accepted :
  _is_response_too_generic (mkResponse "Hello there! Welcome!" "neutral" 0.05) []
    (sample_context "greeting" 0.1) = false.
Proof. vm_compute. reflexivity. Qed.

(** No word of the memory in the response: rejected. *)
Example response_ignoring_memory_rejected :
  _is_response_too_generic (mkResponse "Lovely weather today." "neutral" 0.05)
    [sample_memory "Player helped me find a lost item yesterday" 0.8]
    (sample_context "greeting" 0.6) = true.
Proof. vm_compute. reflexivity. Qed.

Example response_using_memory_accepted :
  _is_response_too_generic (mkResponse "Thanks again, you helped me a lot." "neutral" 0.05)
    [sample_memory "Player helped me find a lost item yesterday" 0.8]
    (sample_context "greeting" 0.6) = false.
Proof. vm_compute. reflexivity. Qed.

(** One forbidden category halves the score: 0.5 is not below 0.5, so the
    verdict is an error, not critical; the dialogue is invalid. *)
Example validate_forbidden_word :
  let v := validate_dialogue sample_search (mkResponse "I will kill time here." "neutral" 0)
             (sample_context "greeting" 0.5) (Some sample_personality) in
  score v == 0.5 /\ severity v = ERROR /\ is_valid v = false /\
  issues v = ["Contains forbidden violence content"]%string /\
  suggested_fixes v =
    ["Remove inappropriate content and keep dialogue family-friendly"]%string.
Proof. vm_compute. repeat split; congruence. Qed.

Example validate_clean_text :
  let v := validate_dialogue sample_search (mkResponse "Good to see you again!" "happy" 0.1)
             (sample_context "greeting" 0.6) (Some sample_personality) in
  score v == 1 /\ severity v = INFO /\ is_valid v = true /\ issues v = [].
Proof. vm_compute. repeat split; congruence. Qed.

(** One recorded Claude request on day 10, hour 0. *)
Example record_request_once :
  let w := snd (record_request (sample_env 864000 0) 0.02 "claude" 12 150 initial_world) in
  map_to_list (cost_by_day (redis w)) = [(10%Z, 0 + 0.02)] /\
  daily_requests (redis w) !! 10%Z = Some 1%Z /\
  hourly_requests (redis w) !! (10%Z, 0%Z) = Some 1%Z /\
  usage_int (redis w) !! (10%Z, "requests_claude"%string) = Some 1%Z /\
  usage_int (redis w) !! (10%Z, "total_tokens"%string) = Some 12%Z /\
  usage_int (redis w) !! (10%Z, "total_response_time_ms"%string) = Some 150%Z /\
  redis_ops w = 14%nat.
Proof. vm_compute. repeat split. Qed.

Example projection_after_one_request :
  let w := snd (record_request (sample_env 864000 0) 0.02 "claude" 12 150 initial_world) in
  match fst (get_cost_projection default_settings (sample_env 864000 0) w) with
  | Returned p =>
      daily_avg p == 0.02 /\ monthly_projection p == 0.6 /\
      confidence p = "low"%string /\ data_points p = Some 1%nat
  | Raised _ => False
  end.
Proof. vm_compute. repeat split; congruence. Qed.

(** A store whose every command raises: the budget check admits, the
    record is dropped, the request is answered by the fallback. *)
Example store_down_request :
  let run :=
    generate_dialogue 1 shipped_manager default_settings (sample_env_store_down 1000 1)
      sample_npc (sample_context "shop" 0.4) sample_personality [] true initial_world in
  fst run = Returned (mkResponse "I've got some great items here!" "neutral" 0.1) /\
  redis (snd run) = empty_redis.
Proof. vm_compute. repeat split. Qed.

(** * Further properties of the code *)

(** ** Budget ledger: recording *)

Ltac redis_step Hup :=
  unfold bind at 1; rewrite (redis_cmd_ok _ _ _ (Hup _));
  cbn [fst snd redis redis_ops trace cost_by_day daily_requests hourly_requests
       usage_cost usage_int dialogue_cache].

(** With the store up, [record_request] leaves exactly [recorded]. *)
Lemma record_request_ok env estimated_cost model_used tokens_used response_time_ms w :
  (forall n, redis_fails env n = false) ->
  exists n,
    record_request env estimated_cost model_used tokens_used response_time_ms w =
      (Returned tt,
       {| redis := recorded (redis w) (today env) (hour env) estimated_cost model_used
                     tokens_used response_time_ms;
          redis_ops := n; trace := trace w |}).
Proof.
  intros Hup.
  unfold record_request, try_catch, hincrbyfloat_cost, incr_daily, incr_hourly,
    hincrbyfloat_usage, hincrby_usage, expire, hget_cost, get_daily_requests, when.
  do 6 redis_step Hup.
  unfold recorded, usage_recorded.
  destruct (0 <? tokens_used)%Z; destruct (0 <? response_time_ms)%Z;
    repeat (first [ redis_step Hup | unfold bind at 1; unfold ret at 1 ]);
    rewrite lookup_insert_eq; eexists; reflexivity.
Qed.

Lemma requests_field_fresh (model_used : string) :
  ("requests_" +:+ model_used)%string <> "total_tokens"%string /\
  ("requests_" +:+ model_used)%string <> "total_response_time_ms"%string /\
  ("requests_" +:+ model_used)%string <> "total_requests"%string.
Proof. repeat split; intros H; cbn in H; discriminate H. Qed.

(** X1. With the store up, one [record_request] adds its cost to the
    day's cost, one to the day's and to the hour's request counter and to
    the per-model counter; the costs of other days and the dialogue cache
    are untouched. *)
Theorem record_request_accumulates
    (env : Env) (estimated_cost : Q) (model_used : string)
    (tokens_used response_time_ms : Z) (w : World) :
  (forall n, redis_fails env n = false) ->
  exists w',
    record_request env estimated_cost model_used tokens_used response_time_ms w =
      (Returned tt, w') /\
    cost_by_day (redis w') !! today env =
      Some (default 0 (cost_by_day (redis w) !! today env) + estimated_cost) /\
    daily_requests (redis w') !! today env =
      Some (default 0 (daily_requests (redis w) !! today env) + 1)%Z /\
    hourly_requests (redis w') !! (today env, hour env) =
      Some (default 0 (hourly_requests (redis w) !! (today env, hour env)) + 1)%Z /\
    usage_int (redis w') !! (today env, ("requests_" +:+ model_used)%string) =
      Some (default 0 (usage_int (redis w) !! (today env, ("requests_" +:+ model_used)%string))
            + 1)%Z /\
    (forall d, d <> today env ->
       cost_by_day (redis w') !! d = cost_by_day (redis w) !! d /\
       daily_requests (redis w') !! d = daily_requests (redis w) !! d) /\
    dialogue_cache (redis w') = dialogue_cache (redis w) /\
    trace w' = trace w.
Proof.
  intros Hup.
  destruct (record_request_ok env estimated_cost model_used tokens_used response_time_ms w Hup)
    as (n & Hrun).
  eexists. split; [exact Hrun |].
  cbn [redis trace recorded cost_by_day daily_requests hourly_requests usage_int dialogue_cache].
  rewrite !lookup_insert_eq.
  destruct (requests_field_fresh model_used) as (Hf1 & Hf2 & Hf3).
  repeat split.
  - unfold usage_recorded.
    destruct (0 <? tokens_used)%Z; destruct (0 <? response_time_ms)%Z;
      repeat (rewrite lookup_insert_ne by congruence);
      rewrite lookup_insert_eq; rewrite lookup_insert_ne by congruence; reflexivity.
  - apply lookup_insert_ne. congruence.
  - apply lookup_insert_ne. congruence.
Qed.

Lemma record_request_accumulates_witness :
  exists w',
    record_request (sample_env 864000 0) 0.02 "claude" 12 150 initial_world = (Returned tt, w') /\
    cost_by_day (redis w') !! today (sample_env 864000 0) =
      Some (default 0 (cost_by_day (redis initial_world) !! today (sample_env 864000 0)) + 0.02).
Proof.
  destruct (record_request_accumulates (sample_env 864000 0) 0.02 "claude" 12 150 initial_world)
    as (w' & Hrun & Hcost & _); [reflexivity |].
  exists w'. split; assumption.
Defined.

(** The day's cost and request counter after one recorded request. *)
Lemma record_request_day_totals env estimated_cost model_used tokens_used response_time_ms w :
  (forall n, redis_fails env n = false) ->
  exists w',
    record_request env estimated_cost model_used tokens_used response_time_ms w =
      (Returned tt, w') /\
    cost_by_day (redis w') !! today env =
      Some (default 0 (cost_by_day (redis w) !! today env) + estimated_cost) /\
    daily_requests (redis w') !! today env =
      Some (default 0 (daily_requests (redis w) !! today env) + 1)%Z.
Proof.
  intros Hup.
  destruct (record_request_ok env estimated_cost model_used tokens_used response_time_ms w Hup)
    as (n & Hrun).
  eexists. split; [exact Hrun |].
  cbn [redis recorded cost_by_day daily_requests]. rewrite !lookup_insert_eq.
  split; reflexivity.
Qed.

Lemma record_all_totals (d : Z) (calls : list RecordCall) :
  recorded_on d calls ->
  forall w,
  exists w',
    record_all calls w = (Returned tt, w') /\
    default 0 (cost_by_day (redis w') !! d) ==
      default 0 (cost_by_day (redis w) !! d) + Qsum (map rc_cost calls) /\
    default 0%Z (daily_requests (redis w') !! d) =
      (default 0 (daily_requests (redis w) !! d) + Z.of_nat (length calls))%Z /\
    (calls <> [] -> is_Some (cost_by_day (redis w') !! d)).
Proof.
  induction calls as [| c rest IH]; intros Hall w.
  - exists w. cbn [record_all map length]. unfold ret.
    split; [reflexivity |]. split; [unfold Qsum; cbn [fold_right]; ring |].
    split; [cbn; lia | congruence].
  - apply List.Forall_cons_iff in Hall as [[Hup Hday] Hrest].
    destruct (record_request_day_totals (rc_env c) (rc_cost c) (rc_model c) (rc_tokens c)
                (rc_ms c) w Hup) as (w1 & Hrun & Hcost & Hdaily).
    rewrite Hday in Hcost, Hdaily.
    destruct (IH Hrest w1) as (w' & Hrun' & Hc' & Hd' & Hsome).
    exists w'. cbn [record_all]. unfold bind at 1. rewrite Hrun.
    split; [exact Hrun' |].
    rewrite Hc', Hd', Hcost, Hdaily. cbn [map length].
    change (default 0 (Some ?x)) with x. change (default 0%Z (Some ?x)) with x.
    rewrite Qsum_cons. split; [ring |]. split; [lia |].
    intros _. destruct rest as [| c' rest'].
    + cbn in Hrun'. injection Hrun' as <-. rewrite Hcost. eexists; reflexivity.
    + apply Hsome. discriminate.
Qed.

Lemma Qltb_compat (a b c : Q) : a == b -> Qltb a c = Qltb b c.
Proof.
  intros H. destruct (Qltb b c) eqn:E.
  - apply Qltb_lt in E. apply Qltb_lt. rewrite H. exact E.
  - apply Qltb_ge in E. apply Qltb_ge. rewrite H. exact E.
Qed.

(** X2. Budget monotonicity, sequentially: after any list of
    [record_request] calls made on one day with the store up, the day's
    cost is its earlier value plus the sum of the recorded costs, and the
    day's request counter has grown by the number of calls. *)
Theorem recorded_costs_add_up (d : Z) (calls : list RecordCall) (w : World) :
  recorded_on d calls ->
  exists w',
    record_all calls w = (Returned tt, w') /\
    default 0 (cost_by_day (redis w') !! d) ==
      default 0 (cost_by_day (redis w) !! d) + Qsum (map rc_cost calls) /\
    default 0%Z (daily_requests (redis w') !! d) =
      (default 0 (daily_requests (redis w) !! d) + Z.of_nat (length calls))%Z.
Proof.
  intros Hall. destruct (record_all_totals d calls Hall w) as (w' & Hrun & Hc & Hd & _).
  exists w'. repeat split; assumption.
Qed.

Lemma recorded_costs_add_up_witness :
  exists w',
    record_all
      [ {| rc_env := sample_env 864000 0; rc_cost := 0.02; rc_model := "claude";
           rc_tokens := 12; rc_ms := 150 |};
        {| rc_env := sample_env 864100 0; rc_cost := 0.001; rc_model := "local";
           rc_tokens := 0; rc_ms := 0 |} ] initial_world = (Returned tt, w') /\
    default 0 (cost_by_day (redis w') !! 10%Z) ==
      default 0 (cost_by_day (redis initial_world) !! 10%Z) + Qsum [0.02; 0.001].
Proof.
  destruct (recorded_costs_add_up 10
              [ {| rc_env := sample_env 864000 0; rc_cost := 0.02; rc_model := "claude";
                   rc_tokens := 12; rc_ms := 150 |};
                {| rc_env := sample_env 864100 0; rc_cost := 0.001; rc_model := "local";
                   rc_tokens := 0; rc_ms := 0 |} ] initial_world)
    as (w' & Hrun & Hc & _).
  { repeat constructor. }
  exists w'. split; assumption.
Defined.

(** X3. Admission follows the recorded total. With a positive cap, after
    any list of requests recorded on day [d], a budget check made on that
    day with the store up answers true exactly when the day's earlier cost
    plus the recorded costs is below the cap. *)
Theorem admission_follows_recorded_total
    (settings : Settings) (env : Env) (d : Z) (calls : list RecordCall) (w : World) :
  recorded_on d calls ->
  (forall n, redis_fails env n = false) ->
  today env = d ->
  0 < max_cost_per_day_usd settings ->
  exists w' b w'',
    record_all calls w = (Returned tt, w') /\
    can_make_request settings env w' = (Returned b, w'') /\
    (b = true <->
     default 0 (cost_by_day (redis w) !! d) + Qsum (map rc_cost calls)
       < max_cost_per_day_usd settings).
Proof.
  intros Hall Hup Hday Hcap.
  destruct (record_all_totals d calls Hall w) as (w' & Hrun & Hc & _ & _).
  destruct (can_make_request_run settings env w') as (evs & Hcheck & _).
  exists w'. eexists _, _. split; [exact Hrun |]. split; [exact Hcheck |].
  unfold budget_verdict. rewrite Hup, Hday.
  rewrite <- Hc.
  destruct (cost_by_day (redis w') !! d) as [c |]; cbn [default].
  - apply Qltb_lt.
  - split; [intros _; exact Hcap | reflexivity].
Qed.

Lemma admission_follows_recorded_total_witness :
  exists w' b w'',
    record_all
      [ {| rc_env := sample_env 864000 0; rc_cost := 50; rc_model := "claude";
           rc_tokens := 12; rc_ms := 150 |} ] initial_world = (Returned tt, w') /\
    can_make_request default_settings (sample_env 864500 0) w' = (Returned b, w'') /\
    (b = true <->
     default 0 (cost_by_day (redis initial_world) !! 10%Z) + Qsum [50]
       < max_cost_per_day_usd default_settings).
Proof.
  apply (admission_follows_recorded_total default_settings (sample_env 864500 0) 10
           [ {| rc_env := sample_env 864000 0; rc_cost := 50; rc_model := "claude";
                rc_tokens := 12; rc_ms := 150 |} ] initial_world).
  - repeat constructor.
  - reflexivity.
  - reflexivity.
  - reflexivity.
Defined.

(** ** Budget ledger: daily and hourly counters *)

Lemma hour_range (env : Env) : (0 <= hour env < 24)%Z.
Proof. unfold hour. apply Z.mod_pos_bound. lia. Qed.

Lemma hours_complete (h : Z) : (0 <= h < 24)%Z -> In h (map Z.of_nat (seq 0 24)).
Proof.
  intros Hh. apply List.in_map_iff. exists (Z.to_nat h). split; [lia |].
  apply List.in_seq. lia.
Qed.

Lemma hours_nodup : List.NoDup (map Z.of_nat (seq 0 24)).
Proof.
  apply List.NoDup_map_NoDup_ForallPairs; [| apply List.seq_NoDup].
  intros a b _ _ H. lia.
Qed.

Lemma hourly_sum_insert (m : gmap (Z * Z) Z) (d h0 v : Z) (hs : list Z) :
  List.NoDup hs -> In h0 hs ->
  fold_right Z.add 0%Z (map (fun h => default 0%Z (<[(d, h0) := v]> m !! (d, h))) hs) =
  (fold_right Z.add 0%Z (map (fun h => default 0%Z (m !! (d, h))) hs)
   - default 0 (m !! (d, h0)) + v)%Z.
Proof.
  induction hs as [| h hs IH]; intros Hnd Hin; [destruct Hin |].
  apply List.NoDup_cons_iff in Hnd as [Hnotin Hnd].
  cbn [map fold_right].
  destruct (decide (h = h0)) as [-> | Hne].
  - rewrite lookup_insert_eq. change (default 0%Z (Some v)) with v.
    assert (Hrest : map (fun h => default 0%Z (<[(d, h0) := v]> m !! (d, h))) hs =
                    map (fun h => default 0%Z (m !! (d, h))) hs).
    { apply List.map_ext_in. intros h Hh. rewrite lookup_insert_ne; [reflexivity |].
      intros [= ->]. contradiction. }
    rewrite Hrest. lia.
  - destruct Hin as [-> | Hin]; [congruence |].
    rewrite lookup_insert_ne by congruence. rewrite (IH Hnd Hin). lia.
Qed.

Lemma hourly_sum_other_day (m : gmap (Z * Z) Z) (d d0 h0 v : Z) (hs : list Z) :
  d <> d0 ->
  map (fun h => default 0%Z (<[(d0, h0) := v]> m !! (d, h))) hs =
  map (fun h => default 0%Z (m !! (d, h))) hs.
Proof.
  intros Hne. apply List.map_ext. intros h. rewrite lookup_insert_ne; [reflexivity |].
  congruence.
Qed.

(** X4. With the store up, [record_request] keeps the daily request
    counter of every day equal to the sum of that day's 24 hourly
    counters. *)
Theorem record_request_keeps_counters_consistent
    (env : Env) (estimated_cost : Q) (model_used : string)
    (tokens_used response_time_ms : Z) (w : World) :
  (forall n, redis_fails env n = false) ->
  counts_consistent (redis w) ->
  counts_consistent
    (redis (snd (record_request env estimated_cost model_used tokens_used response_time_ms w))).
Proof.
  intros Hup Hinv.
  destruct (record_request_ok env estimated_cost model_used tokens_used response_time_ms w Hup)
    as (n & Hrun).
  rewrite Hrun. cbn [snd redis]. intros d. unfold hourly_total.
  cbn [recorded daily_requests hourly_requests].
  destruct (decide (d = today env)) as [-> | Hne].
  - rewrite lookup_insert_eq. change (default 0%Z (Some ?x)) with x.
    rewrite (hourly_sum_insert _ _ _ _ _ hours_nodup (hours_complete _ (hour_range env))).
    rewrite (Hinv (today env)). unfold hourly_total. lia.
  - rewrite lookup_insert_ne by congruence.
    rewrite hourly_sum_other_day by exact Hne. apply Hinv.
Qed.

Lemma record_request_keeps_counters_consistent_witness :
  counts_consistent
    (redis (snd (record_request (sample_env 864000 0) 0.02 "claude" 12 150 initial_world))).
Proof.
  apply (record_request_keeps_counters_consistent (sample_env 864000 0)).
  - reflexivity.
  - intros d. reflexivity.
Defined.

(** The hours read before the first failure. *)
Lemma hourly_loop_prefix env date :
  forall (hours : list Z) (k : nat) (w : World),
    (k <= length hours)%nat ->
    (forall i, (i < k)%nat -> redis_fails env (redis_ops w + i) = false) ->
    ((k < length hours)%nat -> redis_fails env (redis_ops w + k) = true) ->
    fst (hourly_loop env date hours w) =
      map (fun h => (h, default 0%Z (hourly_requests (redis w) !! (date, h)))) (firstn k hours) /\
    redis (snd (hourly_loop env date hours w)) = redis w.
Proof.
  induction hours as [| h rest IH]; intros k w Hk Hok Hfail.
  - cbn in Hk. assert (k = 0)%nat as -> by lia. split; reflexivity.
  - cbn [hourly_loop]. destruct k as [| k].
    + rewrite redis_cmd_fails.
      2:{ rewrite <- (Nat.add_0_r (redis_ops w)). apply Hfail. cbn. lia. }
      split; reflexivity.
    + rewrite redis_cmd_ok.
      2:{ rewrite <- (Nat.add_0_r (redis_ops w)). apply Hok. lia. }
      cbn [fst snd].
      set (w1 := {| redis := redis w; redis_ops := S (redis_ops w); trace := trace w |}).
      destruct (IH k w1) as (Hl & Hr).
      * cbn in Hk. lia.
      * intros i Hi. cbn [w1 redis_ops].
        replace (S (redis_ops w) + i)%nat with (redis_ops w + S i)%nat by lia.
        apply Hok. lia.
      * intros Hlt. cbn [w1 redis_ops].
        replace (S (redis_ops w) + k)%nat with (redis_ops w + S k)%nat by lia.
        apply Hfail. cbn. lia.
      * destruct (hourly_loop env date rest w1) as [later w2].
        cbn [fst snd] in *. rewrite Hl, Hr. split; reflexivity.
Qed.

(** X5. [get_hourly_breakdown] never raises. If the first [k] reads
    succeed and the next one (if any is left) raises, it returns the
    counts of the hours [0 .. k-1], a missing counter read as 0, and
    nothing for the later hours: all 24 hours when the store is up, an
    empty breakdown when it is down. The store is not modified. *)
Theorem hourly_breakdown_until_failure
    (env : Env) (date : option Z) (k : nat) (w : World) :
  (k <= 24)%nat ->
  (forall i, (i < k)%nat -> redis_fails env (redis_ops w + i) = false) ->
  ((k < 24)%nat -> redis_fails env (redis_ops w + k) = true) ->
  exists w',
    get_hourly_breakdown env date w =
      (Returned
         (map (fun h => (h, default 0%Z
                              (hourly_requests (redis w) !! (default (today env) date, h))))
              (map Z.of_nat (seq 0 k))),
       w') /\
    redis w' = redis w.
Proof.
  intros Hk Hok Hfail.
  destruct (hourly_loop_prefix env (default (today env) date) (map Z.of_nat (seq 0 24)) k w)
    as (Hl & Hr).
  - rewrite length_map, length_seq. exact Hk.
  - exact Hok.
  - rewrite length_map, length_seq. exact Hfail.
  - unfold get_hourly_breakdown.
    destruct (hourly_loop env (default (today env) date) (map Z.of_nat (seq 0 24)) w)
      as [data w'].
    cbn [fst snd] in *. exists w'. split; [| exact Hr].
    rewrite Hl. rewrite firstn_map, take_seq.
    replace (Nat.min k 24) with k by lia. reflexivity.
Qed.

Lemma hourly_breakdown_until_failure_witness :
  exists w',
    get_hourly_breakdown (sample_env_store_down 864000 0) None initial_world =
      (Returned [], w') /\
    redis w' = redis initial_world.
Proof.
  apply (hourly_breakdown_until_failure (sample_env_store_down 864000 0) None 0 initial_world).
  - lia.
  - intros i Hi. lia.
  - intros _. reflexivity.
Defined.

(** ** Budget ledger: statistics, projection and alerts *)

Lemma Qmaxq_lower (x y : Q) : x <= Qmaxq x y.
Proof.
  unfold Qmaxq. destruct (Qleb x y) eqn:E; [apply Qleb_le in E; exact E | lra].
Qed.

Lemma Qminq_upper (x y : Q) : Qminq x y <= x.
Proof.
  unfold Qminq. destruct (Qleb x y) eqn:E; [lra | apply Qleb_gt in E; lra].
Qed.

Lemma get_daily_stats_fields settings env date w :
  (forall n, redis_fails env n = false) ->
  ~ max_cost_per_day_usd settings == 0 ->
  exists st w',
    get_daily_stats settings env date w = (Returned st, w') /\
    redis w' = redis w /\ trace w' = trace w /\
    ds_error st = false /\
    ds_total_cost st = default 0 (cost_by_day (redis w) !! date) /\
    ds_total_requests st = default 0%Z (daily_requests (redis w) !! date) /\
    ds_budget_limit st = max_cost_per_day_usd settings /\
    ds_budget_remaining st =
      Qmaxq 0 (fsub (max_cost_per_day_usd settings) (default 0 (cost_by_day (redis w) !! date))) /\
    ds_budget_utilization st =
      Qminq 100
        (fmul (fdiv (default 0 (cost_by_day (redis w) !! date)) (max_cost_per_day_usd settings))
           100).
Proof.
  intros Hup Hmax.
  unfold get_daily_stats, try_catch, hget_cost, get_daily_requests.
  do 3 redis_step Hup.
  unfold py_div, py_fdiv. rewrite (Qeq_bool_false _ Hmax).
  destruct (0 <? default 0%Z (daily_requests (redis w) !! date))%Z eqn:E.
  - apply Z.ltb_lt in E. rewrite (Qeq_bool_inject_pos _ E).
    unfold bind, ret. eexists _, _. split; [reflexivity |]. cbn. repeat split.
  - unfold bind, ret. eexists _, _. split; [reflexivity |]. cbn. repeat split.
Qed.

(** X6. With the store up and a non-zero cap, the daily statistics report
    the stored cost and request count of the day, a remaining budget that
    is never negative and a utilization that never exceeds 100 percent,
    however far the day is overspent; reading them changes nothing. *)
Theorem daily_stats_budget_bounds (settings : Settings) (env : Env) (date : Z) (w : World) :
  (forall n, redis_fails env n = false) ->
  ~ max_cost_per_day_usd settings == 0 ->
  exists st w',
    get_daily_stats settings env date w = (Returned st, w') /\
    redis w' = redis w /\
    ds_total_cost st = default 0 (cost_by_day (redis w) !! date) /\
    ds_total_requests st = default 0%Z (daily_requests (redis w) !! date) /\
    0 <= ds_budget_remaining st /\
    ds_budget_utilization st <= 100.
Proof.
  intros Hup Hmax.
  destruct (get_daily_stats_fields settings env date w Hup Hmax)
    as (st & w' & Hrun & Hr & _ & _ & Hc & Hn & _ & Hrem & Hut).
  exists st, w'. repeat split; try assumption.
  - rewrite Hrem. apply Qmaxq_lower.
  - rewrite Hut. apply Qminq_upper.
Qed.

Lemma daily_stats_budget_bounds_witness :
  exists st w',
    get_daily_stats default_settings (sample_env 1000 0) 0 (world_with_cost 0 75) =
      (Returned st, w') /\
    redis w' = redis (world_with_cost 0 75) /\
    ds_total_cost st = default 0 (cost_by_day (redis (world_with_cost 0 75)) !! 0%Z) /\
    ds_total_requests st = default 0%Z (daily_requests (redis (world_with_cost 0 75)) !! 0%Z) /\
    0 <= ds_budget_remaining st /\
    ds_budget_utilization st <= 100.
Proof.
  apply (daily_stats_budget_bounds default_settings (sample_env 1000 0) 0 (world_with_cost 0 75)).
  - reflexivity.
  - cbn. discriminate.
Defined.

Lemma get_daily_stats_blind settings env date w :
  max_cost_per_day_usd settings == 0 \/ (forall n, redis_fails env n = true) ->
  exists w',
    get_daily_stats settings env date w = (Returned error_stats, w') /\
    redis w' = redis w /\ trace w' = trace w.
Proof.
  intros [Hzero | Hdown].
  - apply Qeq_bool_iff in Hzero.
    unfold get_daily_stats, try_catch, hget_cost, get_daily_requests.
    unfold bind at 1.
    destruct (redis_fails env (redis_ops w)) eqn:E1;
      [rewrite (redis_cmd_fails _ _ _ E1); eexists; repeat split |].
    rewrite (redis_cmd_ok _ _ _ E1). cbn [fst snd].
    unfold bind at 1.
    destruct (redis_fails env (S (redis_ops w))) eqn:E2;
      [rewrite redis_cmd_fails by exact E2; eexists; repeat split |].
    rewrite redis_cmd_ok by exact E2. cbn [fst snd redis redis_ops trace].
    unfold bind at 1.
    destruct (redis_fails env (S (S (redis_ops w)))) eqn:E3;
      [rewrite redis_cmd_fails by exact E3; eexists; repeat split |].
    rewrite redis_cmd_ok by exact E3. cbn [fst snd redis redis_ops trace].
    unfold py_div, py_fdiv. rewrite Hzero.
    destruct (0 <? default 0%Z (daily_requests (redis w) !! date))%Z;
      [destruct (Qeq_bool (inject_Z _) 0) |]; unfold bind, raise, ret; eexists; repeat split.
  - unfold get_daily_stats, try_catch, hget_cost.
    unfold bind at 1. rewrite (redis_cmd_fails _ _ _ (Hdown _)).
    eexists; repeat split.
Qed.

Lemma daily_costs_blind settings env :
  max_cost_per_day_usd settings == 0 \/ (forall n, redis_fails env n = true) ->
  forall days w,
  exists w',
    daily_costs settings env days w = (Returned (map (fun _ => 0) days), w') /\
    redis w' = redis w /\ trace w' = trace w.
Proof.
  intros H days. induction days as [| i rest IH]; intros w.
  - exists w. repeat split.
  - destruct (get_daily_stats_blind settings env (today env - i)%Z w H) as (w1 & Hst & Hr1 & Ht1).
    destruct (IH w1) as (w' & Hrest & Hr & Ht).
    cbn [daily_costs]. unfold bind at 1. rewrite Hst. unfold bind at 1. rewrite Hrest.
    exists w'. repeat split; congruence.
Qed.

(** X7. A projection that cannot see the ledger reports no spending: with
    a cap of zero (the daily statistics divide by it) or with a store
    whose commands all raise, [get_cost_projection] answers with a daily
    average of 0, a monthly projection of 0 and confidence "low", not
    "error", whatever costs are stored. *)
Theorem cost_projection_blind (settings : Settings) (env : Env) (w : World) :
  max_cost_per_day_usd settings == 0 \/ (forall n, redis_fails env n = true) ->
  exists w',
    get_cost_projection settings env w = (Returned empty_projection, w') /\
    redis w' = redis w.
Proof.
  intros H.
  destruct (daily_costs_blind settings env H (map Z.of_nat (seq 0 7)) w) as (w' & Hc & Hr & _).
  exists w'. split; [| exact Hr].
  unfold get_cost_projection, try_catch, bind. rewrite Hc. reflexivity.
Qed.

Lemma cost_projection_blind_witness :
  exists w',
    get_cost_projection default_settings (sample_env_store_down 864000 0)
      (world_with_cost 10 40) = (Returned empty_projection, w') /\
    redis w' = redis (world_with_cost 10 40).
Proof.
  apply (cost_projection_blind default_settings (sample_env_store_down 864000 0)
           (world_with_cost 10 40)).
  right. reflexivity.
Defined.

(** X8. Alert round trip. With the store up and a non-zero cap, after
    [set_budget_alert p] a [check_budget_alerts] on day [d] returns an
    alert exactly when the utilization the code computes for the day, the
    float [min(100, (cost / cap) * 100)] with the quotient and the product
    each rounded to binary64 ([fdiv], [fmul]), has reached the float [p];
    the alert carries the day's cost, that utilization and [p]. As the
    utilization is capped at 100, a threshold above 100 never alerts. *)
Theorem budget_alert_round_trip
    (settings : Settings) (env1 env2 : Env) (p : Q) (aw : AlertWorld) :
  (forall n, redis_fails env1 n = false) ->
  (forall n, redis_fails env2 n = false) ->
  ~ max_cost_per_day_usd settings == 0 ->
  let cost := default 0 (cost_by_day (redis (aw_world aw)) !! today env2) in
  let utilization := Qminq 100 (fmul (fdiv cost (max_cost_per_day_usd settings)) 100) in
  exists o aw2,
    check_budget_alerts settings env2 (snd (set_budget_alert env1 p aw)) = (Returned o, aw2) /\
    (o = None <-> utilization < fl p) /\
    (forall a, o = Some a ->
       alert_current_cost a = cost /\ alert_utilization_percent a = utilization /\
       alert_threshold_percent a = fl p) /\
    (100 < fl p -> o = None).
Proof.
  intros Hup1 Hup2 Hmax cost utilization.
  unfold set_budget_alert. rewrite Hup1. cbn [snd].
  unfold check_budget_alerts. cbn [aw_world budget_alert_threshold].
  rewrite Hup2. cbv zeta.
  destruct (get_daily_stats_fields settings env2 (today env2) (after_cmd (after_cmd (aw_world aw)))
              Hup2 Hmax) as (st & w' & Hrun & _ & _ & Herr & Hc & _ & _ & _ & Hut).
  cbn [after_cmd redis] in Hc, Hut. fold cost in Hc, Hut. fold utilization in Hut.
  rewrite Hrun, Herr, Hut, Hc.
  assert (Hle : utilization <= 100) by apply Qminq_upper.
  set (t := fl p) in *. clearbody t.
  destruct (Qgeb utilization t) eqn:E.
  - apply Qgeb_ge in E. eexists _, _. split; [reflexivity |].
    split; [split; [discriminate | intros Hlt; lra] |].
    split; [intros a Ha; injection Ha as <-; repeat split; reflexivity | intros Hp; lra].
  - apply Qleb_gt in E. eexists _, _. split; [reflexivity |].
    split; [split; [intros _; exact E | reflexivity] |].
    split; [discriminate | reflexivity].
Qed.

Lemma budget_alert_round_trip_witness :
  exists o aw2,
    check_budget_alerts default_settings (sample_env 1000 0)
      (snd (set_budget_alert (sample_env 900 0) 80
              {| aw_world := world_with_cost 0 45; budget_alert_threshold := None |})) =
      (Returned o, aw2) /\
    (o = None <->
     Qminq 100 (fmul (fdiv (default 0 (cost_by_day (redis (world_with_cost 0 45)) !! 0%Z))
                        (max_cost_per_day_usd default_settings)) 100) < fl 80).
Proof.
  destruct (budget_alert_round_trip default_settings (sample_env 900 0) (sample_env 1000 0) 80
              {| aw_world := world_with_cost 0 45; budget_alert_threshold := None |})
    as (o & aw2 & Hrun & Hnone & _).
  - reflexivity.
  - reflexivity.
  - cbn. discriminate.
  - exists o, aw2. split; [exact Hrun | exact Hnone].
Defined.

(** A cost of 14.5 against the cap of 50: the quotient rounds below 0.29
    and the utilization is the float just under 29, so a threshold of 29
    does not alert, while one of 28.9 does; a cost of 45 reaches the
    threshold of 90 exactly; and with a cost of 14.45 the utilization is
    the float 28.9, which lies below 289/10 and reaches the threshold
    28.9 all the same. *)
Example budget_alert_just_under_threshold :
  let check cost p :=
    fst (check_budget_alerts default_settings (sample_env 1000 0)
           (snd (set_budget_alert (sample_env 900 0) p
                   {| aw_world := world_with_cost 0 cost; budget_alert_threshold := None |}))) in
  fmul (fdiv 14.5 50) 100 == 8162774324609023 # 281474976710656 /\
  check 14.5 29 = Returned None /\
  match check 14.5 28.9 with
  | Returned (Some a) => alert_utilization_percent a < 29
  | _ => False
  end /\
  match check 45 90 with
  | Returned (Some a) => alert_utilization_percent a == 90
  | _ => False
  end /\
  match check 14.45 28.9 with
  | Returned (Some a) => alert_utilization_percent a == fl 28.9 /\ fl 28.9 < 28.9
  | _ => False
  end.
Proof. vm_compute. repeat split. Qed.

(** ** Response validator: scores and verdicts *)

Lemma sound_initial : sound_check ([], 1).
Proof. split; [reflexivity | left; split; reflexivity]. Qed.

Lemma sound_penalty (c : CheckResult) (issue : string) (f : Q) :
  0 < f -> f < 1 -> sound_check c -> sound_check (fst c ++ [issue], snd c * f).
Proof.
  intros Hf0 Hf1 [Hpos Hc]. unfold sound_check. cbn [fst snd].
  assert (Hle : snd c <= 1) by (destruct Hc as [[_ H] | [_ H]]; lra).
  split; [apply Qmult_lt_0_compat; assumption |].
  right. split; [intros H; apply app_eq_nil in H as [_ H]; discriminate |].
  apply Qlt_le_trans with (snd c * 1); [apply Qmult_lt_l; assumption |].
  rewrite Qmult_1_r. exact Hle.
Qed.

Lemma sound_le_1 (c : CheckResult) : sound_check c -> snd c <= 1.
Proof. intros [_ [[_ H] | [_ H]]]; lra. Qed.

Lemma sound_fold {A} (step : CheckResult -> A -> CheckResult) (l : list A) :
  (forall acc x, sound_check acc -> sound_check (step acc x)) ->
  forall init, sound_check init -> sound_check (fold_left step l init).
Proof.
  intros Hstep. induction l as [| x l IH]; intros init Hinit; [exact Hinit |].
  cbn [fold_left]. apply IH, Hstep, Hinit.
Qed.

Lemma canon_check_sound search text : sound_check (_check_canon_violations search text).
Proof.
  unfold _check_canon_violations. apply sound_fold; [| apply sound_initial].
  intros acc f Hacc.
  destruct (String.eqb (category f) "constraints"); [exact Hacc |].
  destruct (List.filter _ (keywords f)); [exact Hacc |].
  destruct (any_match search contradiction_patterns (lower text)); [| exact Hacc].
  apply sound_penalty; [reflexivity | reflexivity | exact Hacc].
Qed.

Lemma forbidden_check_sound search text : sound_check (_check_forbidden_content search text).
Proof.
  unfold _check_forbidden_content. apply sound_fold; [| apply sound_initial].
  intros acc entry Hacc.
  destruct (any_match search (snd entry) (lower text)); [| exact Hacc].
  apply sound_penalty; [reflexivity | reflexivity | exact Hacc].
Qed.

Lemma sound_single (issue : string) (f : Q) :
  0 < f -> f < 1 -> sound_check ([issue], 1 * f).
Proof. intros H0 H1. apply (sound_penalty ([], 1) issue f H0 H1 sound_initial). Qed.

Lemma tone_check_sound search dialogue context traits :
  sound_check (_check_tone_consistency search dialogue context traits).
Proof.
  unfold _check_tone_consistency.
  set (acc0 := if Qltb (relationship_level context) 0.2 then _ else _).
  assert (H0 : sound_check acc0).
  { unfold acc0.
    destruct (Qltb (relationship_level context) 0.2).
    - destruct (search _ _); [apply sound_single; reflexivity | apply sound_initial].
    - destruct (Qgtb (relationship_level context) 0.8); [| apply sound_initial].
      destruct (search _ _); [apply sound_single; reflexivity | apply sound_initial]. }
  clearbody acc0.
  destruct traits as [traits |]; [| exact H0].
  cbv zeta.
  set (acc1 := if Qltb (verbosity traits) 0.3 && _ then _ else _).
  assert (H1 : sound_check acc1).
  { unfold acc1.
    destruct (Qltb (verbosity traits) 0.3 && _);
      [apply sound_penalty; [reflexivity | reflexivity | exact H0] |].
    destruct (Qgtb (verbosity traits) 0.7 && _);
      [apply sound_penalty; [reflexivity | reflexivity | exact H0] | exact H0]. }
  clearbody acc1.
  destruct (Qltb (friendliness traits) 0.3 && _);
    [apply sound_penalty; [reflexivity | reflexivity | exact H1] |].
  destruct (Qgtb (friendliness traits) 0.7 && _);
    [apply sound_penalty; [reflexivity | reflexivity | exact H1] | exact H1].
Qed.

Lemma meta_check_sound search text : sound_check (_check_meta_references search text).
Proof.
  unfold _check_meta_references.
  destruct (any_match search meta_patterns (lower text));
    [apply sound_single; reflexivity | apply sound_initial].
Qed.

Lemma mobile_check_sound text : sound_check (_check_mobile_constraints text).
Proof.
  unfold _check_mobile_constraints. cbv zeta.
  set (acc0 := if (100 <? word_count text)%nat then _ else _).
  assert (H0 : sound_check acc0).
  { unfold acc0. destruct (100 <? word_count text)%nat;
      [apply sound_single; reflexivity | apply sound_initial]. }
  clearbody acc0.
  set (acc1 := if existsb _ (split_on "." text) then _ else _).
  assert (H1 : sound_check acc1).
  { unfold acc1. destruct (existsb _ (split_on "." text));
      [apply sound_penalty; [reflexivity | reflexivity | exact H0] | exact H0]. }
  clearbody acc1.
  destruct (existsb _ problematic_chars);
    [apply sound_penalty; [reflexivity | reflexivity | exact H1] | exact H1].
Qed.

Lemma sound_product (a b : CheckResult) :
  sound_check a -> sound_check b -> sound_check (fst a ++ fst b, snd a * snd b).
Proof.
  intros [Ha0 Ha] [Hb0 Hb]. unfold sound_check. cbn [fst snd].
  split; [apply Qmult_lt_0_compat; assumption |].
  destruct Ha as [[Hai Has] | [Hai Has]]; destruct Hb as [[Hbi Hbs] | [Hbi Hbs]].
  - left. rewrite Hai, Hbi, Has, Hbs. split; reflexivity.
  - right. split; [rewrite Hai; exact Hbi | rewrite Has; lra].
  - right. split; [intros H; apply app_eq_nil in H as [H _]; contradiction |].
    rewrite Hbs. lra.
  - right. split; [intros H; apply app_eq_nil in H as [H _]; contradiction | nra].
Qed.

Lemma validate_dialogue_sound search dialogue context traits :
  sound_check (issues (validate_dialogue search dialogue context traits),
               score (validate_dialogue search dialogue context traits)).
Proof.
  pose proof (canon_check_sound search (text dialogue)) as H1.
  pose proof (forbidden_check_sound search (text dialogue)) as H2.
  pose proof (tone_check_sound search dialogue context traits) as H3.
  pose proof (meta_check_sound search (text dialogue)) as H4.
  pose proof (mobile_check_sound (text dialogue)) as H5.
  unfold validate_dialogue.
  destruct (_check_canon_violations search (text dialogue)) as [i1 s1].
  destruct (_check_forbidden_content search (text dialogue)) as [i2 s2].
  destruct (_check_tone_consistency search dialogue context traits) as [i3 s3].
  destruct (_check_meta_references search (text dialogue)) as [i4 s4].
  destruct (_check_mobile_constraints (text dialogue)) as [i5 s5].
  cbn [issues score].
  pose proof (sound_product _ _ (sound_product _ _ (sound_product _ _
                (sound_product _ _ (sound_product _ _ sound_initial H1) H2) H3) H4) H5) as H.
  cbn [fst snd] in H. exact H.
Qed.

(** X9. For every dialogue the validator's score lies in (0, 1], and it
    is 1 exactly when no issue is reported: every reported issue costs
    score, and nothing else does. *)
Theorem score_reflects_issues
    (search : string -> string -> bool)
    (dialogue : DialogueResponse) (context : NPCInteractionContext)
    (traits : option PersonalityTraits) :
  let v := validate_dialogue search dialogue context traits in
  0 < score v /\ score v <= 1 /\ (score v == 1 <-> issues v = []).
Proof.
  cbv zeta.
  destruct (validate_dialogue_sound search dialogue context traits) as [Hpos Hc].
  cbn [fst snd] in *. split; [exact Hpos |].
  destruct Hc as [[Hi Hs] | [Hi Hs]].
  - split; [lra |]. split; [intros _; exact Hi | intros _; exact Hs].
  - split; [lra |]. split; [intros H; lra | intros H; contradiction].
Qed.

(** ** Response validator: rejections *)

Lemma validate_dialogue_parts search dialogue context traits :
  let v := validate_dialogue search dialogue context traits in
  let c1 := _check_canon_violations search (text dialogue) in
  let c2 := _check_forbidden_content search (text dialogue) in
  let c3 := _check_tone_consistency search dialogue context traits in
  let c4 := _check_meta_references search (text dialogue) in
  let c5 := _check_mobile_constraints (text dialogue) in
  score v = 1 * snd c1 * snd c2 * snd c3 * snd c4 * snd c5 /\
  issues v = fst c1 ++ fst c2 ++ fst c3 ++ fst c4 ++ fst c5 /\
  severity v =
    (if Qltb (score v) 0.5 then CRITICAL
     else if Qltb (score v) 0.7 then ERROR
     else if Qltb (score v) 0.9 then WARNING else INFO) /\
  is_valid v = Qgeb (score v) 0.7 && negb (severity_eqb (severity v) CRITICAL).
Proof.
  cbv zeta. unfold validate_dialogue.
  destruct (_check_canon_violations search (text dialogue)) as [i1 s1].
  destruct (_check_forbidden_content search (text dialogue)) as [i2 s2].
  destruct (_check_tone_consistency search dialogue context traits) as [i3 s3].
  destruct (_check_meta_references search (text dialogue)) as [i4 s4].
  destruct (_check_mobile_constraints (text dialogue)) as [i5 s5].
  cbn [issues score severity is_valid fst snd]. repeat split.
  cbn [app]. rewrite <- !app_assoc. reflexivity.
Qed.

Lemma sound_pos (c : CheckResult) : sound_check c -> 0 < snd c.
Proof. intros [H _]. exact H. Qed.

Lemma Qmult_le_1 (a b : Q) : 0 < a -> a <= 1 -> 0 < b -> b <= 1 -> 0 < a * b /\ a * b <= 1.
Proof.
  intros Ha0 Ha1 Hb0 Hb1. split; [apply Qmult_lt_0_compat; assumption |].
  apply Qle_trans with (a * 1); [| rewrite Qmult_1_r; exact Ha1].
  apply Qmult_le_l; assumption.
Qed.

Lemma Qmult_le_factor (a b : Q) : 0 < a -> a <= 1 -> 0 <= b -> a * b <= b.
Proof.
  intros Ha0 Ha1 Hb.
  apply Qle_trans with (1 * b); [| rewrite Qmult_1_l; apply Qle_refl].
  apply Qmult_le_compat_r; assumption.
Qed.

Lemma product_below_factors (a b c d e : Q) :
  0 < a -> a <= 1 -> 0 < b -> b <= 1 -> 0 < c -> c <= 1 ->
  0 < d -> d <= 1 -> 0 < e -> e <= 1 ->
  1 * a * b * c * d * e <= b /\ 1 * a * b * c * d * e <= d.
Proof.
  intros P1 L1 P2 L2 P3 L3 P4 L4 P5 L5.
  destruct (Qmult_le_1 a c P1 L1 P3 L3) as [Pac Lac].
  destruct (Qmult_le_1 (a * c) e Pac Lac P5 L5) as [Pace Lace].
  destruct (Qmult_le_1 (a * c * e) d Pace Lace P4 L4) as [Paced Laced].
  destruct (Qmult_le_1 (a * c * e) b Pace Lace P2 L2) as [Paceb Laceb].
  split.
  - assert (E : 1 * a * b * c * d * e == (a * c * e * d) * b) by ring. rewrite E.
    apply Qmult_le_factor; [assumption | assumption | apply Qlt_le_weak; assumption].
  - assert (E : 1 * a * b * c * d * e == (a * c * e * b) * d) by ring. rewrite E.
    apply Qmult_le_factor; [assumption | assumption | apply Qlt_le_weak; assumption].
Qed.

(** The score is at most the factor of each single check. *)
Lemma score_below_factors search dialogue context traits :
  let v := validate_dialogue search dialogue context traits in
  score v <= snd (_check_forbidden_content search (text dialogue)) /\
  score v <= snd (_check_meta_references search (text dialogue)).
Proof.
  cbv zeta.
  destruct (validate_dialogue_parts search dialogue context traits) as (Hs & _).
  cbv zeta in Hs. rewrite Hs.
  pose proof (canon_check_sound search (text dialogue)) as H1.
  pose proof (forbidden_check_sound search (text dialogue)) as H2.
  pose proof (tone_check_sound search dialogue context traits) as H3.
  pose proof (meta_check_sound search (text dialogue)) as H4.
  pose proof (mobile_check_sound (text dialogue)) as H5.
  apply product_below_factors;
    first [apply sound_pos; assumption | apply sound_le_1; assumption].
Qed.

Lemma verdict_below_half search dialogue context traits :
  let v := validate_dialogue search dialogue context traits in
  score v < 0.5 -> severity v = CRITICAL /\ is_valid v = false.
Proof.
  cbv zeta. intros Hlt.
  destruct (validate_dialogue_parts search dialogue context traits) as (_ & _ & Hsev & Hval).
  cbv zeta in Hsev, Hval.
  apply Qltb_lt in Hlt. rewrite Hlt in Hsev. rewrite Hval, Hsev.
  split; [reflexivity |]. cbn. apply andb_false_r.
Qed.

(** X10. A response in which one meta-reference pattern matches is
    rejected whatever else it contains: its score is at most 0.3, its
    severity CRITICAL, it is not valid, and the pipeline replaces it by the
    scripted response. *)
Theorem meta_reference_is_critical
    (search : string -> string -> bool)
    (dialogue : DialogueResponse) (context : NPCInteractionContext)
    (traits : option PersonalityTraits) :
  any_match search meta_patterns (lower (text dialogue)) = true ->
  let v := validate_dialogue search dialogue context traits in
  score v <= 0.3 /\ severity v = CRITICAL /\ is_valid v = false /\
  replaced_by_fallback v = true /\
  In "Contains meta-gaming or fourth wall breaking references"%string (issues v).
Proof.
  intros Hmeta. cbv zeta.
  destruct (score_below_factors search dialogue context traits) as [_ Hle]. cbv zeta in Hle.
  destruct (validate_dialogue_parts search dialogue context traits) as (_ & Hiss & _).
  cbv zeta in Hiss.
  unfold _check_meta_references in Hle, Hiss. rewrite Hmeta in Hle, Hiss. cbn [fst snd] in Hle, Hiss.
  assert (H03 : score (validate_dialogue search dialogue context traits) <= 0.3).
  { eapply Qle_trans; [exact Hle |]. compute. discriminate. }
  destruct (verdict_below_half search dialogue context traits) as [Hsev Hval].
  { eapply Qle_lt_trans; [exact H03 | reflexivity]. }
  cbv zeta in Hsev, Hval.
  split; [exact H03 |]. split; [exact Hsev |]. split; [exact Hval |].
  split; [unfold replaced_by_fallback; rewrite Hsev, Hval; reflexivity |].
  rewrite Hiss. rewrite !in_app_iff. do 3 right. left. left. reflexivity.
Qed.

Lemma meta_reference_is_critical_witness :
  let v := validate_dialogue developer_search
             (mkResponse "Ask the developer about it." "neutral" 0)
             (sample_context "greeting" 0.5) (Some sample_personality) in
  score v <= 0.3 /\ severity v = CRITICAL /\ is_valid v = false /\
  replaced_by_fallback v = true /\
  In "Contains meta-gaming or fourth wall breaking references"%string (issues v).
Proof.
  apply (meta_reference_is_critical developer_search
           (mkResponse "Ask the developer about it." "neutral" 0)
           (sample_context "greeting" 0.5) (Some sample_personality)).
  vm_compute. reflexivity.
Defined.

Lemma Qpow_half_pos (k : nat) : 0 < Qpow 0.5 k.
Proof.
  induction k as [| k IH]; [reflexivity |].
  cbn [Qpow]. apply Qmult_lt_0_compat; [exact IH | reflexivity].
Qed.

Lemma Qpow_half_le (k : nat) : (1 <= k)%nat -> Qpow 0.5 k <= 0.5.
Proof.
  induction k as [| k IH]; [lia |]. intros _. cbn [Qpow].
  destruct k as [| k].
  - cbn [Qpow]. compute. discriminate.
  - assert (H : Qpow 0.5 (S k) <= 0.5) by (apply IH; lia).
    pose proof (Qpow_half_pos (S k)) as Hp.
    apply Qle_trans with (Qpow 0.5 (S k) * 1).
    + apply Qmult_le_l; [exact Hp | compute; discriminate].
    + rewrite Qmult_1_r. exact H.
Qed.

Lemma Qpow_half_le_quarter (k : nat) : (2 <= k)%nat -> Qpow 0.5 k <= 0.25.
Proof.
  intros Hk. destruct k as [| k]; [lia |]. cbn [Qpow].
  assert (H : Qpow 0.5 k <= 0.5) by (apply Qpow_half_le; lia).
  apply Qle_trans with (0.5 * 0.5); [| compute; discriminate].
  apply Qmult_le_compat_r; [exact H | compute; discriminate].
Qed.

(** The loop of [_check_forbidden_content]: one issue and one halving per
    matching family, in the order of the table. *)
Lemma forbidden_fold search (text_lower : string) (l : list (string * list string)) :
  forall acc : CheckResult,
    let r :=
      fold_left
        (fun (acc : CheckResult) (entry : string * list string) =>
           if any_match search (snd entry) text_lower
           then (fst acc ++ [forbidden_issue entry], snd acc * 0.5)
           else acc) l acc in
    let hit := List.filter (fun entry => any_match search (snd entry) text_lower) l in
    fst r = fst acc ++ map forbidden_issue hit /\
    snd r == snd acc * Qpow 0.5 (length hit).
Proof.
  induction l as [| entry l IH]; intros acc; cbv zeta.
  - cbn [fold_left List.filter map length Qpow]. rewrite app_nil_r. split; [reflexivity | ring].
  - cbn [fold_left List.filter].
    destruct (any_match search (snd entry) text_lower).
    + destruct (IH (fst acc ++ [forbidden_issue entry], snd acc * 0.5)) as [Hf Hs].
      cbv zeta in Hf, Hs. cbn [fst snd] in Hf, Hs.
      split.
      * rewrite Hf. cbn [map]. rewrite <- app_assoc. reflexivity.
      * rewrite Hs. cbn [length Qpow]. ring.
    + apply IH.
Qed.

Lemma forbidden_check_families search text :
  fst (_check_forbidden_content search text) =
    map forbidden_issue (matching_families search text) /\
  snd (_check_forbidden_content search text) ==
    Qpow 0.5 (length (matching_families search text)).
Proof.
  destruct (forbidden_fold search (lower text) forbidden_patterns ([], 1)) as [Hf Hs].
  cbv zeta in Hf, Hs. cbn [fst snd] in Hf, Hs.
  unfold _check_forbidden_content, matching_families. split.
  - exact Hf.
  - rewrite Hs. ring.
Qed.

Lemma verdict_below_seven_tenths search dialogue context traits :
  let v := validate_dialogue search dialogue context traits in
  score v < 0.7 -> is_valid v = false /\ (severity v = ERROR \/ severity v = CRITICAL).
Proof.
  cbv zeta. intros Hlt.
  destruct (validate_dialogue_parts search dialogue context traits) as (_ & _ & Hsev & Hval).
  cbv zeta in Hsev, Hval.
  assert (Hge : Qgeb (score (validate_dialogue search dialogue context traits)) 0.7 = false).
  { destruct (Qgeb _ 0.7) eqn:E; [| reflexivity]. apply Qgeb_ge in E. lra. }
  rewrite Hval, Hge. split; [reflexivity |].
  rewrite Hsev. apply Qltb_lt in Hlt. rewrite Hlt.
  destruct (Qltb _ 0.5); [right | left]; reflexivity.
Qed.

(** X11. Forbidden content is never judged valid. When at least one
    family of forbidden patterns (violence, inappropriate, real_world,
    meta_gaming) matches, every matching family is reported, the score is
    at most [(1/2)^k] for [k] matching families, and the response is not
    valid, with severity ERROR or CRITICAL. *)
Theorem forbidden_content_is_rejected
    (search : string -> string -> bool)
    (dialogue : DialogueResponse) (context : NPCInteractionContext)
    (traits : option PersonalityTraits) :
  matching_families search (text dialogue) <> [] ->
  let families := matching_families search (text dialogue) in
  let v := validate_dialogue search dialogue context traits in
  score v <= Qpow 0.5 (length families) /\
  score v <= 0.5 /\
  is_valid v = false /\
  (severity v = ERROR \/ severity v = CRITICAL) /\
  (forall entry, In entry families -> In (forbidden_issue entry) (issues v)).
Proof.
  intros Hne. cbv zeta.
  destruct (score_below_factors search dialogue context traits) as [Hle _]. cbv zeta in Hle.
  destruct (forbidden_check_families search (text dialogue)) as [Hf Hs].
  destruct (validate_dialogue_parts search dialogue context traits) as (_ & Hiss & _).
  cbv zeta in Hiss.
  assert (Hk : (1 <= length (matching_families search (text dialogue)))%nat).
  { destruct (matching_families search (text dialogue)); [contradiction | cbn; lia]. }
  assert (Hpow : score (validate_dialogue search dialogue context traits)
                 <= Qpow 0.5 (length (matching_families search (text dialogue)))).
  { rewrite <- Hs. exact Hle. }
  assert (Hhalf : score (validate_dialogue search dialogue context traits) <= 0.5).
  { eapply Qle_trans; [exact Hpow | apply Qpow_half_le; exact Hk]. }
  destruct (verdict_below_seven_tenths search dialogue context traits) as [Hval Hsev].
  { eapply Qle_lt_trans; [exact Hhalf | reflexivity]. }
  cbv zeta in Hval, Hsev.
  split; [exact Hpow |]. split; [exact Hhalf |]. split; [exact Hval |]. split; [exact Hsev |].
  intros entry Hin. rewrite Hiss, Hf. rewrite !in_app_iff. right. left.
  apply in_map. exact Hin.
Qed.

Lemma forbidden_content_is_rejected_witness :
  let v := validate_dialogue sample_search (mkResponse "I will kill time here." "neutral" 0)
             (sample_context "greeting" 0.5) (Some sample_personality) in
  score v <= 0.5 /\ is_valid v = false.
Proof.
  destruct (forbidden_content_is_rejected sample_search
              (mkResponse "I will kill time here." "neutral" 0)
              (sample_context "greeting" 0.5) (Some sample_personality))
    as (_ & Hhalf & Hval & _).
  - vm_compute. discriminate.
  - split; [exact Hhalf | exact Hval].
Defined.

(** X12. Two matching families of forbidden content make the verdict
    CRITICAL: the score is at most 1/4 and the pipeline replaces the
    response by the scripted one. *)
Theorem two_forbidden_families_are_critical
    (search : string -> string -> bool)
    (dialogue : DialogueResponse) (context : NPCInteractionContext)
    (traits : option PersonalityTraits) :
  (2 <= length (matching_families search (text dialogue)))%nat ->
  let v := validate_dialogue search dialogue context traits in
  score v <= 0.25 /\ severity v = CRITICAL /\ replaced_by_fallback v = true.
Proof.
  intros Hk. cbv zeta.
  destruct (score_below_factors search dialogue context traits) as [Hle _]. cbv zeta in Hle.
  destruct (forbidden_check_families search (text dialogue)) as [_ Hs].
  assert (Hq : score (validate_dialogue search dialogue context traits) <= 0.25).
  { eapply Qle_trans; [exact Hle |]. rewrite Hs. apply Qpow_half_le_quarter. exact Hk. }
  destruct (verdict_below_half search dialogue context traits) as [Hsev Hval].
  { eapply Qle_lt_trans; [exact Hq | reflexivity]. }
  cbv zeta in Hsev, Hval.
  split; [exact Hq |]. split; [exact Hsev |].
  unfold replaced_by_fallback. rewrite Hsev, Hval. reflexivity.
Qed.

Lemma two_forbidden_families_are_critical_witness :
  let v := validate_dialogue
             (keyword_search
                [ ("\b(kill|murder|death|die|dead|blood)\b", "kill");
                  ("\b(drug|alcohol|drunk|high)\b", "drunk") ]%string)
             (mkResponse "He would kill for a drink when drunk." "neutral" 0)
             (sample_context "greeting" 0.5) (Some sample_personality) in
  score v <= 0.25 /\ severity v = CRITICAL /\ replaced_by_fallback v = true.
Proof.
  apply (two_forbidden_families_are_critical
           (keyword_search
              [ ("\b(kill|murder|death|die|dead|blood)\b", "kill");
                ("\b(drug|alcohol|drunk|high)\b", "drunk") ]%string)
           (mkResponse "He would kill for a drink when drunk." "neutral" 0)
           (sample_context "greeting" 0.5) (Some sample_personality)).
  vm_compute. lia.
Defined.

Lemma sound_clean (c : CheckResult) : sound_check c -> fst c = [] -> snd c == 1.
Proof. intros [_ [[_ H] | [H _]]] Hnil; [exact H | contradiction]. Qed.

(** X13. A response whose only issue is one family of forbidden content
    scores exactly 1/2: it is invalid with severity ERROR, not CRITICAL, so
    the pipeline logs the issue and returns the response as generated. *)
Theorem lone_forbidden_family_is_kept
    (search : string -> string -> bool)
    (dialogue : DialogueResponse) (context : NPCInteractionContext)
    (traits : option PersonalityTraits) :
  matching_families search (text dialogue) <> [] ->
  let v := validate_dialogue search dialogue context traits in
  length (issues v) = 1%nat ->
  score v == 0.5 /\ severity v = ERROR /\ is_valid v = false /\
  replaced_by_fallback v = false.
Proof.
  intros Hne. cbv zeta. intros Hlen.
  destruct (forbidden_check_families search (text dialogue)) as [Hf Hs].
  destruct (validate_dialogue_parts search dialogue context traits)
    as (Hscore & Hiss & Hsev & Hval).
  cbv zeta in Hscore, Hiss, Hsev, Hval.
  pose proof (canon_check_sound search (text dialogue)) as H1.
  pose proof (tone_check_sound search dialogue context traits) as H3.
  pose proof (meta_check_sound search (text dialogue)) as H4.
  pose proof (mobile_check_sound (text dialogue)) as H5.
  rewrite Hiss, !length_app, Hf, length_map in Hlen.
  assert (Hk : (1 <= length (matching_families search (text dialogue)))%nat).
  { destruct (matching_families search (text dialogue)); [contradiction | cbn; lia]. }
  assert (E1 : fst (_check_canon_violations search (text dialogue)) = [])
    by (apply length_zero_iff_nil; lia).
  assert (E3 : fst (_check_tone_consistency search dialogue context traits) = [])
    by (apply length_zero_iff_nil; lia).
  assert (E4 : fst (_check_meta_references search (text dialogue)) = [])
    by (apply length_zero_iff_nil; lia).
  assert (E5 : fst (_check_mobile_constraints (text dialogue)) = [])
    by (apply length_zero_iff_nil; lia).
  assert (Ek : length (matching_families search (text dialogue)) = 1%nat) by lia.
  assert (Hhalf : score (validate_dialogue search dialogue context traits) == 0.5).
  { rewrite Hscore, Hs, Ek.
    rewrite (sound_clean _ H1 E1), (sound_clean _ H3 E3), (sound_clean _ H4 E4),
      (sound_clean _ H5 E5).
    reflexivity. }
  assert (Hsev' : severity (validate_dialogue search dialogue context traits) = ERROR).
  { rewrite Hsev. rewrite !(Qltb_compat _ _ _ Hhalf). reflexivity. }
  assert (Hval' : is_valid (validate_dialogue search dialogue context traits) = false).
  { apply (verdict_below_seven_tenths search dialogue context traits).
    rewrite Hhalf. reflexivity. }
  split; [exact Hhalf |]. split; [exact Hsev' |]. split; [exact Hval' |].
  unfold replaced_by_fallback. rewrite Hsev', Hval'. reflexivity.
Qed.

Lemma lone_forbidden_family_is_kept_witness :
  let v := validate_dialogue sample_search (mkResponse "I will kill time here." "neutral" 0)
             (sample_context "greeting" 0.5) (Some sample_personality) in
  score v == 0.5 /\ severity v = ERROR /\ is_valid v = false /\
  replaced_by_fallback v = false.
Proof.
  apply (lone_forbidden_family_is_kept sample_search
           (mkResponse "I will kill time here." "neutral" 0)
           (sample_context "greeting" 0.5) (Some sample_personality)).
  - vm_compute. discriminate.
  - vm_compute. reflexivity.
Defined.

(** ** Dialogue cache *)

(** X14. Cache round trip. With the store up and a positive TTL, the
    response stored by [_cache_dialogue] at time [t] is returned by
    [_get_cached_dialogue] for the same key exactly while the clock is
    below [t + ai_cache_ttl]; from then on the read yields nothing. This
    is so for a manager that holds a Redis client; before [initialize()]
    nothing is stored and the read yields nothing at any time. *)
Theorem cache_round_trip
    (am : AIManager) (settings : Settings) (env1 env2 : Env) (cache_key : string)
    (response : DialogueResponse) (w : World) :
  redis_fails env1 (redis_ops w) = false ->
  redis_fails env2 (S (redis_ops w)) = false ->
  (0 < ai_cache_ttl settings)%Z ->
  exists w1 w2,
    _cache_dialogue am settings env1 cache_key response w = (Returned tt, w1) /\
    _get_cached_dialogue am env2 cache_key w1 =
      (Returned (if self_redis am && (now env2 <? now env1 + ai_cache_ttl settings)%Z
                 then Some response else None), w2) /\
    ledger (redis w2) = ledger (redis w).
Proof.
  intros Hup1 Hup2 Httl.
  unfold _cache_dialogue, try_catch.
  destruct (self_redis am) eqn:Hcl; cbn [negb andb].
  2:{ eexists _, _. split; [reflexivity |].
      rewrite get_cached_run. unfold live_entry, after_self_cmd. rewrite Hcl.
      split; reflexivity. }
  destruct (ai_cache_ttl settings <=? 0)%Z eqn:E; [apply Z.leb_le in E; lia |].
  rewrite (redis_cmd_ok _ _ _ Hup1). cbn [fst snd].
  eexists _, _. split; [reflexivity |].
  rewrite get_cached_run. unfold live_entry, after_self_cmd. rewrite Hcl.
  cbn [negb redis redis_ops dialogue_cache after_cmd].
  rewrite Hup2, lookup_insert_eq. split; reflexivity.
Qed.

Lemma cache_round_trip_witness :
  exists w1 w2,
    _cache_dialogue shipped_manager default_settings (sample_env 1000 0) "dialogue:k"
      claude_reply initial_world = (Returned tt, w1) /\
    _get_cached_dialogue shipped_manager (sample_env 4599 0) "dialogue:k" w1 =
      (Returned (if self_redis shipped_manager &&
                    (now (sample_env 4599 0) <?
                     now (sample_env 1000 0) + ai_cache_ttl default_settings)%Z
                 then Some claude_reply else None), w2) /\
    ledger (redis w2) = ledger (redis initial_world).
Proof.
  apply (cache_round_trip shipped_manager default_settings (sample_env 1000 0)
           (sample_env 4599 0) "dialogue:k" claude_reply initial_world).
  - reflexivity.
  - reflexivity.
  - reflexivity.
Defined.

(** ** Local adapter and backend router *)

(** With a healthy probe the local adapter never raises: a failed
    exchange, a status other than 200 and an unusable body all end in the
    canned response. *)
Lemma local_generate_healthy env context personality memories w :
  local_health env (count_health_checks (trace w)) = true ->
  local_generate_dialogue env context personality memories w =
    (Returned (default (_create_fallback_response context personality (local_pick env))
                 (local_answer env)),
     with_trace w [EvHealthCheck; EvLocalGenerate]).
Proof.
  intros Hh. unfold local_generate_dialogue, local_answer.
  unfold bind at 1. unfold _health_check. rewrite Hh. cbn [negb].
  unfold try_catch, bind, emit. cbn [redis redis_ops trace].
  unfold with_trace. rewrite <- app_assoc. cbn [app].
  destruct (local_http env) as [| code [response |]]; [reflexivity | |].
  - destruct (code =? 200)%Z; reflexivity.
  - destruct (code =? 200)%Z; reflexivity.
Qed.

Lemma count_health_checks_snoc (t : list Event) :
  count_health_checks (t ++ [EvHealthCheck]) = S (count_health_checks t).
Proof.
  unfold count_health_checks. rewrite List.filter_app, length_app. cbn. lia.
Qed.

(** The router's path through an accepted local answer. *)
Lemma hybrid_local_accepted hm claude_manager env npc context personality memories w :
  local_enabled hm = true ->
  local_health env (count_health_checks (trace w)) = true ->
  local_health env (S (count_health_checks (trace w))) = true ->
  _should_use_local hm context personality memories (random_draw env) = true ->
  _is_response_too_generic
    (default (_create_fallback_response context personality (local_pick env)) (local_answer env))
    memories context = false ->
  hybrid_generate_dialogue hm claude_manager env npc context personality memories false w =
    (Returned (default (_create_fallback_response context personality (local_pick env))
                 (local_answer env)),
     with_trace w [EvHealthCheck; EvHealthCheck; EvLocalGenerate]).
Proof.
  intros Hen Hh1 Hh2 Hs Hgen.
  unfold hybrid_generate_dialogue. rewrite Hen. cbn [negb andb].
  unfold bind at 1. unfold bind at 1. unfold _health_check at 1.
  rewrite Hh1, Hs. cbn [andb]. unfold ret at 1.
  fold (with_trace w [EvHealthCheck]).
  unfold bind at 1. unfold try_catch. unfold bind at 1.
  rewrite local_generate_healthy
    by (cbn [with_trace trace]; rewrite count_health_checks_snoc; exact Hh2).
  rewrite Hgen. unfold ret. rewrite with_trace_app. reflexivity.
Qed.

(** X15. An accepted local answer is final. With the local backend
    enabled and healthy, the router choosing it, and a parsed local answer
    that [_is_response_too_generic] accepts, the hybrid manager returns
    that answer unchanged; [claude_manager] is not called, whatever it
    would have done, and the store is not touched. *)
Theorem accepted_local_response_is_returned
    (hm : HybridLLMManager) (claude_manager : ClaudeManager) (env : Env) (npc : string)
    (context : NPCInteractionContext) (personality : PersonalityTraits)
    (memories : list MemoryItem) (response : DialogueResponse) (w : World) :
  local_enabled hm = true ->
  local_health env (count_health_checks (trace w)) = true ->
  local_health env (S (count_health_checks (trace w))) = true ->
  _should_use_local hm context personality memories (random_draw env) = true ->
  local_http env = HttpStatus 200 (Some response) ->
  _is_response_too_generic response memories context = false ->
  exists w',
    hybrid_generate_dialogue hm claude_manager env npc context personality memories false w =
      (Returned response, w') /\
    count_claude_calls (trace w') = count_claude_calls (trace w) /\
    count_local_generates (trace w') = S (count_local_generates (trace w)) /\
    redis w' = redis w /\ redis_ops w' = redis_ops w.
Proof.
  intros Hen Hh1 Hh2 Hs Hhttp Hgen.
  assert (Ha : local_answer env = Some response) by (unfold local_answer; rewrite Hhttp; reflexivity).
  exists (with_trace w [EvHealthCheck; EvHealthCheck; EvLocalGenerate]).
  split.
  - rewrite (hybrid_local_accepted hm claude_manager env npc context personality memories w
               Hen Hh1 Hh2 Hs); rewrite Ha; [reflexivity | exact Hgen].
  - cbn [with_trace trace redis redis_ops].
    unfold count_claude_calls, count_local_generates.
    rewrite !List.filter_app, !length_app. cbn. repeat split; lia.
Qed.

Lemma accepted_local_response_is_returned_witness :
  exists w',
    hybrid_generate_dialogue (default_hybrid true) failing_claude
      (sample_env 1000 0) sample_npc (sample_context "greeting" 0.1) sample_personality []
      false initial_world =
      (Returned (mkResponse "Hello there! Welcome!" "neutral" 0.05), w') /\
    count_claude_calls (trace w') = count_claude_calls (trace initial_world).
Proof.
  destruct (accepted_local_response_is_returned (default_hybrid true) failing_claude
              (sample_env 1000 0) sample_npc (sample_context "greeting" 0.1)
              sample_personality [] (mkResponse "Hello there! Welcome!" "neutral" 0.05)
              initial_world)
    as (w' & Hrun & Hc & _); try reflexivity.
  exists w'. split; assumption.
Defined.

(** The canned response of the local adapter holds at most one of the
    phrases the router counts as generic. *)
Lemma canned_response_not_generic context personality k :
  _is_response_too_generic (_create_fallback_response context personality k) [] context = false.
Proof.
  unfold _is_response_too_generic. cbn [is_nil negb andb orb].
  unfold _create_fallback_response.
  assert (Hk : (k mod 3 < 3)%nat) by (apply Nat.mod_upper_bound; lia).
  destruct (Qgtb (relationship_level context) 0.5);
    destruct (Qgtb (verbosity personality) 0.7);
    destruct (Qgtb (friendliness personality) 0.5);
    unfold choice; cbn [length];
    destruct (k mod 3)%nat as [| [| [| n]]]; try lia; reflexivity.
Qed.

(** X16. A local outage does not escalate a request without memories.
    When the probes pass and the router chooses the local backend, but the
    exchange with the model fails (the request raises, the status is not
    200, or the body is unusable), the hybrid manager answers with the
    canned response of the local adapter and does not call
    [claude_manager]. *)
Theorem local_outage_answered_by_canned_response
    (hm : HybridLLMManager) (claude_manager : ClaudeManager) (env : Env) (npc : string)
    (context : NPCInteractionContext) (personality : PersonalityTraits) (w : World) :
  local_enabled hm = true ->
  local_health env (count_health_checks (trace w)) = true ->
  local_health env (S (count_health_checks (trace w))) = true ->
  _should_use_local hm context personality [] (random_draw env) = true ->
  local_answer env = None ->
  hybrid_generate_dialogue hm claude_manager env npc context personality [] false w =
    (Returned (_create_fallback_response context personality (local_pick env)),
     with_trace w [EvHealthCheck; EvHealthCheck; EvLocalGenerate]).
Proof.
  intros Hen Hh1 Hh2 Hs Hnone.
  rewrite (hybrid_local_accepted hm claude_manager env npc context personality [] w
             Hen Hh1 Hh2 Hs); rewrite Hnone; cbn [default].
  - reflexivity.
  - apply canned_response_not_generic.
Qed.

Lemma local_outage_answered_by_canned_response_witness :
  hybrid_generate_dialogue (default_hybrid true) failing_claude
    {| now := 1000; redis_fails := fun _ => false; elapsed_ms := 120;
       fallback_pick := 0; local_pick := 1; random_draw := 0.1;
       local_health := fun _ => true; local_http := HttpStatus 503 None;
       claude_api := ApiRaises; has_db_session := false; re_search := fun _ _ => false |}
    sample_npc (sample_context "greeting" 0.6) sample_personality [] false initial_world =
  (Returned (mkResponse "How have you been?" "neutral" 0.1),
   with_trace initial_world [EvHealthCheck; EvHealthCheck; EvLocalGenerate]).
Proof.
  apply (local_outage_answered_by_canned_response (default_hybrid true) failing_claude
           {| now := 1000; redis_fails := fun _ => false; elapsed_ms := 120;
              fallback_pick := 0; local_pick := 1; random_draw := 0.1;
              local_health := fun _ => true; local_http := HttpStatus 503 None;
              claude_api := ApiRaises; has_db_session := false;
              re_search := fun _ _ => false |}
           sample_npc (sample_context "greeting" 0.6) sample_personality initial_world);
    reflexivity.
Defined.

Lemma should_use_local_declines hm context personality memories r :
  interaction_type context = "battle"%string \/
  ((3 < length memories)%nat /\ List.Exists (fun m => 0.8 < importance m) memories) \/
  use_local_ratio hm <= r ->
  _should_use_local hm context personality memories r = false.
Proof.
  intros H. unfold _should_use_local.
  destruct (Qgtb (relationship_level context) 0.8); [reflexivity |].
  destruct ((3 <? length memories)%nat &&
            existsb (fun m => Qgtb (importance m) 0.8) memories) eqn:Emem; [reflexivity |].
  destruct (String.eqb (interaction_type context) "battle") eqn:Ebattle; [reflexivity |].
  destruct H as [Hb | [[Hlen Hex] | Hr]].
  - rewrite Hb in Ebattle. discriminate.
  - apply andb_false_iff in Emem as [Ef | Ef].
    + apply Nat.ltb_ge in Ef. lia.
    + apply List.Exists_exists in Hex as (m & Hin & Him).
      assert (Ht : existsb (fun m => Qgtb (importance m) 0.8) memories = true).
      { apply existsb_exists. exists m. split; [exact Hin | apply Qgtb_gt; exact Him]. }
      congruence.
  - apply Qltb_ge. exact Hr.
Qed.

(** X17. Battles, rich histories and unlucky draws go to Claude. For a
    battle interaction, for more than three memories one of which has
    importance above 0.8, and for a random draw that is not below the
    local ratio (so always when the ratio is 0), the hybrid manager makes
    no local generation: after at most the health probe it calls
    [claude_manager] once and returns what that call returns or raises. *)
Theorem complex_requests_route_to_claude
    (hm : HybridLLMManager) (claude_manager : ClaudeManager) (env : Env) (npc : string)
    (context : NPCInteractionContext) (personality : PersonalityTraits)
    (memories : list MemoryItem) (force_claude : bool) (w : World) :
  interaction_type context = "battle"%string \/
  ((3 < length memories)%nat /\ List.Exists (fun m => 0.8 < importance m) memories) \/
  use_local_ratio hm <= random_draw env ->
  exists w0,
    (w0 = w \/ w0 = with_trace w [EvHealthCheck]) /\
    hybrid_generate_dialogue hm claude_manager env npc context personality memories
      force_claude w =
    (do! emit (EvClaudeManagerGenerate false) in
     claude_manager npc context personality memories) w0.
Proof.
  intros H. apply hybrid_not_local. apply should_use_local_declines. exact H.
Qed.

Lemma complex_requests_route_to_claude_witness :
  exists w0,
    (w0 = initial_world \/ w0 = with_trace initial_world [EvHealthCheck]) /\
    hybrid_generate_dialogue (default_hybrid true) (answering_claude claude_reply)
      (sample_env 1000 0) sample_npc (sample_context "battle" 0.1) sample_personality []
      false initial_world =
    (do! emit (EvClaudeManagerGenerate false) in
     answering_claude claude_reply sample_npc (sample_context "battle" 0.1)
       sample_personality []) w0.
Proof.
  apply (complex_requests_route_to_claude (default_hybrid true) (answering_claude claude_reply)
           (sample_env 1000 0) sample_npc (sample_context "battle" 0.1) sample_personality []
           false initial_world).
  left. reflexivity.
Defined.

(** ** Cloud adapter *)

Lemma py_len_cons (c : ascii) (s : string) :
  py_len (String c s) =
    ((if ((128 <=? nat_of_ascii c) && (nat_of_ascii c <? 192))%nat then 0 else 1) + py_len s)%nat.
Proof.
  unfold py_len. cbn [list_ascii_of_string List.filter].
  destruct ((128 <=? nat_of_ascii c) && (nat_of_ascii c <? 192))%nat; reflexivity.
Qed.

Lemma py_prefix_len (n : nat) (s : string) : py_len (py_prefix n s) = Nat.min n (py_len s).
Proof.
  revert n. induction s as [| c s IH]; intros n.
  - cbn. lia.
  - cbn [py_prefix]. rewrite (py_len_cons c s).
    destruct ((128 <=? nat_of_ascii c) && (nat_of_ascii c <? 192))%nat eqn:E.
    + rewrite py_len_cons, E, IH. lia.
    + destruct n as [| n].
      * cbn. lia.
      * rewrite py_len_cons, E, IH. lia.
Qed.

Lemma py_prefix_is_prefix (n : nat) (s : string) : String.prefix (py_prefix n s) s = true.
Proof.
  revert n. induction s as [| c s IH]; intros n; [reflexivity |].
  cbn [py_prefix].
  destruct ((128 <=? nat_of_ascii c) && (nat_of_ascii c <? 192))%nat.
  - cbn [String.prefix]. destruct (ascii_dec c c); [apply IH | contradiction].
  - destruct n as [| n]; [reflexivity |].
    cbn [String.prefix]. destruct (ascii_dec c c); [apply IH | contradiction].
Qed.

Lemma py_prefix_all (n : nat) (s : string) : (py_len s <= n)%nat -> py_prefix n s = s.
Proof.
  revert n. induction s as [| c s IH]; intros n Hn; [reflexivity |].
  rewrite py_len_cons in Hn. cbn [py_prefix].
  destruct ((128 <=? nat_of_ascii c) && (nat_of_ascii c <? 192))%nat.
  - f_equal. apply IH. lia.
  - destruct n as [| n]; [lia |]. f_equal. apply IH. lia.
Qed.

(** X18. When Claude answers with text that is not JSON,
    [_generate_claude_dialogue] returns a response holding the first 200
    code points of that text (all of it when it is shorter), with emotion
    "neutral" and no relationship change, after one call of the API and
    without touching the store. *)
Theorem claude_plain_text_is_truncated
    (env : Env) (prompt response_text : string) (w : World) :
  claude_api env = ApiPlainText response_text ->
  exists r,
    _generate_claude_dialogue env prompt w =
      (Returned r, with_trace w [EvClaudeMessagesCreate]) /\
    py_len (text r) = Nat.min 200 (py_len response_text) /\
    String.prefix (text r) response_text = true /\
    ((py_len response_text <= 200)%nat -> text r = response_text) /\
    emotion r = "neutral"%string /\ relationship_change r == 0 /\
    triggers_battle r = false.
Proof.
  intros Hapi. unfold _generate_claude_dialogue, try_catch, bind, emit. rewrite Hapi.
  eexists. split; [reflexivity |]. cbn [text emotion relationship_change triggers_battle].
  split; [apply py_prefix_len |]. split; [apply py_prefix_is_prefix |].
  split; [apply py_prefix_all |]. repeat split.
Qed.

Lemma claude_plain_text_is_truncated_witness :
  exists r,
    _generate_claude_dialogue
      {| now := 1000; redis_fails := fun _ => false; elapsed_ms := 120;
         fallback_pick := 0; local_pick := 0; random_draw := 0.1;
         local_health := fun _ => true; local_http := HttpRaises;
         claude_api := ApiPlainText "Oh, hello again!"; has_db_session := false;
         re_search := fun _ _ => false |} "prompt" initial_world =
      (Returned r, with_trace initial_world [EvClaudeMessagesCreate]) /\
    py_len (text r) = Nat.min 200 (py_len "Oh, hello again!").
Proof.
  destruct (claude_plain_text_is_truncated
              {| now := 1000; redis_fails := fun _ => false; elapsed_ms := 120;
                 fallback_pick := 0; local_pick := 0; random_draw := 0.1;
                 local_health := fun _ => true; local_http := HttpRaises;
                 claude_api := ApiPlainText "Oh, hello again!"; has_db_session := false;
                 re_search := fun _ _ => false |} "prompt" "Oh, hello again!" initial_world)
    as (r & Hrun & Hlen & _); [reflexivity |].
  exists r. split; assumption.
Defined.

(** ** The health probe of the local adapter *)

(** A probe that is due asks the server. *)
Lemma health_check_due (now : Z) (response : LocalLLM.TagsResponse)
    (self : LocalLLM.LocalLLMManager) :
  LocalLLM.has_client self = true ->
  (LocalLLM.last_health_check self + 300 <= now)%Z ->
  LocalLLM.requested (LocalLLM._health_check now response self) = true /\
  (LocalLLM.answered_ok response = false ->
   LocalLLM.answer (LocalLLM._health_check now response self) = false /\
   LocalLLM.last_health_check (LocalLLM.manager (LocalLLM._health_check now response self)) =
     LocalLLM.last_health_check self /\
   LocalLLM.has_client (LocalLLM.manager (LocalLLM._health_check now response self)) = true) /\
  (LocalLLM.answered_ok response = true ->
   LocalLLM.last_health_check (LocalLLM.manager (LocalLLM._health_check now response self)) =
     now /\
   LocalLLM.has_client (LocalLLM.manager (LocalLLM._health_check now response self)) = true /\
   LocalLLM.model_loaded (LocalLLM.manager (LocalLLM._health_check now response self)) =
     LocalLLM.answer (LocalLLM._health_check now response self)).
Proof.
  intros Hclient Hdue. unfold LocalLLM._health_check, LocalLLM.answered_ok.
  rewrite Hclient. cbn [negb].
  assert (E : (now - LocalLLM.last_health_check self <? LocalLLM.health_check_interval)%Z
              = false).
  { apply Z.ltb_ge. unfold LocalLLM.health_check_interval. lia. }
  rewrite E. destruct response as [| code names].
  - cbn. repeat split; try reflexivity; try discriminate; try exact Hclient.
  - destruct (code =? 200)%Z; cbn; repeat split; try reflexivity; try discriminate;
      try exact Hclient.
Qed.

(** A probe within the interval repeats the stored answer. *)
Lemma health_check_within (now : Z) (response : LocalLLM.TagsResponse)
    (self : LocalLLM.LocalLLMManager) :
  LocalLLM.has_client self = true ->
  (now < LocalLLM.last_health_check self + 300)%Z ->
  LocalLLM._health_check now response self =
    {| LocalLLM.answer := LocalLLM.model_loaded self; LocalLLM.manager := self;
       LocalLLM.requested := false |}.
Proof.
  intros Hclient Hin. unfold LocalLLM._health_check. rewrite Hclient. cbn [negb].
  assert (E : (now - LocalLLM.last_health_check self <? LocalLLM.health_check_interval)%Z
              = true).
  { apply Z.ltb_lt. unfold LocalLLM.health_check_interval. lia. }
  rewrite E. reflexivity.
Qed.

(** X19. The health answer is cached for five minutes, and only after a
    status of 200. A probe that is due asks the server. If the server
    answers 200, every [_health_check] within the next 300 seconds repeats
    the answer without a request, whatever the server would say by then.
    If the request raises or gets another status, the answer is false and
    the next call asks the server again. *)
Theorem health_answer_cached_five_minutes
    (now later : Z) (response response' : LocalLLM.TagsResponse)
    (self : LocalLLM.LocalLLMManager) :
  LocalLLM.has_client self = true ->
  (LocalLLM.last_health_check self + 300 <= now)%Z ->
  (now <= later)%Z ->
  let first := LocalLLM._health_check now response self in
  let second := LocalLLM._health_check later response' (LocalLLM.manager first) in
  LocalLLM.requested first = true /\
  (LocalLLM.answered_ok response = true -> (later < now + 300)%Z ->
   LocalLLM.requested second = false /\
   LocalLLM.answer second = LocalLLM.answer first /\
   LocalLLM.manager second = LocalLLM.manager first) /\
  (LocalLLM.answered_ok response = false ->
   LocalLLM.answer first = false /\ LocalLLM.requested second = true).
Proof.
  intros Hclient Hdue Hlater. cbv zeta.
  destruct (health_check_due now response self Hclient Hdue) as (Hreq & Hbad & Hok).
  split; [exact Hreq |]. split.
  - intros Eok Hwithin. destruct (Hok Eok) as (Hlast & Hc & Hloaded).
    rewrite (health_check_within later response' _ Hc) by (rewrite Hlast; exact Hwithin).
    cbn [LocalLLM.requested LocalLLM.answer LocalLLM.manager].
    split; [reflexivity |]. split; [exact Hloaded | reflexivity].
  - intros Ebad. destruct (Hbad Ebad) as (Hans & Hlast & Hc).
    split; [exact Hans |].
    apply (health_check_due later response' _ Hc). rewrite Hlast. lia.
Qed.

Lemma health_answer_cached_five_minutes_witness :
  let first :=
    LocalLLM._health_check 1000 (LocalLLM.TagsStatus 200 ["mistral:7b"; "llama3:latest"]%string)
      (LocalLLM.new_manager "mistral") in
  let second := LocalLLM._health_check 1299 LocalLLM.TagsRaises (LocalLLM.manager first) in
  LocalLLM.requested second = false /\ LocalLLM.answer second = LocalLLM.answer first /\
  LocalLLM.manager second = LocalLLM.manager first.
Proof.
  destruct (health_answer_cached_five_minutes 1000 1299
              (LocalLLM.TagsStatus 200 ["mistral:7b"; "llama3:latest"]%string)
              LocalLLM.TagsRaises (LocalLLM.new_manager "mistral"))
    as (_ & Hcached & _).
  - reflexivity.
  - unfold LocalLLM.new_manager, LocalLLM.datetime_min. cbn [LocalLLM.last_health_check]. lia.
  - lia.
  - apply Hcached; [reflexivity | lia].
Defined.

(** ** Prompt helpers and the interaction memory *)

(** X20. [_format_time_ago] by elapsed whole seconds [s] of a
    non-negative age: "Recently" up to and including one hour, then the
    number of whole hours up to 23, then the number of whole days, the
    hours of which are dropped. *)
Theorem time_ago_of_elapsed_seconds (us : Z) :
  (0 <= us)%Z ->
  let s := (us / 1000000)%Z in
  _format_time_ago (timedelta_of_microseconds us) =
    if (s <=? 3600)%Z then "Recently"%string
    else if (s <? 86400)%Z then (pretty (s / 3600)%Z +:+ " hour(s) ago")%string
    else (pretty (s / 86400)%Z +:+ " day(s) ago")%string.
Proof.
  intros Hus. cbv zeta. unfold _format_time_ago, timedelta_of_microseconds. cbn [days seconds].
  assert (Hd : (us / 86400000000 = us / 1000000 / 86400)%Z).
  { rewrite Z.div_div by lia. reflexivity. }
  assert (Hs0 : (0 <= us / 1000000)%Z) by (apply Z.div_pos; lia).
  destruct (0 <? us / 86400000000)%Z eqn:Edays.
  - apply Z.ltb_lt in Edays. rewrite Hd in Edays.
    assert (H86 : (86400 <= us / 1000000)%Z).
    { destruct (Z_lt_le_dec (us / 1000000) 86400) as [Hlt | Hge]; [| exact Hge].
      rewrite Z.div_small in Edays by lia. lia. }
    destruct (us / 1000000 <=? 3600)%Z eqn:E1; [apply Z.leb_le in E1; lia |].
    destruct (us / 1000000 <? 86400)%Z eqn:E2; [apply Z.ltb_lt in E2; lia |].
    rewrite Hd. reflexivity.
  - apply Z.ltb_ge in Edays. rewrite Hd in Edays.
    assert (H86 : (us / 1000000 < 86400)%Z).
    { destruct (Z_lt_le_dec (us / 1000000) 86400) as [Hlt | Hge]; [exact Hlt |].
      assert (1 <= us / 1000000 / 86400)%Z by (apply Z.div_le_lower_bound; lia). lia. }
    assert (Hsec : (us mod 86400000000 / 1000000 = us / 1000000)%Z).
    { assert (Hsmall : (us < 86400000000)%Z).
      { destruct (Z_lt_le_dec us 86400000000) as [Hlt | Hge]; [exact Hlt |].
        assert (86400 <= us / 1000000)%Z by (apply Z.div_le_lower_bound; lia). lia. }
      rewrite Z.mod_small by lia. reflexivity. }
    rewrite Hsec.
    destruct (us / 1000000 <=? 3600)%Z eqn:E1.
    + apply Z.leb_le in E1.
      destruct (3600 <? us / 1000000)%Z eqn:E3; [apply Z.ltb_lt in E3; lia | reflexivity].
    + apply Z.leb_gt in E1.
      destruct (3600 <? us / 1000000)%Z eqn:E3; [| apply Z.ltb_ge in E3; lia].
      destruct (us / 1000000 <? 86400)%Z eqn:E2; [reflexivity | apply Z.ltb_ge in E2; lia].
Qed.

Lemma time_ago_of_elapsed_seconds_witness :
  _format_time_ago (timedelta_of_microseconds 3600999999) = "Recently"%string /\
  _format_time_ago (timedelta_of_microseconds 3601000000) = "1 hour(s) ago"%string.
Proof.
  split.
  - apply (time_ago_of_elapsed_seconds 3600999999). lia.
  - apply (time_ago_of_elapsed_seconds 3601000000). lia.
Defined.

(** X21. A timestamp in the future reads as hours in the past. For a
    memory stamped up to 23 hours ahead of the clock (by at most 82799
    seconds), [_format_time_ago] answers "k hour(s) ago" with
    [k = 24 - (hours ahead, rounded up)], between 1 and 23. *)
Theorem time_ago_of_future_timestamp (us : Z) :
  (-82799000000 <= us < 0)%Z ->
  let k := ((86400000000 + us) / 1000000 / 3600)%Z in
  (1 <= k <= 23)%Z /\
  _format_time_ago (timedelta_of_microseconds us) = (pretty k +:+ " hour(s) ago")%string.
Proof.
  intros Hus. cbv zeta.
  unfold _format_time_ago, timedelta_of_microseconds. cbn [days seconds].
  assert (Hd : (us / 86400000000 = -1)%Z).
  { symmetry. apply (Z.div_unique us 86400000000 (-1) (us + 86400000000)); lia. }
  assert (Hm : (us mod 86400000000 = 86400000000 + us)%Z).
  { symmetry. apply (Z.mod_unique us 86400000000 (-1) (86400000000 + us)); lia. }
  rewrite Hd, Hm. cbn [Z.ltb Z.compare].
  assert (Hlo : (3601 <= (86400000000 + us) / 1000000)%Z)
    by (apply Z.div_le_lower_bound; lia).
  assert (Hhi : ((86400000000 + us) / 1000000 < 86400)%Z)
    by (apply Z.div_lt_upper_bound; lia).
  split.
  - split.
    + apply Z.div_le_lower_bound; lia.
    + assert ((86400000000 + us) / 1000000 / 3600 < 24)%Z
        by (apply Z.div_lt_upper_bound; lia). lia.
  - destruct (3600 <? (86400000000 + us) / 1000000)%Z eqn:E; [reflexivity |].
    apply Z.ltb_ge in E. lia.
Qed.

Lemma time_ago_of_future_timestamp_witness :
  _format_time_ago (timedelta_of_microseconds (-1000000)) = "23 hour(s) ago"%string.
Proof.
  apply (time_ago_of_future_timestamp (-1000000)). lia.
Defined.

(** X22. A personality without a pronounced trait gets an empty
    description: when curiosity, verbosity and friendliness lie in
    [0.3, 0.7] and humor and competitiveness are at most 0.7 (as for the
    defaults of [PersonalityTraits]), [_format_personality] returns
    "This character is .". *)
Theorem moderate_personality_has_no_description (personality : PersonalityTraits) :
  0.3 <= curiosity personality <= 0.7 ->
  0.3 <= verbosity personality <= 0.7 ->
  0.3 <= friendliness personality <= 0.7 ->
  humor personality <= 0.7 ->
  competitiveness personality <= 0.7 ->
  _format_personality personality = "This character is ."%string.
Proof.
  intros [Hc1 Hc2] [Hv1 Hv2] [Hf1 Hf2] Hh Hk.
  unfold _format_personality, personality_phrases.
  assert (Egt : forall x, x <= 0.7 -> Qgtb x 0.7 = false).
  { intros x Hx. unfold Qgtb. apply Qltb_ge. exact Hx. }
  assert (Elt : forall x, 0.3 <= x -> Qltb x 0.3 = false).
  { intros x Hx. apply Qltb_ge. exact Hx. }
  rewrite !Egt, !Elt by assumption. reflexivity.
Qed.

Lemma moderate_personality_has_no_description_witness :
  _format_personality sample_personality = "This character is ."%string.
Proof.
  apply (moderate_personality_has_no_description sample_personality);
    cbn; try split; discriminate.
Defined.

Lemma Qminq_le_r (x y : Q) : Qminq x y <= y.
Proof.
  unfold Qminq. destruct (Qleb x y) eqn:E.
  - apply Qleb_le in E. exact E.
  - apply Qle_refl.
Qed.

Lemma Qminq_glb (x y z : Q) : z <= x -> z <= y -> z <= Qminq x y.
Proof. intros Hx Hy. unfold Qminq. destruct (Qleb x y); assumption. Qed.

(** The importance of a stored interaction memory never exceeds 1,
    and for a relationship level of at least -0.1 it is not negative: the
    payload then satisfies the bounds [MemoryItem] checks when the memory
    is read back. It is at least [min(1, relationship_level + 0.1)], the
    boosts for achievements, a warm response and a battle only adding to
    it. *)
Theorem stored_memory_importance_is_valid
    (npc : string) (context : NPCInteractionContext) (response : DialogueResponse) :
  -0.1 <= relationship_level context ->
  let payload := _store_interaction_memory npc context response in
  valid_importance (payload_importance payload) /\
  Qminq 1 (relationship_level context + 0.1) <= payload_importance payload.
Proof.
  intros Hrel. cbv zeta. unfold _store_interaction_memory, valid_importance.
  cbn [payload_importance].
  set (b0 := Qminq 1 (relationship_level context + 0.1)).
  assert (H01 : 0 <= b0) by (apply Qminq_glb; lra).
  assert (Hb1 : b0 <= 1) by apply Qminq_upper.
  set (b1 := if negb (is_nil (recent_achievements context)) then b0 + 0.2 else b0).
  assert (H1 : b0 <= b1) by (unfold b1; destruct (negb _); lra).
  set (b2 := if Qgtb (relationship_change response) 0.1 then b1 + 0.1 else b1).
  assert (H2 : b1 <= b2) by (unfold b2; destruct (Qgtb _ _); lra).
  set (b3 := if triggers_battle response then b2 + 0.3 else b2).
  assert (H3 : b2 <= b3) by (unfold b3; destruct (triggers_battle response); lra).
  split; [split |].
  - apply Qminq_glb; lra.
  - apply Qminq_upper.
  - apply Qminq_glb; lra.
Qed.

Lemma stored_memory_importance_is_valid_witness :
  valid_importance
    (payload_importance
       (_store_interaction_memory sample_npc (sample_context "greeting" 0.4) claude_reply)).
Proof.
  apply (stored_memory_importance_is_valid sample_npc (sample_context "greeting" 0.4)
           claude_reply).
  cbn. discriminate.
Defined.

(** ** Gossip propagation *)

Lemma insert_desc_perm (x : Gossip.GossipItem) (l : list Gossip.GossipItem) :
  Permutation (Gossip.insert_desc x l) (x :: l).
Proof.
  induction l as [| y l IH]; [reflexivity |].
  cbn [Gossip.insert_desc]. destruct (Gossip.key_lt x y); [| reflexivity].
  rewrite IH. apply perm_swap.
Qed.

Lemma sort_desc_perm (l : list Gossip.GossipItem) : Permutation (Gossip.sort_desc l) l.
Proof.
  induction l as [| x l IH]; [reflexivity |].
  cbn [Gossip.sort_desc]. rewrite insert_desc_perm, IH. reflexivity.
Qed.

Lemma filter_perm {A} (f : A -> bool) (l l' : list A) :
  Permutation l l' -> Permutation (List.filter f l) (List.filter f l').
Proof.
  induction 1 as [| x l l' _ IH | x y l | l l' l'' _ IH1 _ IH2].
  - reflexivity.
  - cbn [List.filter]. destruct (f x); [constructor |]; exact IH.
  - cbn [List.filter]. destruct (f y), (f x); try reflexivity. apply perm_swap.
  - etransitivity; eassumption.
Qed.

Lemma key_lt_spec (a b : Gossip.GossipItem) :
  Gossip.key_lt a b = true <->
  Gossip.importance a < Gossip.importance b \/
  (Gossip.importance a == Gossip.importance b /\ (Gossip.timestamp a < Gossip.timestamp b)%Z).
Proof.
  unfold Gossip.key_lt. rewrite orb_true_iff, andb_true_iff, Qltb_lt, Qeq_bool_iff, Z.ltb_lt.
  reflexivity.
Qed.

Lemma key_ge_spec (a b : Gossip.GossipItem) :
  Gossip.key_lt a b = false <->
  Gossip.importance b < Gossip.importance a \/
  (Gossip.importance a == Gossip.importance b /\ (Gossip.timestamp b <= Gossip.timestamp a)%Z).
Proof.
  split.
  - intros H.
    destruct (Q_dec (Gossip.importance a) (Gossip.importance b)) as [[Hlt | Hgt] | Heq].
    + assert (Gossip.key_lt a b = true) by (apply key_lt_spec; left; exact Hlt). congruence.
    + left. exact Hgt.
    + right. split; [exact Heq |].
      destruct (Z_lt_le_dec (Gossip.timestamp a) (Gossip.timestamp b)) as [Hts | Hts];
        [| exact Hts].
      assert (Gossip.key_lt a b = true) by (apply key_lt_spec; right; split; assumption).
      congruence.
  - intros H. destruct (Gossip.key_lt a b) eqn:E; [| reflexivity].
    apply key_lt_spec in E. destruct H as [H | [H1 H2]]; destruct E as [E | [E1 E2]];
      try lra; lia.
Qed.

Lemma key_lt_asym (a b : Gossip.GossipItem) :
  Gossip.key_lt a b = true -> Gossip.key_lt b a = false.
Proof.
  intros H. apply key_lt_spec in H. apply key_ge_spec.
  destruct H as [H | [H1 H2]]; [left; exact H | right; split; [symmetry; exact H1 | lia]].
Qed.

Lemma key_ge_trans (a b c : Gossip.GossipItem) :
  Gossip.key_lt a b = false -> Gossip.key_lt b c = false -> Gossip.key_lt a c = false.
Proof.
  intros Hab Hbc. apply key_ge_spec in Hab. apply key_ge_spec in Hbc. apply key_ge_spec.
  destruct Hab as [Hab | [Hab1 Hab2]]; destruct Hbc as [Hbc | [Hbc1 Hbc2]].
  - left. lra.
  - left. lra.
  - left. lra.
  - right. split; [lra | lia].
Qed.

Lemma insert_desc_descending (x : Gossip.GossipItem) (l : list Gossip.GossipItem) :
  descending l -> descending (Gossip.insert_desc x l).
Proof.
  induction l as [| y l IH]; intros Hl.
  - cbn. split; [constructor | exact I].
  - cbn [Gossip.insert_desc]. destruct Hl as [Hy Hl].
    destruct (Gossip.key_lt x y) eqn:E.
    + cbn [descending]. split; [| apply IH; exact Hl].
      apply List.Forall_forall. intros z Hz.
      apply (Permutation_in _ (insert_desc_perm x l)) in Hz. destruct Hz as [<- | Hz].
      * apply key_lt_asym. exact E.
      * rewrite List.Forall_forall in Hy. apply Hy. exact Hz.
    + cbn [descending]. split; [| split; assumption].
      constructor; [exact E |].
      apply List.Forall_forall. intros z Hz. rewrite List.Forall_forall in Hy.
      apply (key_ge_trans x y z E). apply Hy. exact Hz.
Qed.

Lemma sort_desc_descending (l : list Gossip.GossipItem) : descending (Gossip.sort_desc l).
Proof.
  induction l as [| x l IH]; [exact I |].
  cbn [Gossip.sort_desc]. apply insert_desc_descending. exact IH.
Qed.

Lemma descending_firstn (n : nat) (l : list Gossip.GossipItem) :
  descending l -> descending (firstn n l).
Proof.
  revert n. induction l as [| x l IH]; intros n Hl; [destruct n; exact I |].
  destruct n as [| n]; [exact I |]. cbn [firstn descending]. destruct Hl as [Hx Hl].
  split; [| apply IH; exact Hl].
  apply List.Forall_forall. intros z Hz. rewrite List.Forall_forall in Hx. apply Hx.
  rewrite <- (firstn_skipn n l). apply in_or_app. left. exact Hz.
Qed.

Lemma descending_filter (f : Gossip.GossipItem -> bool) (l : list Gossip.GossipItem) :
  descending l -> descending (List.filter f l).
Proof.
  induction l as [| x l IH]; intros Hl; [exact I |].
  destruct Hl as [Hx Hl]. cbn [List.filter]. destruct (f x); [| apply IH; exact Hl].
  cbn [descending]. split; [| apply IH; exact Hl].
  apply List.Forall_forall. intros z Hz. apply List.filter_In in Hz as [Hz _].
  rewrite List.Forall_forall in Hx. apply Hx. exact Hz.
Qed.

(** The list an NPC knows after [_cleanup_npc_gossip]. *)
Lemma cleanup_known now npc gm knowledge :
  Gossip.npc_knowledge gm !! npc = Some knowledge ->
  Gossip.known npc (Gossip._cleanup_npc_gossip now npc gm) =
    List.filter (Gossip.fresh now)
      (if (20 <? length (Gossip.sort_desc (Gossip.known_gossip knowledge)))%nat
       then firstn 20 (Gossip.sort_desc (Gossip.known_gossip knowledge))
       else Gossip.sort_desc (Gossip.known_gossip knowledge)).
Proof.
  intros Hk. unfold Gossip._cleanup_npc_gossip, Gossip.known. rewrite Hk.
  cbn [Gossip.with_knowledge Gossip.npc_knowledge]. rewrite lookup_insert_eq.
  reflexivity.
Qed.

(** X23. [_cleanup_npc_gossip] leaves an NPC with at most 20 items, all
    of them among those it knew and younger than 24 hours, in descending
    order of importance and, for equal importance, of time. When it knew
    at most 20, exactly the items younger than 24 hours remain. The
    active gossip and the knowledge of the other NPCs are untouched. *)
Theorem cleanup_keeps_recent_top_twenty
    (now : Z) (npc : string) (gm : Gossip.GossipPropagationManager)
    (knowledge : Gossip.NPCGossipKnowledge) :
  Gossip.npc_knowledge gm !! npc = Some knowledge ->
  let gm' := Gossip._cleanup_npc_gossip now npc gm in
  let kept := Gossip.known npc gm' in
  (length kept <= 20)%nat /\
  (forall g, In g kept -> In g (Gossip.known_gossip knowledge) /\ Gossip.fresh now g = true) /\
  descending kept /\
  ((length (Gossip.known_gossip knowledge) <= 20)%nat ->
   Permutation kept (List.filter (Gossip.fresh now) (Gossip.known_gossip knowledge))) /\
  Gossip.active_gossip gm' = Gossip.active_gossip gm /\
  (forall other, other <> npc ->
     Gossip.npc_knowledge gm' !! other = Gossip.npc_knowledge gm !! other).
Proof.
  intros Hk. cbv zeta. rewrite (cleanup_known now npc gm knowledge Hk).
  pose proof (sort_desc_perm (Gossip.known_gossip knowledge)) as Hperm.
  pose proof (sort_desc_descending (Gossip.known_gossip knowledge)) as Hsorted.
  set (sorted := Gossip.sort_desc (Gossip.known_gossip knowledge)) in *.
  split; [| split; [| split; [| split; [| split]]]].
  - eapply Nat.le_trans; [apply List.filter_length_le |].
    destruct (20 <? length sorted)%nat eqn:E.
    + rewrite length_firstn. lia.
    + apply Nat.ltb_ge in E. exact E.
  - intros g Hin. apply List.filter_In in Hin as [Hin Hfresh]. split; [| exact Hfresh].
    eapply Permutation_in; [exact Hperm |].
    destruct (20 <? length sorted)%nat; [| exact Hin].
    rewrite <- (firstn_skipn 20 sorted). apply in_or_app. left. exact Hin.
  - apply descending_filter.
    destruct (20 <? length sorted)%nat; [apply descending_firstn |]; exact Hsorted.
  - intros Hlen.
    assert (E : (20 <? length sorted)%nat = false).
    { apply Nat.ltb_ge. rewrite (Permutation_length Hperm). exact Hlen. }
    rewrite E. apply filter_perm. exact Hperm.
  - unfold Gossip._cleanup_npc_gossip. rewrite Hk. reflexivity.
  - intros other Hne. unfold Gossip._cleanup_npc_gossip. rewrite Hk.
    cbn [Gossip.with_knowledge Gossip.npc_knowledge].
    rewrite lookup_insert_ne by congruence. reflexivity.
Qed.

Lemma cleanup_keeps_recent_top_twenty_witness :
  let gm' :=
    Gossip._cleanup_npc_gossip 100000 sample_npc
      (manager_knowing
         [ sample_gossip "gossip_1" Gossip.PLAYER_BEHAVIOR "The trainer helped a child" 0.5 1000;
           sample_gossip "gossip_2" Gossip.BATTLE_RESULT "The trainer won a battle" 0.7 90000 ]) in
  (length (Gossip.known sample_npc gm') <= 20)%nat /\
  forall g, In g (Gossip.known sample_npc gm') -> Gossip.fresh 100000 g = true.
Proof.
  destruct (cleanup_keeps_recent_top_twenty 100000 sample_npc
              (manager_knowing
                 [ sample_gossip "gossip_1" Gossip.PLAYER_BEHAVIOR
                     "The trainer helped a child" 0.5 1000;
                   sample_gossip "gossip_2" Gossip.BATTLE_RESULT
                     "The trainer won a battle" 0.7 90000 ])
              {| Gossip.npc_id := sample_npc;
                 Gossip.known_gossip :=
                   [ sample_gossip "gossip_1" Gossip.PLAYER_BEHAVIOR
                       "The trainer helped a child" 0.5 1000;
                     sample_gossip "gossip_2" Gossip.BATTLE_RESULT
                       "The trainer won a battle" 0.7 90000 ];
                 Gossip.last_updated := 0; Gossip.gossip_receptiveness := 0.5;
                 Gossip.gossip_spreading := 0.5 |})
    as (Hlen & Hin & _); [reflexivity |].
  cbv zeta. split; [exact Hlen |]. intros g Hg. apply (Hin g Hg).
Defined.

(** *** Reputation *)

Lemma reputation_step_within (acc : Gossip.Reputation * Q) (gossip : Gossip.GossipItem) :
  0 <= Gossip.importance gossip -> 0 <= Gossip.reliability gossip ->
  reputation_within acc -> reputation_within (Gossip.reputation_step acc gossip).
Proof.
  intros Hi Hr. unfold reputation_within, Gossip.reputation_step. cbv zeta.
  destruct acc as [scores total]. cbn [fst snd].
  assert (Hw : 0 <= Gossip.importance gossip * Gossip.reliability gossip)
    by (apply Qmult_le_0_compat; assumption).
  set (w := Gossip.importance gossip * Gossip.reliability gossip) in *. clearbody w.
  intros (HT & H1 & H2 & H3 & H4 & H5 & H6 & H7 & H8).
  destruct (Gossip.gossip_type gossip);
    repeat match goal with
           | |- context [if ?b then _ else _] => destruct b
           end;
    cbn [Gossip.trainer_skill Gossip.helpfulness Gossip.trustworthiness Gossip.popularity];
    repeat split; lra.
Qed.

Lemma reputation_fold_within (items : list Gossip.GossipItem) :
  (forall g, In g items -> 0 <= Gossip.importance g /\ 0 <= Gossip.reliability g) ->
  forall acc, reputation_within acc ->
  reputation_within (fold_left Gossip.reputation_step items acc).
Proof.
  induction items as [| g items IH]; intros Hall acc Hacc; [exact Hacc |].
  cbn [fold_left]. apply IH.
  - intros g' Hin. apply Hall. right. exact Hin.
  - destruct (Hall g (or_introl eq_refl)) as [Hi Hr].
    apply reputation_step_within; assumption.
Qed.

Lemma normalized_clamped (score total : Q) :
  -1 <= Gossip.normalized score total /\ Gossip.normalized score total <= 1.
Proof.
  unfold Gossip.normalized. set (y := score / total). clearbody y.
  unfold Qmaxq, Qminq.
  destruct (Qleb 1 y) eqn:E1.
  - destruct (Qleb (-1) 1) eqn:E2; [| discriminate E2]. split; lra.
  - apply Qleb_gt in E1. destruct (Qleb (-1) y) eqn:E2.
    + apply Qleb_le in E2. split; lra.
    + split; lra.
Qed.

(** X24. Whatever an NPC has heard, each of the four scores of the
    reputation summary it derives (trainer skill, helpfulness,
    trustworthiness, popularity) lies between -1 and 1 when no item has a
    negative importance or reliability: with a positive total weight the
    scores are clamped, and without one every item weighed nothing. *)
Theorem reputation_scores_in_range
    (player npc : string) (gm : Gossip.GossipPropagationManager) :
  (forall g, In g (Gossip.known npc gm) ->
     0 <= Gossip.importance g /\ 0 <= Gossip.reliability g) ->
  let r := Gossip.generate_player_reputation_summary player npc gm in
  (-1 <= Gossip.trainer_skill r /\ Gossip.trainer_skill r <= 1) /\
  (-1 <= Gossip.helpfulness r /\ Gossip.helpfulness r <= 1) /\
  (-1 <= Gossip.trustworthiness r /\ Gossip.trustworthiness r <= 1) /\
  (-1 <= Gossip.popularity r /\ Gossip.popularity r <= 1).
Proof.
  intros Hall. cbv zeta. unfold Gossip.generate_player_reputation_summary.
  set (items := Gossip.get_npc_gossip_about_player npc player [] gm).
  assert (Hitems : forall g, In g items ->
            0 <= Gossip.importance g /\ 0 <= Gossip.reliability g).
  { intros g Hin. apply Hall. unfold items, Gossip.get_npc_gossip_about_player in Hin.
    unfold Gossip.known. destruct (Gossip.npc_knowledge gm !! npc) as [k |]; [| destruct Hin].
    cbn [is_nil negb] in Hin.
    apply (Permutation_in _ (sort_desc_perm _)) in Hin.
    apply List.filter_In in Hin as [Hin _]. exact Hin. }
  destruct (is_nil items).
  - cbn. repeat split; discriminate.
  - assert (Hinit : reputation_within (Gossip.no_reputation, 0)).
    { unfold reputation_within. cbn. repeat split; discriminate. }
    pose proof (reputation_fold_within items Hitems _ Hinit) as Hw.
    destruct (fold_left Gossip.reputation_step items (Gossip.no_reputation, 0))
      as [scores total].
    unfold reputation_within in Hw. cbn [fst snd] in Hw.
    destruct Hw as (HT & H1 & H2 & H3 & H4 & H5 & H6 & H7 & H8).
    destruct (Qgtb total 0) eqn:Epos.
    + cbn [Gossip.trainer_skill Gossip.helpfulness Gossip.trustworthiness Gossip.popularity].
      split; [apply normalized_clamped |]. split; [apply normalized_clamped |].
      split; apply normalized_clamped.
    + unfold Qgtb in Epos. apply Qltb_ge in Epos.
      split; [split; lra |]. split; [split; lra |]. split; split; lra.
Qed.

Lemma reputation_scores_in_range_witness :
  let r :=
    Gossip.generate_player_reputation_summary "7d444840-9dc0-11d1-b245-5ffdce74fad2" sample_npc
      (manager_knowing
         [ sample_gossip "gossip_1" Gossip.PLAYER_BEHAVIOR "The trainer helped a child" 0.5 1000;
           sample_gossip "gossip_2" Gossip.BATTLE_RESULT "The trainer won a battle" 0.7 90000 ]) in
  -1 <= Gossip.trainer_skill r /\ Gossip.trainer_skill r <= 1.
Proof.
  apply (reputation_scores_in_range "7d444840-9dc0-11d1-b245-5ffdce74fad2" sample_npc
           (manager_knowing
              [ sample_gossip "gossip_1" Gossip.PLAYER_BEHAVIOR
                  "The trainer helped a child" 0.5 1000;
                sample_gossip "gossip_2" Gossip.BATTLE_RESULT
                  "The trainer won a battle" 0.7 90000 ])).
  intros g [<- | [<- | []]]; split; cbn; discriminate.
Defined.

(** *** Gossip from interactions *)

Lemma gossip_importance_bounds context response :
  0.3 <= _calculate_gossip_importance context response /\
  _calculate_gossip_importance context response <= 1 /\
  (interaction_type context = "battle"%string ->
   0.7 <= _calculate_gossip_importance context response).
Proof.
  unfold _calculate_gossip_importance. cbv zeta.
  set (i1 := if String.eqb (interaction_type context) "battle" then 0.3 + 0.4
             else if String.eqb (interaction_type context) "quest" then 0.3 + 0.3
             else if String.eqb (interaction_type context) "shop" then 0.3 + 0.2 else 0.3).
  assert (H1 : 0.3 <= i1).
  { unfold i1. repeat match goal with |- context [if ?b then _ else _] => destruct b end; lra. }
  assert (H1b : interaction_type context = "battle"%string -> 0.7 <= i1).
  { intros Hb. unfold i1. rewrite Hb. cbn. lra. }
  set (i2 := if Qgtb (Qabs (relationship_change response)) 0.2 then i1 + 0.3 else i1).
  assert (H2 : i1 <= i2) by (unfold i2; destruct (Qgtb _ _); lra).
  set (i3 := if Qgtb (relationship_level context) 0.8 then i2 + 0.2
             else if Qltb (relationship_level context) 0.2 then i2 + 0.2 else i2).
  assert (H3 : i2 <= i3).
  { unfold i3. repeat match goal with |- context [if ?b then _ else _] => destruct b end; lra. }
  set (i4 := if negb (is_nil (recent_achievements context)) then i3 + 0.3 else i3).
  assert (H4 : i3 <= i4) by (unfold i4; destruct (negb _); lra).
  split; [apply Qminq_glb; lra |]. split; [apply Qminq_upper |].
  intros Hb. specialize (H1b Hb). apply Qminq_glb; lra.
Qed.

(** X25. The threshold of [_create_gossip_from_interaction] never
    applies: the importance of an interaction is at least 0.3 (and at most
    1), so an interaction becomes gossip exactly when
    [_generate_gossip_content] finds a sentence for it; otherwise the
    manager is left as it was. *)
Theorem interaction_gossip_depends_on_content_only
    (now : Z) (gossip_id npc : string)
    (context : NPCInteractionContext) (response : DialogueResponse)
    (gm : Gossip.GossipPropagationManager) :
  0.3 <= _calculate_gossip_importance context response <= 1 /\
  _create_gossip_from_interaction now gossip_id npc context response gm =
    match _generate_gossip_content context response with
    | Some gossip_content =>
        snd (Gossip.create_gossip now gossip_id (_determine_gossip_type context response)
               gossip_content (player_id context) npc
               (_calculate_gossip_importance context response)
               (_generate_gossip_tags context response) gm)
    | None => gm
    end.
Proof.
  destruct (gossip_importance_bounds context response) as (Hlo & Hhi & _).
  split; [split; assumption |].
  unfold _create_gossip_from_interaction. cbv zeta.
  assert (E : Qltb (_calculate_gossip_importance context response) 0.3 = false)
    by (apply Qltb_ge; exact Hlo).
  rewrite E. reflexivity.
Qed.

Lemma sort_desc_single (g : Gossip.GossipItem) : Gossip.sort_desc [g] = [g].
Proof. reflexivity. Qed.

Lemma normalized_exact (score total v : Q) :
  -1 <= v -> v <= 1 -> ~ total == 0 -> score == v * total ->
  Gossip.normalized score total == v.
Proof.
  intros Hlo Hhi Ht Hs. unfold Gossip.normalized.
  assert (Hy : score / total == v) by (rewrite Hs; field; exact Ht).
  set (y := score / total) in *. clearbody y.
  unfold Qmaxq, Qminq.
  destruct (Qleb 1 y) eqn:E1.
  - apply Qleb_le in E1. destruct (Qleb (-1) 1) eqn:E2; [| discriminate E2]. lra.
  - destruct (Qleb (-1) y) eqn:E2; [exact Hy |]. apply Qleb_gt in E2. lra.
Qed.

Lemma interaction_gossip_content_battle context response :
  interaction_type context = "battle"%string ->
  _generate_gossip_content context response =
    Some "The trainer was seen in a monster battle"%string /\
  _determine_gossip_type context response = Gossip.BATTLE_RESULT.
Proof.
  intros Hb. unfold _generate_gossip_content, _determine_gossip_type. rewrite Hb.
  split; reflexivity.
Qed.

Lemma known_cons npc gm (g : Gossip.GossipItem) (l : list Gossip.GossipItem) :
  Gossip.known npc gm = g :: l ->
  exists k, Gossip.npc_knowledge gm !! npc = Some k /\ Gossip.known_gossip k = g :: l.
Proof.
  unfold Gossip.known. destruct (Gossip.npc_knowledge gm !! npc) as [k |]; [| discriminate].
  intros H. exists k. split; [reflexivity | exact H].
Qed.

(** X26. Gossip from a battle interaction counts against the player. For
    an interaction of type "battle" with an NPC the manager knows and that
    has heard nothing yet, [_create_gossip_from_interaction] always stores
    a BATTLE_RESULT item with the sentence "The trainer was seen in a
    monster battle" and importance between 0.7 and 1, the NPC knows it,
    and, as the sentence does not say "won", the reputation summary the
    NPC then has of the player shows a trainer skill of -0.3, whoever won. *)
Theorem battle_interaction_gossip_lowers_trainer_skill
    (now : Z) (gossip_id npc : string)
    (context : NPCInteractionContext) (response : DialogueResponse)
    (gm : Gossip.GossipPropagationManager) (knowledge : Gossip.NPCGossipKnowledge) :
  interaction_type context = "battle"%string ->
  Gossip.npc_knowledge gm !! npc = Some knowledge ->
  Gossip.known_gossip knowledge = [] ->
  let gm' := _create_gossip_from_interaction now gossip_id npc context response gm in
  (exists g,
     Gossip.active_gossip gm' !! gossip_id = Some g /\
     Gossip.known npc gm' = [g] /\
     Gossip.gossip_type g = Gossip.BATTLE_RESULT /\
     Gossip.content g = "The trainer was seen in a monster battle"%string /\
     0.7 <= Gossip.importance g /\ Gossip.importance g <= 1) /\
  Gossip._npc_knows_gossip npc gossip_id gm' = true /\
  Gossip.trainer_skill
    (Gossip.generate_player_reputation_summary (player_id context) npc gm') == -0.3.
Proof.
  intros Hbattle Hk Hnil. cbv zeta.
  destruct (gossip_importance_bounds context response) as (Hlo & Hhi & H07).
  specialize (H07 Hbattle).
  destruct (interaction_gossip_content_battle context response Hbattle) as (Hc & Ht).
  unfold _create_gossip_from_interaction. cbv zeta.
  assert (E : Qltb (_calculate_gossip_importance context response) 0.3 = false)
    by (apply Qltb_ge; exact Hlo).
  rewrite E, Hc, Ht.
  set (imp := _calculate_gossip_importance context response) in *. clearbody imp.
  set (g := {| Gossip.id := gossip_id; Gossip.gossip_type := Gossip.BATTLE_RESULT;
               Gossip.content := "The trainer was seen in a monster battle";
               Gossip.player_id := player_id context; Gossip.source_npc_id := npc;
               Gossip.importance := imp; Gossip.timestamp := now; Gossip.reliability := 1;
               Gossip.spread_count := 0; Gossip.max_spread := 5;
               Gossip.tags := _generate_gossip_tags context response |}).
  assert (Hknown :
    Gossip.known npc
      (snd (Gossip.create_gossip now gossip_id Gossip.BATTLE_RESULT
              "The trainer was seen in a monster battle" (player_id context) npc imp
              (_generate_gossip_tags context response) gm)) = [g] /\
    Gossip.active_gossip
      (snd (Gossip.create_gossip now gossip_id Gossip.BATTLE_RESULT
              "The trainer was seen in a monster battle" (player_id context) npc imp
              (_generate_gossip_tags context response) gm)) !! gossip_id = Some g).
  { unfold Gossip.create_gossip. cbv zeta. cbn [Gossip.npc_knowledge]. rewrite Hk.
    cbn [snd]. fold g. split.
    - erewrite cleanup_known
        by (cbn [Gossip.with_knowledge Gossip.npc_knowledge]; apply lookup_insert_eq).
      cbn [Gossip.with_known Gossip.known_gossip]. rewrite Hnil. cbn [app].
      rewrite sort_desc_single. cbn [length Nat.ltb Nat.leb List.filter].
      unfold Gossip.fresh at 1. cbn [Gossip.timestamp g].
      assert (Hf : (now - Gossip.time_decay_hours * 3600 <? now)%Z = true).
      { apply Z.ltb_lt. unfold Gossip.time_decay_hours. lia. }
      unfold g at 1. cbn [Gossip.timestamp]. rewrite Hf. reflexivity.
    - unfold Gossip._cleanup_npc_gossip.
      cbn [Gossip.with_knowledge Gossip.npc_knowledge]. rewrite lookup_insert_eq.
      cbn [Gossip.with_knowledge Gossip.active_gossip]. apply lookup_insert_eq. }
  destruct Hknown as [Hknown Hactive].
  split; [| split].
  - exists g. repeat split; try assumption; reflexivity.
  - unfold Gossip._npc_knows_gossip.
    destruct (known_cons _ _ _ _ Hknown) as (k & Hlook & Hl). rewrite Hlook, Hl.
    cbn [existsb g Gossip.id]. rewrite String.eqb_refl. reflexivity.
  - unfold Gossip.generate_player_reputation_summary, Gossip.get_npc_gossip_about_player.
    destruct (known_cons _ _ _ _ Hknown) as (k & Hlook & Hl). rewrite Hlook, Hl.
    cbn [is_nil negb List.filter g Gossip.player_id].
    rewrite String.eqb_refl. fold g. rewrite sort_desc_single. cbn [is_nil fold_left].
    unfold Gossip.reputation_step. cbv zeta.
    cbn [fst snd g Gossip.gossip_type Gossip.content Gossip.importance Gossip.reliability].
    change (contains (lower "The trainer was seen in a monster battle") "won") with false.
    cbv iota.
    assert (Hpos : Qgtb (0 + imp * 1) 0 = true) by (apply Qgtb_gt; lra).
    rewrite Hpos. cbn [Gossip.trainer_skill Gossip.no_reputation].
    apply normalized_exact; [lra | lra | lra | ring].
Qed.

Lemma battle_interaction_gossip_lowers_trainer_skill_witness :
  Gossip.trainer_skill
    (Gossip.generate_player_reputation_summary
       (player_id (sample_context "battle" 0.5)) sample_npc
       (_create_gossip_from_interaction 1000 "gossip_1000.0_4711" sample_npc
          (sample_context "battle" 0.5) (mkResponse "What a fight! You won fair and square." "happy" 0.1)
          (manager_knowing []))) == -0.3.
Proof.
  apply (battle_interaction_gossip_lowers_trainer_skill 1000 "gossip_1000.0_4711" sample_npc
           (sample_context "battle" 0.5)
           (mkResponse "What a fight! You won fair and square." "happy" 0.1)
           (manager_knowing []) (Gossip.new_knowledge sample_npc 0)).
  - reflexivity.
  - reflexivity.
  - reflexivity.
Defined.

Lemma unit_interval_mult (a b : Q) :
  0 <= a -> a <= 1 -> 0 <= b -> b <= 1 -> 0 <= a * b /\ a * b <= 1.
Proof.
  intros Ha0 Ha1 Hb0 Hb1. split; [apply Qmult_le_0_compat; assumption |].
  apply Qle_trans with (1 * b); [| lra].
  apply Qmult_le_compat_r; assumption.
Qed.

Lemma time_decay_bounds (now stamp : Z) :
  (stamp <= now)%Z ->
  let d := Qmaxq 0 (1 - inject_Z (now - stamp) / 3600 / inject_Z Gossip.time_decay_hours) in
  0 <= d /\ d <= 1 /\ ((stamp + 86400 <= now)%Z -> d == 0).
Proof.
  intros Hle. cbv zeta.
  assert (Hage : 0 <= inject_Z (now - stamp)).
  { change 0 with (inject_Z 0). rewrite <- Zle_Qle. lia. }
  assert (Hdiv : inject_Z (now - stamp) / 3600 / inject_Z Gossip.time_decay_hours ==
                 inject_Z (now - stamp) / 86400).
  { unfold Gossip.time_decay_hours. field. }
  set (x := inject_Z (now - stamp) / 3600 / inject_Z Gossip.time_decay_hours) in *.
  assert (H0 : 0 <= x).
  { rewrite Hdiv. apply Qle_shift_div_l; [reflexivity | lra]. }
  assert (Hold : (stamp + 86400 <= now)%Z -> 1 <= x).
  { intros H. rewrite Hdiv. apply Qle_shift_div_l; [reflexivity |].
    change (1 * 86400) with (inject_Z 86400). rewrite <- Zle_Qle. lia. }
  clearbody x. unfold Qmaxq.
  destruct (Qleb 0 (1 - x)) eqn:E.
  - apply Qleb_le in E. split; [exact E |]. split; [lra |].
    intros H. specialize (Hold H). lra.
  - split; [lra |]. split; [lra |]. intros _. reflexivity.
Qed.

(** X27. A piece of gossip passes to a neighbour with probability at
    most 0.3, and with probability 0 once it is 24 hours old. This holds
    when the importance and reliability of the item and the receptiveness
    and spreading traits of the NPCs lie in [0, 1] and the item is not
    stamped in the future. *)
Theorem spread_probability_at_most_base
    (now : Z) (gossip : Gossip.GossipItem) (source_npc target_npc : string)
    (gm : Gossip.GossipPropagationManager) :
  0 <= Gossip.importance gossip <= 1 ->
  0 <= Gossip.reliability gossip <= 1 ->
  (forall npc knowledge,
     Gossip.npc_knowledge gm !! npc = Some knowledge ->
     0 <= Gossip.gossip_receptiveness knowledge <= 1 /\
     0 <= Gossip.gossip_spreading knowledge <= 1) ->
  (Gossip.timestamp gossip <= now)%Z ->
  let p := Gossip._calculate_spread_probability now gossip source_npc target_npc gm in
  0 <= p /\ p <= 0.3 /\ ((Gossip.timestamp gossip + 86400 <= now)%Z -> p == 0).
Proof.
  intros [Hi0 Hi1] [Hr0 Hr1] Htraits Hstamp. cbv zeta.
  unfold Gossip._calculate_spread_probability. cbv zeta.
  destruct (time_decay_bounds now (Gossip.timestamp gossip) Hstamp) as (Hd0 & Hd1 & Hdz).
  cbv zeta in Hd0, Hd1, Hdz.
  set (d := Qmaxq 0 (1 - inject_Z (now - Gossip.timestamp gossip) / 3600 /
                         inject_Z Gossip.time_decay_hours)) in *.
  clearbody d.
  set (rc := match Gossip.npc_knowledge gm !! target_npc with
             | Some target_knowledge => Gossip.gossip_receptiveness target_knowledge
             | None => 0.5
             end).
  set (sp := match Gossip.npc_knowledge gm !! source_npc with
             | Some source_knowledge => Gossip.gossip_spreading source_knowledge
             | None => 0.5
             end).
  assert (Hrc : 0 <= rc /\ rc <= 1).
  { unfold rc. destruct (Gossip.npc_knowledge gm !! target_npc) as [k |] eqn:E.
    - destruct (Htraits _ _ E) as [[? ?] _]. split; assumption.
    - split; lra. }
  assert (Hsp : 0 <= sp /\ sp <= 1).
  { unfold sp. destruct (Gossip.npc_knowledge gm !! source_npc) as [k |] eqn:E.
    - destruct (Htraits _ _ E) as [_ [? ?]]. split; assumption.
    - split; lra. }
  clearbody rc sp. destruct Hrc as [Hrc0 Hrc1]. destruct Hsp as [Hsp0 Hsp1].
  set (i := Gossip.importance gossip) in *. set (r := Gossip.reliability gossip) in *.
  clearbody i r.
  destruct (unit_interval_mult i r Hi0 Hi1 Hr0 Hr1) as [A0 A1].
  destruct (unit_interval_mult (i * r) rc A0 A1 Hrc0 Hrc1) as [B0 B1].
  destruct (unit_interval_mult (i * r * rc) sp B0 B1 Hsp0 Hsp1) as [C0 C1].
  destruct (unit_interval_mult (i * r * rc * sp) d C0 C1 Hd0 Hd1) as [D0 D1].
  assert (E : Gossip.base_spread_probability * i * r * rc * sp * d ==
              0.3 * (i * r * rc * sp * d)) by (unfold Gossip.base_spread_probability; ring).
  set (q := i * r * rc * sp * d) in *.
  set (f := Gossip.base_spread_probability * i * r * rc * sp * d) in *.
  assert (Hf0 : 0 <= f) by (rewrite E; lra).
  assert (Hf1 : f <= 0.3) by (rewrite E; lra).
  assert (Hmin : Qminq 1 f = f).
  { unfold Qminq. destruct (Qleb 1 f) eqn:E1; [| reflexivity]. apply Qleb_le in E1. lra. }
  rewrite Hmin. split; [exact Hf0 |]. split; [exact Hf1 |].
  intros Hold. specialize (Hdz Hold). rewrite E. unfold q. rewrite Hdz. ring.
Qed.

Lemma spread_probability_at_most_base_witness :
  let p :=
    Gossip._calculate_spread_probability 4600
      (sample_gossip "gossip_2" Gossip.BATTLE_RESULT "The trainer won a battle" 0.7 1000)
      sample_npc "npc_b" (manager_knowing []) in
  0 <= p /\ p <= 0.3.
Proof.
  destruct (spread_probability_at_most_base 4600
              (sample_gossip "gossip_2" Gossip.BATTLE_RESULT "The trainer won a battle" 0.7 1000)
              sample_npc "npc_b" (manager_knowing []))
    as (H0 & H1 & _).
  - split; cbn; discriminate.
  - split; cbn; discriminate.
  - intros npc knowledge Hlook. unfold manager_knowing in Hlook.
    cbn [Gossip.npc_knowledge] in Hlook.
    apply lookup_singleton_Some in Hlook as [_ <-]. cbn. repeat split; discriminate.
  - cbn. lia.
  - split; assumption.
Defined.

Lemma known_in npc gm (g : Gossip.GossipItem) :
  In g (Gossip.known npc gm) ->
  exists k, Gossip.npc_knowledge gm !! npc = Some k /\ In g (Gossip.known_gossip k).
Proof.
  unfold Gossip.known. destruct (Gossip.npc_knowledge gm !! npc) as [k |]; [| intros []].
  intros H. exists k. split; [reflexivity | exact H].
Qed.

(** X28. Spreading round trip. After [_spread_to_npc] hands an item
    younger than 24 hours to an NPC that knows fewer than 20 items (or is
    new to the manager), [_npc_knows_gossip] answers true for that NPC and
    the item's id; the NPC holds a copy with the same content, itself as
    source, 0.9 times the importance and 0.85 times the reliability. The
    active gossip is unchanged. *)
Theorem spread_gossip_becomes_known
    (now : Z) (gossip : Gossip.GossipItem) (target_npc : string)
    (gm : Gossip.GossipPropagationManager) :
  Gossip.fresh now gossip = true ->
  (length (Gossip.known target_npc gm) < 20)%nat ->
  let gm' := Gossip._spread_to_npc now gossip target_npc gm in
  Gossip._npc_knows_gossip target_npc (Gossip.id gossip) gm' = true /\
  (exists copy,
     In copy (Gossip.known target_npc gm') /\
     Gossip.id copy = Gossip.id gossip /\
     Gossip.content copy = Gossip.content gossip /\
     Gossip.source_npc_id copy = target_npc /\
     Gossip.importance copy = Gossip.importance gossip * 0.9 /\
     Gossip.reliability copy = Gossip.reliability gossip * 0.85) /\
  (length (Gossip.known target_npc gm') <= 20)%nat /\
  Gossip.active_gossip gm' = Gossip.active_gossip gm.
Proof.
  intros Hfresh Hlen. cbv zeta. unfold Gossip._spread_to_npc. cbv zeta.
  set (copy := {| Gossip.id := Gossip.id gossip;
                  Gossip.gossip_type := Gossip.gossip_type gossip;
                  Gossip.content := Gossip.content gossip;
                  Gossip.player_id := Gossip.player_id gossip;
                  Gossip.source_npc_id := target_npc;
                  Gossip.importance := Gossip.importance gossip * 0.9;
                  Gossip.timestamp := Gossip.timestamp gossip;
                  Gossip.reliability := Gossip.reliability gossip * 0.85;
                  Gossip.spread_count := Gossip.spread_count gossip;
                  Gossip.max_spread := Gossip.max_spread gossip;
                  Gossip.tags := Gossip.tags gossip |}).
  set (k0 := match Gossip.npc_knowledge gm !! target_npc with
             | Some knowledge => knowledge
             | None => {| Gossip.npc_id := target_npc; Gossip.known_gossip := [];
                          Gossip.last_updated := now; Gossip.gossip_receptiveness := 0.5;
                          Gossip.gossip_spreading := 0.5 |}
             end).
  assert (Hk0 : Gossip.known_gossip k0 = Gossip.known target_npc gm).
  { unfold k0, Gossip.known. destruct (Gossip.npc_knowledge gm !! target_npc); reflexivity. }
  set (k1 := {| Gossip.npc_id := Gossip.npc_id k0;
                Gossip.known_gossip := Gossip.known_gossip k0 ++ [copy];
                Gossip.last_updated := now;
                Gossip.gossip_receptiveness := Gossip.gossip_receptiveness k0;
                Gossip.gossip_spreading := Gossip.gossip_spreading k0 |}).
  assert (Hlook : Gossip.npc_knowledge (Gossip.with_knowledge gm target_npc k1) !! target_npc
                  = Some k1) by apply lookup_insert_eq.
  pose proof (cleanup_known now target_npc _ k1 Hlook) as Hknown.
  pose proof (sort_desc_perm (Gossip.known_gossip k1)) as Hperm.
  assert (Hlen1 : length (Gossip.known_gossip k1) = S (length (Gossip.known target_npc gm))).
  { unfold k1. cbn [Gossip.known_gossip]. rewrite length_app, Hk0. cbn. lia. }
  assert (E : (20 <? length (Gossip.sort_desc (Gossip.known_gossip k1)))%nat = false).
  { apply Nat.ltb_ge. rewrite (Permutation_length Hperm), Hlen1. lia. }
  rewrite E in Hknown.
  assert (Hin : In copy (Gossip.known target_npc
                           (Gossip._cleanup_npc_gossip now target_npc
                              (Gossip.with_knowledge gm target_npc k1)))).
  { rewrite Hknown. apply List.filter_In. split.
    - apply (Permutation_in _ (Permutation_sym Hperm)).
      unfold k1. cbn [Gossip.known_gossip]. apply in_or_app. right. left. reflexivity.
    - exact Hfresh. }
  split; [| split; [| split]].
  - unfold Gossip._npc_knows_gossip.
    destruct (known_in _ _ _ Hin) as (k & Hk & Hink). rewrite Hk.
    apply existsb_exists. exists copy. split; [exact Hink |].
    unfold copy. cbn [Gossip.id]. apply String.eqb_refl.
  - exists copy. split; [exact Hin |]. repeat split.
  - rewrite Hknown. eapply Nat.le_trans; [apply List.filter_length_le |].
    rewrite (Permutation_length Hperm), Hlen1. lia.
  - unfold Gossip._cleanup_npc_gossip. rewrite Hlook. reflexivity.
Qed.

Lemma spread_gossip_becomes_known_witness :
  Gossip._npc_knows_gossip "npc_b" "gossip_2"
    (Gossip._spread_to_npc 4600
       (sample_gossip "gossip_2" Gossip.BATTLE_RESULT "The trainer won a battle" 0.7 1000)
       "npc_b" (manager_knowing [])) = true.
Proof.
  apply (spread_gossip_becomes_known 4600
           (sample_gossip "gossip_2" Gossip.BATTLE_RESULT "The trainer won a battle" 0.7 1000)
           "npc_b" (manager_knowing [])).
  - reflexivity.
  - vm_compute. lia.
Defined.

(** ** Emotional state of NPCs *)

Lemma decay_factor_vanishes (rate hours : Q) :
  1 <= rate * hours -> Qmaxq 0 (1 - rate * hours) == 0.
Proof.
  intros H. unfold Qmaxq. destruct (Qleb 0 (1 - rate * hours)) eqn:E; [| reflexivity].
  apply Qleb_le in E. lra.
Qed.

(** X29. Decay. Once time has passed since the last update,
    [_apply_emotional_decay] leaves a primary intensity of at least 0.2 and
    a secondary emotion only with an intensity of at least 0.1. After ten
    hours without update an NPC whose recovery trait is not negative is
    back at its baseline mood with intensity 0.3 and no secondary emotion,
    whatever it felt before. *)
Theorem idle_npc_returns_to_baseline (now : Z) (emotional_state : Emotion.NPCEmotionalState) :
  (Emotion.last_update emotional_state < now)%Z ->
  0 <= Emotion.emotional_recovery emotional_state ->
  let s := Emotion._apply_emotional_decay now emotional_state in
  0.2 <= Emotion.emotion_intensity s /\
  (Emotion.secondary_emotion s = None \/ 0.1 <= Emotion.secondary_intensity s) /\
  ((Emotion.last_update emotional_state + 36000 <= now)%Z ->
   Emotion.primary_emotion s = Emotion.baseline_mood emotional_state /\
   Emotion.emotion_intensity s = 0.3 /\
   Emotion.secondary_emotion s = None).
Proof.
  intros Hlater Hrec. cbv zeta. unfold Emotion._apply_emotional_decay. cbv zeta.
  set (hours := inject_Z (now - Emotion.last_update emotional_state) / 3600).
  assert (Hpos : 0 < hours).
  { unfold hours. apply Qlt_shift_div_l; [reflexivity |].
    change (0 * 3600) with (inject_Z 0). rewrite <- Zlt_Qlt. lia. }
  assert (Egt : Qgtb hours 0 = true) by (apply Qgtb_gt; exact Hpos).
  rewrite Egt.
  set (rate := Emotion.emotion_decay_rate * (1 + Emotion.emotional_recovery emotional_state)).
  assert (Hrate : 0.1 <= rate) by (unfold rate, Emotion.emotion_decay_rate; lra).
  set (factor := Qmaxq 0 (1 - rate * hours)).
  cbn [Emotion.emotion_intensity Emotion.secondary_emotion Emotion.secondary_intensity
       Emotion.primary_emotion].
  split; [| split].
  - destruct (Qltb (Emotion.emotion_intensity emotional_state * factor) 0.2) eqn:E;
      cbn [snd]; [lra | apply Qltb_ge in E; exact E].
  - destruct (Emotion.secondary_emotion emotional_state) as [e |]; [| left; reflexivity].
    destruct (Qltb (Emotion.secondary_intensity emotional_state * factor) 0.1) eqn:E;
      cbn [fst snd]; [left; reflexivity | right; apply Qltb_ge in E; exact E].
  - intros Hten.
    assert (Hh : 10 <= hours).
    { unfold hours. apply Qle_shift_div_l; [reflexivity |].
      change (10 * 3600) with (inject_Z 36000). rewrite <- Zle_Qle. lia. }
    assert (Hone : 1 <= rate * hours).
    { apply Qle_trans with (0.1 * hours); [lra |].
      apply Qmult_le_compat_r; lra. }
    assert (Hf : factor == 0) by (apply decay_factor_vanishes; exact Hone).
    assert (E1 : Qltb (Emotion.emotion_intensity emotional_state * factor) 0.2 = true).
    { apply Qltb_lt. rewrite Hf. lra. }
    rewrite E1. cbn [fst snd]. split; [reflexivity |]. split; [reflexivity |].
    destruct (Emotion.secondary_emotion emotional_state) as [e |]; [| reflexivity].
    assert (E2 : Qltb (Emotion.secondary_intensity emotional_state * factor) 0.1 = true).
    { apply Qltb_lt. rewrite Hf. lra. }
    rewrite E2. reflexivity.
Qed.

Lemma idle_npc_returns_to_baseline_witness :
  let s :=
    Emotion._apply_emotional_decay 40000
      {| Emotion.npc_id := sample_npc; Emotion.primary_emotion := Emotion.ANGRY;
         Emotion.emotion_intensity := 0.9; Emotion.secondary_emotion := Some Emotion.SAD;
         Emotion.secondary_intensity := 0.4; Emotion.recent_stimuli := [];
         Emotion.last_update := 1000; Emotion.emotional_volatility := 0.5;
         Emotion.emotional_recovery := 0.3; Emotion.baseline_mood := Emotion.CONTENT |} in
  Emotion.primary_emotion s = Emotion.CONTENT /\ Emotion.emotion_intensity s = 0.3 /\
  Emotion.secondary_emotion s = None.
Proof.
  destruct (idle_npc_returns_to_baseline 40000
              {| Emotion.npc_id := sample_npc; Emotion.primary_emotion := Emotion.ANGRY;
                 Emotion.emotion_intensity := 0.9; Emotion.secondary_emotion := Some Emotion.SAD;
                 Emotion.secondary_intensity := 0.4; Emotion.recent_stimuli := [];
                 Emotion.last_update := 1000; Emotion.emotional_volatility := 0.5;
                 Emotion.emotional_recovery := 0.3; Emotion.baseline_mood := Emotion.CONTENT |})
    as (_ & _ & Hten).
  - cbn. lia.
  - cbn. discriminate.
  - apply Hten. cbn. lia.
Defined.

Lemma in_unit_interval_bounds (x : Q) :
  Emotion.in_unit_interval x = true -> 0 <= x /\ x <= 1.
Proof.
  unfold Emotion.in_unit_interval. intros H. apply andb_true_iff in H as [H0 H1].
  apply Qleb_le in H0. apply Qleb_le in H1. split; assumption.
Qed.

(** What [get_npc_emotional_state] returns, whatever the row holds. *)
Lemma loaded_state_is_neutral (created read : Z) (db : Emotion.Database) (npc : string) :
  let s := Emotion.get_npc_emotional_state created read db npc in
  Emotion.primary_emotion s = Emotion.NEUTRAL /\
  Emotion.secondary_emotion s = None /\
  Emotion.recent_stimuli s = [] /\
  0.2 <= Emotion.emotion_intensity s /\ Emotion.emotion_intensity s <= 0.5.
Proof.
  cbv zeta. unfold Emotion.get_npc_emotional_state.
  destruct (db !! npc) as [row |]; [| cbn; repeat split; discriminate].
  cbv zeta.
  set (v := default 0.5 (dict_get (Emotion.personality_traits row) "curiosity")).
  set (r := default 0.3 (dict_get (Emotion.personality_traits row) "patience")).
  destruct (Emotion.in_unit_interval v && Emotion.in_unit_interval r) eqn:E;
    [| cbn; repeat split; discriminate].
  apply andb_true_iff in E as [_ Er]. apply in_unit_interval_bounds in Er as [Hr0 Hr1].
  unfold Emotion._apply_emotional_decay. cbv zeta.
  cbn [Emotion.last_update Emotion.emotional_recovery Emotion.emotion_intensity
       Emotion.secondary_emotion Emotion.secondary_intensity Emotion.primary_emotion
       Emotion.baseline_mood Emotion.recent_stimuli].
  set (hours := inject_Z (read - created) / 3600).
  destruct (Qgtb hours 0) eqn:Eh.
  - apply Qgtb_gt in Eh.
    cbn [Emotion.primary_emotion Emotion.secondary_emotion Emotion.recent_stimuli
         Emotion.emotion_intensity fst snd].
    set (factor := Qmaxq 0 (1 - Emotion.emotion_decay_rate * (1 + r) * hours)).
    assert (Hf0 : 0 <= factor) by apply Qmaxq_lower.
    assert (Hf1 : factor <= 1).
    { unfold factor, Qmaxq.
      destruct (Qleb 0 (1 - Emotion.emotion_decay_rate * (1 + r) * hours)); [| lra].
      assert (0 <= Emotion.emotion_decay_rate * (1 + r) * hours).
      { apply Qmult_le_0_compat; [unfold Emotion.emotion_decay_rate; lra | lra]. }
      lra. }
    clearbody factor.
    destruct (Qltb (0.5 * factor) 0.2) eqn:E; cbn [fst snd].
    + repeat split; try reflexivity; lra.
    + apply Qltb_ge in E. repeat split; try reflexivity; lra.
  - cbn. repeat split; discriminate.
Qed.

Lemma lastn_nonempty {A} (n : nat) (l : list A) :
  (0 < n)%nat -> l <> [] -> Emotion.lastn n l <> [].
Proof.
  intros Hn Hl Hnil. unfold Emotion.lastn in Hnil.
  assert (Hlen : length (skipn (length l - n) l) = 0%nat) by (rewrite Hnil; reflexivity).
  rewrite length_skipn in Hlen.
  destruct l as [| x l]; [contradiction |]. cbn [length] in Hlen. lia.
Qed.

(** [apply_stimulus] never changes the database: the state it saves
    holds at least the stimulus just applied. *)
Lemma apply_stimulus_saves_nothing created read now db npc stimulus :
  snd (Emotion.apply_stimulus created read now db npc stimulus) = db.
Proof.
  unfold Emotion.apply_stimulus. cbv zeta. cbn [snd].
  unfold Emotion._save_emotional_state. cbn [Emotion.npc_id Emotion.recent_stimuli].
  destruct (db !! _) as [row |]; [| reflexivity].
  set (l := Emotion.recent_stimuli _ ++ [stimulus]).
  assert (Hl : (1 <= length l)%nat) by (unfold l; rewrite length_app; cbn; lia).
  set (l' := if (10 <? length l)%nat then tl l else l).
  assert (Hl' : l' <> []).
  { unfold l'. destruct (10 <? length l)%nat eqn:E.
    - apply Nat.ltb_lt in E. destruct l as [| x [| y l0]]; cbn in *; try lia. discriminate.
    - destruct l; [cbn in Hl; lia | discriminate]. }
  pose proof (lastn_nonempty 5 l' ltac:(lia) Hl') as Hlast.
  destruct (Emotion.lastn 5 l'); [contradiction | reflexivity].
Qed.

(** X30. The emotional state does not persist. Whatever stimulus
    [apply_stimulus] applies and whatever state it returns, the database is
    left as it was, and a later [get_npc_emotional_state] for the same NPC
    again answers with a NEUTRAL primary emotion, no secondary emotion, an
    empty stimulus history and an intensity between 0.2 and 0.5; the
    influence derived from it carries no dialogue modifiers. *)
Theorem emotional_state_is_not_persistent
    (created read now created' read' : Z) (db : Emotion.Database) (npc : string)
    (stimulus : Emotion.EmotionalStimulus) :
  let result := Emotion.apply_stimulus created read now db npc stimulus in
  let later := Emotion.get_npc_emotional_state created' read' (snd result) npc in
  snd result = db /\
  Emotion.primary_emotion later = Emotion.NEUTRAL /\
  Emotion.secondary_emotion later = None /\
  Emotion.recent_stimuli later = [] /\
  0.2 <= Emotion.emotion_intensity later /\ Emotion.emotion_intensity later <= 0.5 /\
  Emotion.dialogue_modifiers (Emotion.get_emotion_influence_on_dialogue later) = None.
Proof.
  cbv zeta. rewrite apply_stimulus_saves_nothing.
  destruct (loaded_state_is_neutral created' read' db npc) as (Hp & Hs & Hr & Hlo & Hhi).
  cbv zeta in Hp, Hs, Hr, Hlo, Hhi.
  split; [reflexivity |]. split; [exact Hp |]. split; [exact Hs |]. split; [exact Hr |].
  split; [exact Hlo |]. split; [exact Hhi |].
  unfold Emotion.get_emotion_influence_on_dialogue. cbn [Emotion.dialogue_modifiers].
  rewrite Hp. reflexivity.
Qed.

(** The state [apply_stimulus] returns does reflect the stimulus: a won
    battle makes a volatile NPC happy. *)
Example won_battle_makes_happy :
  Emotion.primary_emotion
    (fst (Emotion.apply_stimulus 1000 1000 1001 (sample_database 0.8 0.3) sample_npc
            (sample_stimulus Emotion.BATTLE_WON 0.8 1000))) = Emotion.HAPPY.
Proof. vm_compute. reflexivity. Qed.
